(** * Selection and incremental download of ActivityNet / Open Images samples

    A shallow embedding of the sample-selection code of
    [fiftyone/utils/activitynet.py] and of the capped selection of
    [fiftyone/utils/openimages.py], with the properties of the planner
    ([_downloaded_necessary_samples], [_attempt_to_download]), of the
    class matcher ([_get_matching_samples]) and of the scan of the
    download directory ([_get_downloaded_sample_ids]).

    Python values are modelled as follows: [int] as [Z], [None]-able
    values as [option], [str] as [string], a [dict] as an association
    list in insertion order with unique keys, a [set] as the list of its
    elements in iteration order, exceptions as a result type. *)

From Stdlib Require Import List String Ascii ZArith Bool Lia Permutation Sorted.
Import ListNotations.
Local Open Scope string_scope.
Local Open Scope list_scope.
Local Open Scope Z_scope.

Set Implicit Arguments.

(** Splitting a conjunction into its parts, and no further *)
Ltac splits := repeat match goal with |- _ /\ _ => split end.

(** ** Python built-ins used by the sources *)

Module Py.

Inductive exn : Type :=
| KeyError (key : string)
| NameError (name : string)
| ValueError (msg : string).

(** [len(l)] *)
Definition len {A} (l : list A) : Z := Z.of_nat (List.length l).

(** [x in l] *)
Definition mem (x : string) (l : list string) : bool :=
  if in_dec string_dec x l then true else false.

(** [l[:n]]: everything for [None], the first [n] items for [n >= 0],
    all but the last [-n] items for [n < 0]. *)
Definition slice_to {A} (l : list A) (n : option Z) : list A :=
  match n with
  | None => l
  | Some k =>
      if 0 <=? k then firstn (Z.to_nat k) l
      else firstn (Z.to_nat (len l + k)) l
  end.

(** Truth value of an optional integer: [if n:] *)
Definition truthy (n : option Z) : bool :=
  match n with
  | None => false
  | Some k => negb (k =? 0)
  end.

(** [n is None or n] *)
Definition none_or_truthy (n : option Z) : bool :=
  match n with
  | None => true
  | Some k => negb (k =? 0)
  end.

(** [n -= m], executed only where [n] is an integer *)
Definition isub (n : option Z) (m : Z) : option Z :=
  option_map (fun k => k - m) n.

(** [num is not None and m >= num] *)
Definition reached (num : option Z) (m : Z) : bool :=
  match num with
  | None => false
  | Some k => k <=? m
  end.

(** *** Dictionaries: association lists in insertion order *)

Definition dict (V : Type) : Type := list (string * V).

Definition dict_keys {V} (d : dict V) : list string := map fst d.

Fixpoint dict_get {V} (k : string) (d : dict V) : option V :=
  match d with
  | [] => None
  | (k', v) :: d' => if String.eqb k k' then Some v else dict_get k d'
  end.

(** [d[k] = v]: an existing key keeps its position *)
Fixpoint dict_set {V} (k : string) (v : V) (d : dict V) : dict V :=
  match d with
  | [] => [(k, v)]
  | (k', v') :: d' =>
      if String.eqb k k' then (k', v) :: d' else (k', v') :: dict_set k v d'
  end.

(** [d.update(e)] *)
Definition dict_update {V} (d : dict V) (e : list (string * V)) : dict V :=
  fold_left (fun acc kv => dict_set (fst kv) (snd kv) acc) e d.

(** [d[k]], which raises [KeyError] on a missing key *)
Definition dict_getitem {V} (d : dict V) (k : string) : exn + V :=
  match dict_get k d with
  | Some v => inr v
  | None => inl (KeyError k)
  end.

(** The items of [{i: d[i] for i in ids}], in evaluation order *)
Fixpoint getitems {V} (d : dict V) (ids : list string) : exn + list (string * V) :=
  match ids with
  | [] => inr []
  | i :: rest =>
      match dict_getitem d i with
      | inl e => inl e
      | inr v =>
          match getitems d rest with
          | inl e => inl e
          | inr kvs => inr ((i, v) :: kvs)
          end
      end
  end.

(** [{i: d[i] for i in ids}] *)
Definition dict_comp {V} (d : dict V) (ids : list string) : exn + dict V :=
  match getitems d ids with
  | inl e => inl e
  | inr kvs => inr (dict_update [] kvs)
  end.

End Py.
Import Py.

(** ** Annotation data *)

Record annotation : Type := {
  label : string;
  segment : string  (* the timestamps, kept as their JSON text *)
}.

Record sample_info : Type := {
  subset : string;
  url : string;
  annotations : list annotation
}.

Record raw_annotations : Type := {
  taxonomy : list (string * string);  (* nodeName, parentName *)
  database : dict sample_info
}.

Definition _SPLIT_MAP : dict string :=
  [("training", "train"); ("testing", "test"); ("validation", "validation")].

(** [os.path.join(a, b)] on POSIX, for two components *)
Definition os_path_join (a b : string) : string :=
  if String.prefix "/" b then b
  else if String.eqb a "" then b
  else if String.eqb (String.substring (String.length a - 1) 1 a) "/"
       then (a ++ b)%string
  else (a ++ "/" ++ b)%string.

(** ** Scanning the download directory *)

(** [p.rfind(c)]: the index of the last occurrence, or [-1] *)
Fixpoint rfind_from (c : Ascii.ascii) (p : string) (i last : Z) : Z :=
  match p with
  | EmptyString => last
  | String x p' => rfind_from c p' (i + 1) (if Ascii.eqb x c then i else last)
  end.

Definition rfind (c : Ascii.ascii) (p : string) : Z := rfind_from c p 0 (-1).

(** [p[i:j]] for [0 <= i] *)
Definition substr (p : string) (i j : Z) : string :=
  String.substring (Z.to_nat i) (Z.to_nat (j - i)) p.

(** [s] has a character other than [c] *)
Fixpoint has_other (c : Ascii.ascii) (s : string) : bool :=
  match s with
  | EmptyString => false
  | String x s' => negb (Ascii.eqb x c) || has_other c s'
  end.

(** [os.path.splitext] on POSIX: the extension starts at the last dot of
    the last path component, leading dots of that component aside. *)
Definition os_path_splitext (p : string) : string * string :=
  let sepIndex := rfind "/"%char p in
  let dotIndex := rfind "."%char p in
  if (sepIndex <? dotIndex) && has_other "."%char (substr p (sepIndex + 1) dotIndex)
  then (substr p 0 dotIndex, substr p dotIndex (Z.of_nat (String.length p)))
  else (p, "").

(** [os.remove] of an entry of the directory *)
Definition os_remove (vfn : string) (dir : list string) : list string :=
  filter (fun f => negb (String.eqb f vfn)) dir.

(** The loop of [_get_downloaded_sample_ids] over the listing; [dir] is
    the content of [videos_dir], from which partial downloads are removed. *)
Fixpoint _get_downloaded_sample_ids_loop (video_filenames video_ids dir : list string)
  : list string * list string :=
  match video_filenames with
  | [] => (video_ids, dir)
  | vfn :: rest =>
      let (video_id, ext) := os_path_splitext vfn in
      if String.eqb ext ".part" then
        _get_downloaded_sample_ids_loop rest video_ids (os_remove vfn dir)
      else
        _get_downloaded_sample_ids_loop rest (video_ids ++ [video_id]) dir
  end.

(** [_get_downloaded_sample_ids]: the ids found and the directory left *)
Definition _get_downloaded_sample_ids (dir : list string) : list string * list string :=
  _get_downloaded_sample_ids_loop dir [] dir.

(** The entry is a partial download: its extension is [.part] *)
Definition is_part (vfn : string) : bool :=
  String.eqb (snd (os_path_splitext vfn)) ".part".

(** ** Matching samples against the requested classes *)

(** [set(a).issubset(set(b))] *)
Definition issubset (a b : list string) : bool := forallb (fun c => mem c b) a.

(** Truth value of [set(a) & set(b)] *)
Definition intersects (a b : list string) : bool := existsb (fun c => mem c b) a.

(** The loop of [_get_matching_samples] over [database.items()] *)
Fixpoint _get_matching_samples_loop (activitynet_split : string) (class_set : list string)
    (items : list (string * sample_info))
    (all_class_match any_class_match : dict sample_info)
  : dict sample_info * dict sample_info :=
  match items with
  | [] => (any_class_match, all_class_match)
  | (sample_id, annot_info) :: rest =>
      if negb (String.eqb activitynet_split (subset annot_info)) then
        _get_matching_samples_loop activitynet_split class_set rest
          all_class_match any_class_match
      else
        let annot_labels := map label (annotations annot_info) in
        if issubset class_set annot_labels then
          _get_matching_samples_loop activitynet_split class_set rest
            (dict_set sample_id annot_info all_class_match) any_class_match
        else if intersects class_set annot_labels then
          _get_matching_samples_loop activitynet_split class_set rest
            all_class_match (dict_set sample_id annot_info any_class_match)
        else
          _get_matching_samples_loop activitynet_split class_set rest
            all_class_match any_class_match
  end.

(** [_get_matching_samples]: [(any_class_match, all_class_match)], or the
    [KeyError] of [_SPLIT_MAP[split]] *)
Definition _get_matching_samples (raw : raw_annotations) (classes : list string)
    (split : string) : exn + (dict sample_info * dict sample_info) :=
  match dict_getitem _SPLIT_MAP split with
  | inl e => inl e
  | inr activitynet_split =>
      inr (_get_matching_samples_loop activitynet_split classes (database raw) [] [])
  end.

(** The candidates [download_activitynet_split] hands to the planner:
    [(any_class_samples, all_class_samples)] *)
Definition candidate_samples (raw : raw_annotations) (classes : option (list string))
    (split : string) : exn + (dict sample_info * dict sample_info) :=
  match classes with
  | None => inr (database raw, [])
  | Some cs => _get_matching_samples raw cs split
  end.

(** ** Classes and labels of ActivityNet *)

(** [sorted(l)] on strings: the stable ascending rearrangement *)
Fixpoint insert_sorted (x : string) (l : list string) : list string :=
  match l with
  | [] => [x]
  | y :: l' =>
      if String.leb x y then x :: y :: l' else y :: insert_sorted x l'
  end.

Definition py_sorted (l : list string) : list string :=
  fold_right insert_sorted [] l.

(** [enumerate(l)], counting from [i] *)
Fixpoint enumerate_from {A} (i : Z) (l : list A) : list (Z * A) :=
  match l with
  | [] => []
  | x :: l' => (i, x) :: enumerate_from (i + 1) l'
  end.

(** [target_map = {c: i for i, c in enumerate(all_classes)}] of
    [download_activitynet_split] *)
Definition target_map_of (all_classes : list string) : dict Z :=
  dict_update [] (map (fun ic => (snd ic, fst ic)) (enumerate_from 0 all_classes)).

(** One converted annotation, [{"label": target, "timestamps": timestamps}] *)
Record fo_annot_label : Type := {
  fo_label : Z;
  fo_timestamps : string
}.

(** The converted annotations, [{"classes": ..., "labels": ...}] *)
Record fo_annots : Type := {
  fo_classes : list string;
  fo_labels : dict (list fo_annot_label)
}.

(** The inner loop of [_convert_label_format], over the annotations of
    one sample *)
Fixpoint convert_annotations (annots : list annotation) (target_map : dict Z)
  : exn + list fo_annot_label :=
  match annots with
  | [] => inr []
  | an_annot_label :: rest =>
      match dict_getitem target_map (label an_annot_label) with
      | inl e => inl e
      | inr target =>
          match convert_annotations rest target_map with
          | inl e => inl e
          | inr fo_annot_labels =>
              inr ({| fo_label := target;
                      fo_timestamps := segment an_annot_label |}
                     :: fo_annot_labels)
          end
      end
  end.

(** The outer loop of [_convert_label_format], over
    [activitynet_labels.items()] *)
Fixpoint _convert_label_format_loop (items : list (string * sample_info))
    (target_map : dict Z) (labels : dict (list fo_annot_label))
  : exn + dict (list fo_annot_label) :=
  match items with
  | [] => inr labels
  | (annot_id, annot_info) :: rest =>
      match convert_annotations (annotations annot_info) target_map with
      | inl e => inl e
      | inr fo_annot_labels =>
          _convert_label_format_loop rest target_map
            (dict_set annot_id fo_annot_labels labels)
      end
  end.

Definition _convert_label_format (activitynet_labels : dict sample_info)
    (target_map : dict Z) : exn + fo_annots :=
  match _convert_label_format_loop activitynet_labels target_map [] with
  | inl e => inl e
  | inr labels =>
      inr {| fo_classes := dict_keys target_map; fo_labels := labels |}
  end.

(** The keys of [_ANNOTATION_DOWNLOAD_LINKS] of [activitynet.py], in
    order; the links themselves play no part here *)
Definition activitynet_versions : list string := ["200"; "100"].

(** ** Label types, class names and label data of Open Images *)

Definition _DEFAULT_LABEL_TYPES : list string :=
  ["detections"; "classifications"; "relationships"; "segmentations"].

(** The double quote character, which the message below contains *)
Definition dquote : string := String (Ascii.ascii_of_nat 34) EmptyString.

(** The message of the [ValueError] of [_parse_label_types] *)
Definition unsupported_label_type (l : string) : string :=
  ("Label type " ++ l ++ " is not supported. Options include ("
   ++ dquote ++ "detections" ++ dquote ++ ", "
   ++ dquote ++ "classifications" ++ dquote ++ ", "
   ++ dquote ++ "relationships" ++ dquote ++ ", "
   ++ dquote ++ "segmentations" ++ dquote ++ ")")%string.

(** The loop of [_parse_label_types] *)
Fixpoint _parse_label_types_loop (label_types _label_types : list string)
  : exn + list string :=
  match label_types with
  | [] => inr _label_types
  | l :: rest =>
      if negb (mem l _DEFAULT_LABEL_TYPES) then
        inl (ValueError (unsupported_label_type l))
      else _parse_label_types_loop rest (_label_types ++ [l])
  end.

(** [_parse_label_types]; [None] and the empty list are both falsy *)
Definition _parse_label_types (label_types : option (list string))
  : exn + list string :=
  let label_types :=
    match label_types with
    | None => _DEFAULT_LABEL_TYPES
    | Some [] => _DEFAULT_LABEL_TYPES
    | Some l => l
    end in
  _parse_label_types_loop label_types [].

(** [{v: k for k, v in m.items()}] *)
Definition dict_rev (m : dict string) : dict string :=
  dict_update [] (map (fun kv => (snd kv, fst kv)) m).

(** The loop of [load_open_images_v6] that turns the requested class (or
    attribute) names into ids: [(oi_classes, filtered_classes,
    missing_classes)]. The [try] catches the [KeyError] of the lookup. *)
Fixpoint resolve_names_loop (classes_map_rev : dict string) (classes : list string)
    (oi_classes filtered_classes missing_classes : list string)
  : list string * list string * list string :=
  match classes with
  | [] => (oi_classes, filtered_classes, missing_classes)
  | c :: rest =>
      match dict_getitem classes_map_rev c with
      | inr k =>
          resolve_names_loop classes_map_rev rest
            (oi_classes ++ [k]) (filtered_classes ++ [c]) missing_classes
      | inl _ =>
          resolve_names_loop classes_map_rev rest
            oi_classes filtered_classes (missing_classes ++ [c])
      end
  end.

Definition resolve_names (classes_map : dict string) (classes : list string)
  : list string * list string * list string :=
  resolve_names_loop (dict_rev classes_map) classes [] [] [].

(** [s.add(x)], the set being kept as the list of its elements *)
Definition set_add (x : string) (s : list string) : list string :=
  if mem x s then s else s ++ [x].

(** [[l[i] in oi_classes_attrs for i in label_inds]]; [None] stands for
    the [IndexError] of a row that is too short *)
Fixpoint valid_labels_of (l : list string) (label_inds : list nat)
    (oi_classes_attrs : list string) : option (list bool) :=
  match label_inds with
  | [] => Some []
  | i :: rest =>
      match nth_error l i with
      | None => None
      | Some x =>
          match valid_labels_of l rest oi_classes_attrs with
          | None => None
          | Some bs => Some (mem x oi_classes_attrs :: bs)
          end
      end
  end.

(** The first loop of [_get_label_data], over the rows [data[1:]] *)
Fixpoint _get_label_data_loop (rows : list (list string)) (label_inds : list nat)
    (id_ind : nat) (oi_classes_attrs : list string)
    (label_id_data : dict (list (list string))) (relevant_ids : list string)
  : option (dict (list (list string)) * list string) :=
  match rows with
  | [] => Some (label_id_data, relevant_ids)
  | l :: rest =>
      match nth_error l id_ind with
      | None => None
      | Some image_id =>
          let label_id_data :=
            match dict_get image_id label_id_data with
            | None => dict_set image_id [l] label_id_data
            | Some old => dict_set image_id (old ++ [l]) label_id_data
            end in
          match valid_labels_of l label_inds oi_classes_attrs with
          | None => None
          | Some valid_labels =>
              let relevant_ids :=
                if existsb (fun b => b) valid_labels
                then set_add image_id relevant_ids else relevant_ids in
              _get_label_data_loop rest label_inds id_ind oi_classes_attrs
                label_id_data relevant_ids
          end
      end
  end.

(** The second loop of [_get_label_data]: the images without a relevant
    label keep their key and lose their rows *)
Definition blank_irrelevant (label_id_data : dict (list (list string)))
    (relevant_ids : list string) : dict (list (list string)) :=
  fold_left
    (fun d image_id =>
       if negb (mem image_id relevant_ids) then dict_set image_id [] d else d)
    (dict_keys label_id_data) label_id_data.

(** [_get_label_data] on the parsed csv [data]:
    [(label_id_data, relevant_ids)], or [None] for an [IndexError] *)
Definition _get_label_data (data : list (list string)) (label_inds : list nat)
    (oi_classes oi_attrs : list string) (id_ind : nat)
  : option (dict (list (list string)) * list string) :=
  let oi_classes_attrs := oi_classes ++ oi_attrs in
  match _get_label_data_loop (tl data) label_inds id_ind oi_classes_attrs [] [] with
  | None => None
  | Some (label_id_data, relevant_ids) =>
      Some (blank_irrelevant label_id_data relevant_ids, relevant_ids)
  end.

(** ** A concrete environment

    Instances of the planner's parameters, on which the code is run in
    the examples below. *)

(** A generator that counts its uses; a shuffle reverses the list *)
Definition rev_shuffle (g : nat) (l : list string) : list string * nat :=
  (rev l, S g).

(** Sets that enumerate their elements in insertion order *)
Definition insertion_order (l : list string) : list string := l.

Fixpoint insert_decreasing (x : string) (l : list string) : list string :=
  match l with
  | [] => [x]
  | y :: l' =>
      if String.leb y x then x :: y :: l' else y :: insert_decreasing x l'
  end.

(** Sets that enumerate their elements from the largest to the smallest,
    whatever the insertion order, as a hash table whose slots happen to
    fall in that order (CPython 3 with [PYTHONHASHSEED=2] enumerates the
    set of ["a"], ["b"], ["c"] as c, b, a). *)
Definition decreasing_order (l : list string) : list string :=
  fold_right insert_decreasing [] l.

(** A downloader that fails on the url ["bad"] and on no other *)
Definition url_download (w : unit) (url output_path : string) : bool * unit :=
  (negb (String.eqb url "bad"), w).

(** A downloader that always fails *)
Definition never_download (w : unit) (url output_path : string) : bool * unit :=
  (false, w).

(** A sample of the validation split with the given url and labels *)
Definition video (u : string) (labels : list string) : sample_info :=
  {| subset := "validation"; url := u;
     annotations := map (fun l => {| label := l; segment := "" |}) labels |}.

(** ** The planner of [activitynet.py]

    The surroundings of the planner are parameters: the state of Python's
    global random generator with [random.seed] and [random.shuffle], the
    iteration order of a [set], and the outside world (network and disk)
    on which [youtube_dl] acts. *)

Section ActivityNet.

Variable RNG : Type.
(** [random.seed(seed)]: the new generator state depends on the seed only *)
Variable random_seed : Z -> RNG.
(** [random.shuffle(l)]: the shuffled list and the next generator state *)
Variable random_shuffle : RNG -> list string -> list string * RNG.
Hypothesis random_shuffle_perm :
  forall g l, Permutation l (fst (random_shuffle g l)).

(** The order in which a set enumerates its elements (a matter of hash
    values in CPython), given the elements it was built from. *)
Variable set_iter : list string -> list string.
Hypothesis set_iter_perm : forall l, Permutation l (set_iter l).

Variable World : Type.
(** [ydl.download([url])] with option [outtmpl = output_path]:
    [true] when no exception is raised *)
Variable ydl_download : World -> string -> string -> bool * World.

(** [set(l)], [s.intersection(t)], [s - t]; [list(s)] is [s] itself *)
Definition pyset (l : list string) : list string :=
  set_iter (nodup string_dec l).

Definition set_intersection (s t : list string) : list string :=
  set_iter (filter (fun x => mem x t) s).

Definition set_difference (s t : list string) : list string :=
  set_iter (filter (fun x => negb (mem x t)) s).

(** The state threaded through the planner. [fetch_log] is the trace of
    the calls of [_do_download] made by [_attempt_to_download]: the
    sample id and whether the download succeeded, oldest first. *)
Record state : Type := {
  rng : RNG;
  world : World;
  fetch_log : list (string * bool)
}.

Inductive result (A : Type) : Type :=
| Ok (a : A) (s : state)
| Raise (e : exn) (s : state).
Arguments Ok {A} a s.
Arguments Raise {A} e s.

Definition M (A : Type) : Type := state -> result A.

Definition ret {A} (a : A) : M A := fun s => Ok a s.

Definition bind {A B} (m : M A) (f : A -> M B) : M B :=
  fun s =>
    match m s with
    | Ok a s' => f a s'
    | Raise e s' => Raise e s'
    end.

Notation "x <- m ;; k" := (bind m (fun x => k))
  (at level 61, m at next level, right associativity).

Definition lift {A} (r : exn + A) : M A :=
  fun s => match r with inl e => Raise e s | inr a => Ok a s end.

Definition seed_m (seed : Z) : M unit :=
  fun s => Ok tt {| rng := random_seed seed; world := world s;
                    fetch_log := fetch_log s |}.

Definition shuffle_m (l : list string) : M (list string) :=
  fun s => let (l', g) := random_shuffle (rng s) l in
           Ok l' {| rng := g; world := world s; fetch_log := fetch_log s |}.

(** [if shuffle: random.shuffle(l)] *)
Definition shuffle_if (shuffle : bool) (l : list string) : M (list string) :=
  if shuffle then shuffle_m l else ret l.

(** [_do_download]: any exception of the downloader is caught and turned
    into [success = False] *)
Definition _do_download (url output_path : string) : M bool :=
  fun s => let (success, w) := ydl_download (world s) url output_path in
           Ok success {| rng := rng s; world := w; fetch_log := fetch_log s |}.

Definition log_fetch (sample_id : string) (success : bool) : M unit :=
  fun s => Ok tt {| rng := rng s; world := world s;
                    fetch_log := fetch_log s ++ [(sample_id, success)] |}.

(** The same state with another state of the random generator *)
Definition with_rng (g : RNG) (s : state) : state :=
  {| rng := g; world := world s; fetch_log := fetch_log s |}.

Definition result_with_rng {A} (g : RNG) (r : result A) : result A :=
  match r with
  | Ok a s => Ok a (with_rng g s)
  | Raise e s => Raise e (with_rng g s)
  end.

(** A computation that neither reads nor writes the random generator *)
Definition rng_free {A} (m : M A) : Prop :=
  forall g s, m (with_rng g s) = result_with_rng g (m s).

(** The loop of [_attempt_to_download], [downloaded] being the list
    accumulated so far *)
Fixpoint _attempt_to_download_loop (videos_dir : string) (ids : list string)
    (samples_info : dict sample_info) (num_samples : option Z)
    (downloaded : list string) : M (list string) :=
  match ids with
  | [] => ret downloaded
  | sample_id :: ids' =>
      sample_info <- lift (dict_getitem samples_info sample_id) ;;
      let url := url sample_info in
      let output_path := os_path_join videos_dir (sample_id ++ ".mp4")%string in
      success <- _do_download url output_path ;;
      _ <- log_fetch sample_id success ;;
      if negb success then
        _attempt_to_download_loop videos_dir ids' samples_info num_samples downloaded
      else
        let downloaded := downloaded ++ [sample_id] in
        if reached num_samples (len downloaded) then ret downloaded
        else _attempt_to_download_loop videos_dir ids' samples_info num_samples downloaded
  end.

Definition _attempt_to_download (videos_dir : string) (ids : list string)
    (samples_info : dict sample_info) (num_samples : option Z) : M (list string) :=
  _attempt_to_download_loop videos_dir ids samples_info num_samples [].

(** ** The capped selection of [openimages.py]

    [_load_open_images_split], from [valid_ids = list(valid_ids)] to the
    [ValueError]: the ids to load, [valid_ids] being given in the
    iteration order of the set. *)
Definition select_valid_ids (valid_ids : list string) (max_samples : option Z)
  : M (list string) :=
  valid_ids <-
    (if truthy max_samples then
       l <- shuffle_m valid_ids ;;
       ret (slice_to l max_samples)
     else ret valid_ids) ;;
  match valid_ids with
  | [] => fun s => Raise (ValueError "No samples found") s
  | _ => ret valid_ids
  end.

(** ** Leaf classes and valid image ids *)

(** The parent names of the taxonomy nodes; the root has none *)
Definition parent_names (taxonomy : list (string * option string)) : list string :=
  flat_map (fun node => match snd node with Some p => [p] | None => [] end)
    taxonomy.

(** [_get_all_classes] on the taxonomy nodes, each a node name and a
    parent name, [None] for the root: the node names that are no parent
    name, sorted *)
Definition _get_all_classes_of (taxonomy : list (string * option string))
  : list string :=
  let classes := pyset (map fst taxonomy) in
  let parents := pyset (parent_names taxonomy) in
  py_sorted (set_difference classes parents).

(** [_get_all_classes] on the annotations, whose nodes all carry a parent
    name *)
Definition _get_all_classes (raw : raw_annotations) : list string :=
  _get_all_classes_of
    (map (fun node => (fst node, Some (snd node))) (taxonomy raw)).

(** [valid_ids = ids if valid_ids is None else valid_ids & ids] *)
Definition narrow_valid_ids (valid_ids : option (list string)) (ids : list string)
  : option (list string) :=
  match valid_ids with
  | None => Some ids
  | Some v => Some (set_intersection v ids)
  end.

(** The valid image ids of [_load_open_images_split], given the relevant
    ids [_get_label_data] returns for each label type; [None] is Python's
    [None] *)
Definition valid_ids_of (label_types det_ids lab_ids rel_ids seg_ids : list string)
  : option (list string) :=
  let valid_ids := None in
  let valid_ids :=
    if mem "detections" label_types then narrow_valid_ids valid_ids det_ids
    else valid_ids in
  let valid_ids :=
    if mem "classifications" label_types then narrow_valid_ids valid_ids lab_ids
    else valid_ids in
  let valid_ids :=
    if mem "relationships" label_types then narrow_valid_ids valid_ids rel_ids
    else valid_ids in
  let valid_ids :=
    if mem "segmentations" label_types then narrow_valid_ids valid_ids seg_ids
    else valid_ids in
  valid_ids.

(** ** The four steps of the planner *)

(** The local variables of [_downloaded_necessary_samples] that change
    from step to step. [dl_any_class_ids] is bound by step 2 only, and
    [None] stands for the unbound name. *)
Record locals : Type := {
  requested_samples : dict sample_info;
  requested_num : option Z;
  num_downloaded_samples : Z;
  dl_all_class_ids : list string;
  dl_any_class_ids : option (list string)
}.

Section Planner.

Variable videos_dir : string.
Variables all_class_samples any_class_samples : dict sample_info.
Variable prev_downloaded_ids : list string.
Variable max_samples : option Z.
Variable seed : option Z.
Variable shuffle : bool.

Let all_class_ids := dict_keys all_class_samples.
Let set_all_ids := pyset all_class_ids.
Let any_class_ids := dict_keys any_class_samples.
Let set_any_ids := pyset any_class_ids.
Let set_downloaded_ids := pyset prev_downloaded_ids.

(** [if shuffle: if seed is not None: random.seed(seed)] *)
Definition seed_step : M unit :=
  if shuffle then
    match seed with
    | Some sd => seed_m sd
    | None => ret tt
    end
  else ret tt.

(** 1) Take the all class ids that are downloaded up to max_samples *)
Definition step1 : M locals :=
  let requested_samples := [] in
  let requested_num := max_samples in
  let num_downloaded_samples := 0 in
  dl_all_class_ids <-
    shuffle_if shuffle (set_intersection set_all_ids set_downloaded_ids) ;;
  let add_ids := slice_to dl_all_class_ids requested_num in
  upd <- lift (dict_comp all_class_samples add_ids) ;;
  let requested_samples := dict_update requested_samples upd in
  let requested_num :=
    if truthy requested_num then isub requested_num (len add_ids)
    else requested_num in
  ret {| requested_samples := requested_samples;
         requested_num := requested_num;
         num_downloaded_samples := num_downloaded_samples;
         dl_all_class_ids := dl_all_class_ids;
         dl_any_class_ids := None |}.

(** 2) Take the any class ids that are downloaded up to max_samples *)
Definition step2 (L : locals) : M locals :=
  if none_or_truthy (requested_num L) then
    dl_any_class_ids <-
      shuffle_if shuffle (set_intersection set_any_ids set_downloaded_ids) ;;
    let add_ids := slice_to dl_any_class_ids (requested_num L) in
    upd <- lift (dict_comp any_class_samples add_ids) ;;
    let requested_samples := dict_update (requested_samples L) upd in
    let requested_num :=
      if truthy (requested_num L) then isub (requested_num L) (len add_ids)
      else requested_num L in
    ret {| requested_samples := requested_samples;
           requested_num := requested_num;
           num_downloaded_samples := num_downloaded_samples L;
           dl_all_class_ids := dl_all_class_ids L;
           dl_any_class_ids := Some dl_any_class_ids |}
  else ret L.

(** 3) Download all class ids up to max_samples *)
Definition step3 (L : locals) : M locals :=
  if none_or_truthy (requested_num L) then
    not_dl_all_class_ids <-
      shuffle_if shuffle
        (set_difference set_all_ids (pyset (dl_all_class_ids L))) ;;
    downloaded_ids <-
      _attempt_to_download videos_dir not_dl_all_class_ids all_class_samples
        (requested_num L) ;;
    let num_downloaded_samples :=
      num_downloaded_samples L + len downloaded_ids in
    upd <- lift (dict_comp all_class_samples downloaded_ids) ;;
    let requested_samples := dict_update (requested_samples L) upd in
    let requested_num :=
      if truthy (requested_num L) then isub (requested_num L) (len downloaded_ids)
      else requested_num L in
    ret {| requested_samples := requested_samples;
           requested_num := requested_num;
           num_downloaded_samples := num_downloaded_samples;
           dl_all_class_ids := dl_all_class_ids L;
           dl_any_class_ids := dl_any_class_ids L |}
  else ret L.

(** 4) Download any class ids up to max_samples *)
Definition step4 (L : locals) : M locals :=
  if none_or_truthy (requested_num L) then
    dl_any <-
      lift (match dl_any_class_ids L with
            | Some l => inr l
            | None => inl (NameError "dl_any_class_ids")
            end) ;;
    not_dl_any_class_ids <-
      shuffle_if shuffle (set_difference set_any_ids (pyset dl_any)) ;;
    downloaded_ids <-
      _attempt_to_download videos_dir not_dl_any_class_ids any_class_samples
        (requested_num L) ;;
    let num_downloaded_samples :=
      num_downloaded_samples L + len downloaded_ids in
    upd <- lift (dict_comp any_class_samples downloaded_ids) ;;
    let requested_samples := dict_update (requested_samples L) upd in
    ret {| requested_samples := requested_samples;
           requested_num := requested_num L;
           num_downloaded_samples := num_downloaded_samples;
           dl_all_class_ids := dl_all_class_ids L;
           dl_any_class_ids := dl_any_class_ids L |}
  else ret L.

Definition _downloaded_necessary_samples : M (dict sample_info * Z) :=
  _ <- seed_step ;;
  L1 <- step1 ;;
  L2 <- step2 L1 ;;
  L3 <- step3 L2 ;;
  L4 <- step4 L3 ;;
  ret (requested_samples L4, num_downloaded_samples L4).


(** ** Vocabulary of the statements *)

(** The ids whose download succeeded, in a piece of the fetch log *)
Definition successes (new : list (string * bool)) : list string :=
  map fst (filter (fun e => snd e) new).

(** A log entry records what the downloader answered *)
Definition answered (e : string * bool) : Prop :=
  exists w u p, snd e = fst (ydl_download w u p).

(** Every entry of [u] is an entry of [src] *)
Definition entries_of (src u : dict sample_info) : Prop :=
  forall k v, In (k, v) u -> dict_get k src = Some v.

(** The budget after a step that took [n] records: [if r: r -= n] *)
Definition next (r : option Z) (n : Z) : option Z :=
  if truthy r then isub r n else r.

(** The candidates of the four steps, as the sets the code computes
    before any shuffle: downloaded ids matching all classes, downloaded
    ids matching any class, and for the two download steps the ids left
    once the downloaded ones [dl] are taken out. *)
Definition present_all : list string :=
  set_intersection set_all_ids set_downloaded_ids.

Definition present_any : list string :=
  set_intersection set_any_ids set_downloaded_ids.

Definition absent_all (dl : list string) : list string :=
  set_difference set_all_ids (pyset dl).

Definition absent_any (dl : list string) : list string :=
  set_difference set_any_ids (pyset dl).

(** What one run of the planner did: the candidate lists in the order
    they were iterated, the log entries of the two download steps and the
    four updates of [requested_samples]. *)
Record run_trace : Type := {
  D1 : list string;
  D2 : list string;
  C3 : list string;
  C4 : list string;
  new3 : list (string * bool);
  new4 : list (string * bool);
  u1 : dict sample_info;
  u2 : dict sample_info;
  u3 : dict sample_info;
  u4 : dict sample_info
}.

(** The budgets before steps 2, 3 and 4 *)
Definition budget1 (T : run_trace) : option Z :=
  next max_samples (len (slice_to (D1 T) max_samples)).

Definition budget2 (T : run_trace) : option Z :=
  next (budget1 T) (len (slice_to (D2 T) (budget1 T))).

Definition budget3 (T : run_trace) : option Z :=
  next (budget2 T) (len (successes (new3 T))).

(** A download step over the candidates [C] with budget [r] tried a
    prefix of [C], and stopped early only with the budget reached. *)
Definition tried_prefix (C : list string) (new : list (string * bool))
    (r : option Z) : Prop :=
  exists rest, C = map fst new ++ rest
               /\ (rest = [] \/ reached r (len (successes new)) = true).

(** A download step that stops at its first success: the candidates [C]
    are tried in order; either no download succeeds and all of them are
    tried, or the step ends with its first and only success. *)
Definition stops_at_first_success (C : list string) (new : list (string * bool))
  : Prop :=
  exists rest,
    C = map fst new ++ rest
    /\ ((successes new = [] /\ rest = [])
        \/ exists fails i, new = fails ++ [(i, true)] /\ successes fails = []).

(** The budget with which the download steps start, steps 1 and 2 having
    taken what the cap allows of [P1] and [P2] *)
Definition download_budget (cap : option Z) (P1 P2 : list string) : option Z :=
  next (next cap (len (slice_to P1 cap)))
    (len (slice_to P2 (next cap (len (slice_to P1 cap))))).

(** A download step stops only where the code returns: right after the
    success that reaches the budget. Before that it goes on with the next
    candidate, whatever the downloads answer, down to the last one; a
    step whose budget is 0 is skipped. *)
Definition stops_where_reached (C : list string) (new : list (string * bool))
    (r : option Z) : Prop :=
  (map fst new = C
   \/ (r = Some 0 /\ new = [])
   \/ ((exists new' i, new = new' ++ [(i, true)])
       /\ reached r (len (successes new)) = true))
  /\ (forall p i q, new = p ++ (i, true) :: q -> q <> [] ->
        reached r (len (successes (p ++ [(i, true)]))) = false).

Definition planner_post (s s' : state) (plan : dict sample_info) (n : Z)
    (T : run_trace) : Prop :=
  plan = dict_update (dict_update (dict_update (dict_update [] (u1 T)) (u2 T))
                        (u3 T)) (u4 T)
  /\ n = len (successes (new3 T)) + len (successes (new4 T))
  /\ fetch_log s' = fetch_log s ++ new3 T ++ new4 T
  /\ Permutation present_all (D1 T)
  /\ Permutation present_any (D2 T)
  /\ Permutation (absent_all (D1 T)) (C3 T)
  /\ Permutation (absent_any (D2 T)) (C4 T)
  /\ dict_keys (u1 T) = slice_to (D1 T) max_samples
  /\ dict_keys (u2 T) = slice_to (D2 T) (budget1 T)
  /\ dict_keys (u3 T) = successes (new3 T)
  /\ dict_keys (u4 T) = successes (new4 T)
  /\ tried_prefix (C3 T) (new3 T) (budget2 T)
  /\ tried_prefix (C4 T) (new4 T) (budget3 T)
  /\ (forall k, budget2 T = Some k -> len (successes (new3 T)) <= Z.max k 1)
  /\ (forall k, budget3 T = Some k -> len (successes (new4 T)) <= Z.max k 1)
  /\ (budget2 T = Some 0 -> new3 T = [])
  /\ (budget3 T = Some 0 -> new4 T = [])
  /\ Forall answered (new3 T)
  /\ Forall answered (new4 T)
  /\ entries_of all_class_samples (u1 T)
  /\ entries_of any_class_samples (u2 T)
  /\ entries_of all_class_samples (u3 T)
  /\ entries_of any_class_samples (u4 T)
  /\ stops_where_reached (C3 T) (new3 T) (budget2 T)
  /\ stops_where_reached (C4 T) (new4 T) (budget3 T).

(** ** Facts about the Python built-ins *)

Lemma mem_true_iff (x : string) (l : list string) : mem x l = true <-> In x l.
Proof. unfold mem. destruct (in_dec string_dec x l); split; auto; discriminate. Qed.

Lemma mem_false_iff (x : string) (l : list string) : mem x l = false <-> ~ In x l.
Proof.
  unfold mem. destruct (in_dec string_dec x l); split; auto; try discriminate.
  intros H; contradiction.
Qed.

Lemma firstn_incl {A} (n : nat) (l : list A) : incl (firstn n l) l.
Proof.
  intros x Hx. rewrite <- (firstn_skipn n l). apply in_or_app. now left.
Qed.

Lemma firstn_NoDup {A} (n : nat) (l : list A) : NoDup l -> NoDup (firstn n l).
Proof.
  intros H. rewrite <- (firstn_skipn n l) in H.
  eapply NoDup_app_remove_r. exact H.
Qed.

Lemma slice_to_incl {A} (l : list A) (n : option Z) : incl (slice_to l n) l.
Proof.
  destruct n as [k|]; simpl; [|apply incl_refl].
  destruct (0 <=? k); apply firstn_incl.
Qed.

Lemma slice_to_NoDup {A} (l : list A) (n : option Z) :
  NoDup l -> NoDup (slice_to l n).
Proof.
  intros H. destruct n as [k|]; simpl; auto.
  destruct (0 <=? k); apply firstn_NoDup; exact H.
Qed.

Lemma slice_to_len_nonneg {A} (l : list A) (k : Z) :
  0 <= k -> len (slice_to l (Some k)) = Z.min k (len l).
Proof.
  intros Hk. unfold slice_to, len.
  destruct (Z.leb_spec 0 k); [|lia].
  rewrite length_firstn. lia.
Qed.

Lemma slice_to_prefix {A} (l : list A) (n : option Z) :
  exists rest, l = slice_to l n ++ rest.
Proof.
  destruct n as [k|]; simpl.
  - destruct (0 <=? k); eexists; symmetry; apply firstn_skipn.
  - exists []. now rewrite app_nil_r.
Qed.

Lemma dict_keys_set {V} (k : string) (v : V) (d : dict V) :
  dict_keys (dict_set k v d)
  = if mem k (dict_keys d) then dict_keys d else dict_keys d ++ [k].
Proof.
  induction d as [|[k' v'] d IH]; simpl.
  - reflexivity.
  - destruct (String.eqb_spec k k') as [->|Hne].
    + simpl. unfold mem. destruct (in_dec string_dec k' (k' :: dict_keys d)) as [|n].
      * reflexivity.
      * exfalso. apply n. now left.
    + simpl. rewrite IH. unfold mem.
      destruct (in_dec string_dec k (dict_keys d)) as [i|n];
        destruct (in_dec string_dec k (k' :: dict_keys d)) as [i'|n']; simpl; auto.
      * exfalso. apply n'. now right.
      * destruct i' as [E|i']; [congruence | contradiction].
Qed.

Lemma dict_set_length {V} (k : string) (v : V) (d : dict V) :
  (List.length (dict_set k v d) <= S (List.length d))%nat.
Proof.
  induction d as [|[k' v'] d IH]; simpl; [lia|].
  destruct (String.eqb k k'); simpl; lia.
Qed.

Lemma dict_update_length {V} (e : list (string * V)) (d : dict V) :
  (List.length (dict_update d e) <= List.length d + List.length e)%nat.
Proof.
  revert d. induction e as [|[k v] e IH]; intros d; simpl; [lia|].
  unfold dict_update in *. simpl. specialize (IH (dict_set k v d)).
  pose proof (dict_set_length k v d). lia.
Qed.

Lemma dict_update_len {V} (e : list (string * V)) (d : dict V) :
  len (dict_update d e) <= len d + len e.
Proof. unfold len. pose proof (dict_update_length e d). lia. Qed.

Lemma dict_update_keys_In {V} (e : list (string * V)) (d : dict V) (k : string) :
  In k (dict_keys (dict_update d e)) <-> In k (dict_keys d) \/ In k (map fst e).
Proof.
  revert d. induction e as [|[k' v] e IH]; intros d.
  - simpl. tauto.
  - unfold dict_update in *. simpl. rewrite IH, dict_keys_set.
    destruct (mem k' (dict_keys d)) eqn:E.
    + apply mem_true_iff in E. split; [tauto|].
      intros [H|[H|H]]; auto. subst. auto.
    + rewrite in_app_iff. simpl. tauto.
Qed.

Lemma dict_update_keys_prefix {V} (e : list (string * V)) (d : dict V) :
  exists extra, dict_keys (dict_update d e) = dict_keys d ++ extra.
Proof.
  revert d. induction e as [|[k v] e IH]; intros d.
  - exists []. simpl. now rewrite app_nil_r.
  - unfold dict_update in *. simpl. destruct (IH (dict_set k v d)) as [x Hx].
    rewrite Hx, dict_keys_set. destruct (mem k (dict_keys d)).
    + now exists x.
    + exists ([k] ++ x). now rewrite <- app_assoc.
Qed.

Lemma dict_update_fresh {V} (e : list (string * V)) (d : dict V) :
  NoDup (dict_keys d ++ map fst e) -> dict_update d e = d ++ e.
Proof.
  revert d. induction e as [|[k v] e IH]; intros d H.
  - simpl. now rewrite app_nil_r.
  - unfold dict_update in *. simpl in *.
    assert (Hk : ~ In k (dict_keys d)).
    { apply NoDup_remove_2 in H. intros Hin. apply H. apply in_or_app. now left. }
    assert (Hs : dict_set k v d = d ++ [(k, v)]).
    { clear - Hk. induction d as [|[k' v'] d IHd]; simpl in *; auto.
      destruct (String.eqb_spec k k') as [->|_].
      - exfalso. apply Hk. now left.
      - f_equal. apply IHd. tauto. }
    rewrite Hs, IH.
    + now rewrite <- app_assoc.
    + unfold dict_keys. rewrite map_app. simpl. rewrite <- app_assoc. simpl.
      unfold dict_keys in H.
      eapply Permutation_NoDup; [|exact H].
      apply Permutation_app_head. reflexivity.
Qed.

Lemma dict_update_nil_NoDup {V} (e : list (string * V)) :
  NoDup (map fst e) -> dict_update [] e = e.
Proof. intros H. now rewrite dict_update_fresh. Qed.

Lemma dict_update_NoDup {V} (e : list (string * V)) (d : dict V) :
  NoDup (dict_keys d) -> NoDup (dict_keys (dict_update d e)).
Proof.
  revert d. induction e as [|[k v] e IH]; intros d H; simpl; auto.
  unfold dict_update in *. simpl. apply IH. rewrite dict_keys_set.
  destruct (mem k (dict_keys d)) eqn:E; auto.
  apply mem_false_iff in E.
  eapply Permutation_NoDup; [apply Permutation_cons_append|].
  now constructor.
Qed.

Lemma dict_set_In {V} (k k' : string) (v v' : V) (d : dict V) :
  In (k, v) (dict_set k' v' d) -> (k, v) = (k', v') \/ In (k, v) d.
Proof.
  induction d as [|[k0 v0] d IH]; simpl.
  - intros [H|[]]. left. now symmetry.
  - destruct (String.eqb_spec k' k0) as [->|Hne]; simpl.
    + intros [H|H]; [left; now symmetry | right; now right].
    + intros [H|H]; [right; now left|]. destruct (IH H); auto.
Qed.

Lemma dict_update_In {V} (e : list (string * V)) (d : dict V) (k : string) (v : V) :
  In (k, v) (dict_update d e) -> In (k, v) d \/ In (k, v) e.
Proof.
  revert d. induction e as [|[k' v'] e IH]; intros d; simpl; auto.
  unfold dict_update in *. simpl. intros H. apply IH in H.
  destruct H as [H|H]; auto. apply dict_set_In in H.
  destruct H as [H|H]; auto.
Qed.

Lemma dict_get_In_keys {V} (k : string) (d : dict V) :
  In k (dict_keys d) <-> exists v, dict_get k d = Some v.
Proof.
  induction d as [|[k' v'] d IH]; simpl.
  - split; [tauto | intros [v Hv]; discriminate].
  - destruct (String.eqb_spec k k') as [->|Hne].
    + split; eauto.
    + rewrite <- IH. split; [intros [E|H]; [congruence | auto] | auto].
Qed.

Lemma getitems_ok {V} (d : dict V) (ids : list string) :
  incl ids (dict_keys d) ->
  exists kvs, getitems d ids = inr kvs /\ map fst kvs = ids
              /\ forall k v, In (k, v) kvs -> dict_get k d = Some v.
Proof.
  induction ids as [|i ids IH]; intros Hin; simpl.
  - exists []. repeat split. intros k v [].
  - destruct IH as (kvs & E & Hk & Hv).
    { intros x Hx. apply Hin. now right. }
    assert (Hi : In i (dict_keys d)) by (apply Hin; now left).
    apply dict_get_In_keys in Hi. destruct Hi as [v Ev].
    unfold dict_getitem. rewrite Ev, E. exists ((i, v) :: kvs).
    repeat split; simpl; [now rewrite Hk|].
    intros k v' [E'|H']; [now inversion E'; subst | eauto].
Qed.

Lemma dict_comp_ok {V} (d : dict V) (ids : list string) :
  incl ids (dict_keys d) ->
  exists upd, dict_comp d ids = inr upd
              /\ (forall k, In k (dict_keys upd) <-> In k ids)
              /\ len upd <= len ids
              /\ (NoDup ids -> dict_keys upd = ids)
              /\ (NoDup ids ->
                  forall k v, In (k, v) upd -> dict_get k d = Some v).
Proof.
  intros Hin. destruct (@getitems_ok _ d ids Hin) as (kvs & E & Hk & Hv).
  unfold dict_comp. rewrite E. eexists; split; [reflexivity|].
  repeat split.
  - rewrite dict_update_keys_In, Hk. simpl. tauto.
  - rewrite dict_update_keys_In, Hk. simpl. tauto.
  - pose proof (dict_update_len kvs []). unfold len in *. simpl in *.
    rewrite <- Hk, length_map. lia.
  - intros Hnd. rewrite dict_update_nil_NoDup; [exact Hk | now rewrite Hk].
  - intros Hnd k v. rewrite dict_update_nil_NoDup; [apply Hv | now rewrite Hk].
Qed.

(** ** Sets *)

Lemma pyset_In (l : list string) (x : string) : In x (pyset l) <-> In x l.
Proof.
  unfold pyset. split; intros H.
  - apply (Permutation_in x (Permutation_sym (set_iter_perm _))) in H.
    now apply nodup_In in H.
  - apply (Permutation_in x (set_iter_perm _)). now apply nodup_In.
Qed.

Lemma pyset_NoDup (l : list string) : NoDup (pyset l).
Proof.
  unfold pyset. eapply Permutation_NoDup; [apply set_iter_perm|].
  apply NoDup_nodup.
Qed.

Lemma set_intersection_In (s t : list string) (x : string) :
  In x (set_intersection s t) <-> In x s /\ In x t.
Proof.
  unfold set_intersection. split; intros H.
  - apply (Permutation_in x (Permutation_sym (set_iter_perm _))) in H.
    apply filter_In in H. now rewrite mem_true_iff in H.
  - apply (Permutation_in x (set_iter_perm _)).
    apply filter_In. now rewrite mem_true_iff.
Qed.

Lemma set_intersection_NoDup (s t : list string) :
  NoDup s -> NoDup (set_intersection s t).
Proof.
  intros H. unfold set_intersection.
  eapply Permutation_NoDup; [apply set_iter_perm|]. now apply NoDup_filter.
Qed.

Lemma set_difference_In (s t : list string) (x : string) :
  In x (set_difference s t) <-> In x s /\ ~ In x t.
Proof.
  unfold set_difference. split; intros H.
  - apply (Permutation_in x (Permutation_sym (set_iter_perm _))) in H.
    apply filter_In in H. now rewrite negb_true_iff, mem_false_iff in H.
  - apply (Permutation_in x (set_iter_perm _)).
    apply filter_In. now rewrite negb_true_iff, mem_false_iff.
Qed.

Lemma set_difference_NoDup (s t : list string) :
  NoDup s -> NoDup (set_difference s t).
Proof.
  intros H. unfold set_difference.
  eapply Permutation_NoDup; [apply set_iter_perm|]. now apply NoDup_filter.
Qed.

(** ** The monadic steps *)

Lemma shuffle_if_ok (b : bool) (l : list string) (s : state) :
  exists l' s', shuffle_if b l s = Ok l' s' /\ Permutation l l'
                /\ world s' = world s /\ fetch_log s' = fetch_log s
                /\ (b = false -> l' = l)
                /\ (b = true -> l' = fst (random_shuffle (rng s) l)).
Proof.
  destruct b; simpl.
  - unfold shuffle_m. pose proof (random_shuffle_perm (rng s) l) as Hp.
    destruct (random_shuffle (rng s) l) as [l' g]. simpl in Hp.
    eexists _, _. split; [reflexivity|]. simpl. splits; auto. discriminate.
  - eexists _, _. split; [reflexivity|]. splits; auto. discriminate.
Qed.

Lemma successes_app (a b : list (string * bool)) :
  successes (a ++ b) = successes a ++ successes b.
Proof. unfold successes. now rewrite filter_app, map_app. Qed.

Lemma successes_incl (new : list (string * bool)) :
  incl (successes new) (map fst new).
Proof.
  intros x Hx. unfold successes in Hx. apply in_map_iff in Hx.
  destruct Hx as (e & <- & He). apply filter_In in He. apply in_map. tauto.
Qed.

Lemma successes_NoDup (new : list (string * bool)) :
  NoDup (map fst new) -> NoDup (successes new).
Proof.
  unfold successes. induction new as [|[i b] new IH]; simpl; intros H.
  - constructor.
  - inversion H; subst. destruct b; simpl; auto.
    constructor; auto. intros Hin. apply H2.
    apply (@successes_incl new). exact Hin.
Qed.

Lemma successes_In (new : list (string * bool)) (x : string) :
  In x (successes new) <-> In (x, true) new.
Proof.
  unfold successes. rewrite in_map_iff. split.
  - intros ([i b] & E & H). apply filter_In in H. simpl in *. destruct H. now subst.
  - intros H. exists (x, true). split; auto. apply filter_In. auto.
Qed.

Lemma attempt_loop_ok (samples_info : dict sample_info)
    (num : option Z) (ids : list string) :
  forall (downloaded : list string) (s : state),
    incl ids (dict_keys samples_info) ->
    exists new rest s',
      _attempt_to_download_loop videos_dir ids samples_info num downloaded s
      = Ok (downloaded ++ successes new) s'
      /\ ids = map fst new ++ rest
      /\ fetch_log s' = fetch_log s ++ new
      /\ rng s' = rng s
      /\ (rest = [] \/ reached num (len (downloaded ++ successes new)) = true)
      /\ (forall k, num = Some k ->
            len (downloaded ++ successes new) <= Z.max k (len downloaded + 1))
      /\ Forall answered new.
Proof.
  induction ids as [|i ids IH]; intros downloaded s Hin.
  - exists [], [], s. simpl. unfold ret. rewrite !app_nil_r.
    splits; auto. intros k _. lia.
  - assert (Hi : In i (dict_keys samples_info)) by (apply Hin; now left).
    assert (Hin' : incl ids (dict_keys samples_info)).
    { intros x Hx. apply Hin. now right. }
    apply dict_get_In_keys in Hi. destruct Hi as [v Ev].
    simpl. unfold bind at 1. unfold lift, dict_getitem. rewrite Ev.
    unfold bind at 1. unfold _do_download.
    destruct (ydl_download (world s) (url v)
                (os_path_join videos_dir (i ++ ".mp4")%string)) as [success w] eqn:Ed.
    unfold bind at 1. unfold log_fetch. cbn [rng world fetch_log].
    assert (Ha : answered (i, success)).
    { exists (world s), (url v), (os_path_join videos_dir (i ++ ".mp4")%string).
      now rewrite Ed. }
    destruct success; cbn [negb].
    + destruct (reached num (len (downloaded ++ [i]))) eqn:Er.
      * exists [(i, true)], ids. eexists. unfold ret.
        split; [reflexivity|]. cbn [rng world fetch_log].
        splits; auto.
        intros k _. unfold len. rewrite length_app. simpl. lia.
      * match goal with
        | |- context [_attempt_to_download_loop _ _ _ _ ?d ?st] =>
            destruct (IH d st Hin')
              as (new & rest & s' & E & Hids & Hlog & Hrng & Hrest & Hb & Hf)
        end.
        exists ((i, true) :: new), rest, s'.
        cbn [rng world fetch_log] in *.
        replace (successes ((i, true) :: new)) with ([i] ++ successes new)
          by reflexivity.
        rewrite app_assoc. split; [exact E|].
        splits; auto.
        -- simpl. now rewrite Hids.
        -- rewrite Hlog, <- app_assoc. reflexivity.
        -- intros k Hk. specialize (Hb k Hk). subst num. simpl in Er.
           apply Z.leb_gt in Er. unfold len in *.
           repeat rewrite length_app in *. simpl in *. lia.
    + match goal with
      | |- context [_attempt_to_download_loop _ _ _ _ ?d ?st] =>
          destruct (IH d st Hin')
            as (new & rest & s' & E & Hids & Hlog & Hrng & Hrest & Hb & Hf)
      end.
      exists ((i, false) :: new), rest, s'.
      cbn [rng world fetch_log] in *.
      replace (successes ((i, false) :: new)) with (successes new) by reflexivity.
      split; [exact E|]. splits; auto.
      * simpl. now rewrite Hids.
      * rewrite Hlog, <- app_assoc. reflexivity.
Qed.

Lemma bind_Ok {A B} (m : M A) (f : A -> M B) (s s' : state) (a : A) :
  m s = Ok a s' -> bind m f s = f a s'.
Proof. intros E. unfold bind. now rewrite E. Qed.

Lemma lift_inr {A} (r : exn + A) (a : A) (s : state) :
  r = inr a -> lift r s = Ok a s.
Proof. intros ->. reflexivity. Qed.

Ltac run E := rewrite (@bind_Ok _ _ _ _ _ _ _ E).
Ltac run_lift s E := rewrite (@bind_Ok _ _ _ _ _ _ _ (@lift_inr _ _ _ s E)).

(** Where the loop stops: it goes through all the ids unless a download
    succeeds and reaches the budget, and then it returns at once. *)
Lemma attempt_loop_stop (samples_info : dict sample_info)
    (num : option Z) (ids : list string) :
  forall (downloaded : list string) (s : state),
    incl ids (dict_keys samples_info) ->
    exists new s',
      _attempt_to_download_loop videos_dir ids samples_info num downloaded s
      = Ok (downloaded ++ successes new) s'
      /\ fetch_log s' = fetch_log s ++ new
      /\ (map fst new = ids
          \/ ((exists new' i, new = new' ++ [(i, true)])
              /\ reached num (len (downloaded ++ successes new)) = true))
      /\ (forall p i q, new = p ++ (i, true) :: q -> q <> [] ->
            reached num (len (downloaded ++ successes (p ++ [(i, true)])))
            = false).
Proof.
  induction ids as [|i ids IH]; intros downloaded s Hin.
  - exists [], s. simpl. unfold ret. rewrite !app_nil_r. splits; auto.
    intros p j q H. destruct p; discriminate.
  - assert (Hi : In i (dict_keys samples_info)) by (apply Hin; now left).
    assert (Hin' : incl ids (dict_keys samples_info)).
    { intros x Hx. apply Hin. now right. }
    apply dict_get_In_keys in Hi. destruct Hi as [v Ev].
    simpl. unfold bind at 1. unfold lift, dict_getitem. rewrite Ev.
    unfold bind at 1. unfold _do_download.
    destruct (ydl_download (world s) (url v)
                (os_path_join videos_dir (i ++ ".mp4")%string)) as [success w] eqn:Ed.
    unfold bind at 1. unfold log_fetch. cbn [rng world fetch_log].
    destruct success; cbn [negb].
    + destruct (reached num (len (downloaded ++ [i]))) eqn:Er.
      * exists [(i, true)]. eexists. unfold ret.
        split; [reflexivity|]. cbn [rng world fetch_log]. splits; auto.
        -- right. split; [now exists [], i | exact Er].
        -- intros p j q H Hq. exfalso. destruct p as [|e p]; simpl in H.
           ++ inversion H; subst. now apply Hq.
           ++ inversion H. destruct p; discriminate.
      * match goal with
        | |- context [_attempt_to_download_loop _ _ _ _ ?d ?st] =>
            destruct (IH d st Hin') as (new & s' & E & Hlog & Hstop & Hgo)
        end.
        exists ((i, true) :: new), s'.
        cbn [rng world fetch_log] in *.
        replace (successes ((i, true) :: new)) with ([i] ++ successes new)
          by reflexivity.
        rewrite app_assoc. split; [exact E|]. splits.
        -- rewrite Hlog, <- app_assoc. reflexivity.
        -- destruct Hstop as [Hall|[(new' & j & Hn) Hr]].
           ++ left. simpl. now rewrite Hall.
           ++ right. split; [|exact Hr].
              exists ((i, true) :: new'), j. now rewrite Hn.
        -- intros p j q H Hq. destruct p as [|e p]; simpl in H.
           ++ inversion H; subst. exact Er.
           ++ inversion H; subst.
              replace (successes (((i, true) :: p) ++ [(j, true)]))
                with ([i] ++ successes (p ++ [(j, true)])) by reflexivity.
              rewrite app_assoc. now apply (Hgo p j q).
    + match goal with
      | |- context [_attempt_to_download_loop _ _ _ _ ?d ?st] =>
          destruct (IH d st Hin') as (new & s' & E & Hlog & Hstop & Hgo)
      end.
      exists ((i, false) :: new), s'.
      cbn [rng world fetch_log] in *.
      replace (successes ((i, false) :: new)) with (successes new) by reflexivity.
      split; [exact E|]. splits.
      * rewrite Hlog, <- app_assoc. reflexivity.
      * destruct Hstop as [Hall|[(new' & j & Hn) Hr]].
        -- left. simpl. now rewrite Hall.
        -- right. split; [|exact Hr].
           exists ((i, false) :: new'), j. now rewrite Hn.
      * intros p j q H Hq. destruct p as [|e p]; simpl in H; [discriminate|].
        inversion H; subst.
        replace (successes (((i, false) :: p) ++ [(j, true)]))
          with (successes (p ++ [(j, true)])) by reflexivity.
        now apply (Hgo p j q).
Qed.

Lemma attempt_ok (samples_info : dict sample_info) (num : option Z)
    (ids : list string) (s : state) :
  incl ids (dict_keys samples_info) ->
  exists new s',
    _attempt_to_download videos_dir ids samples_info num s
    = Ok (successes new) s'
    /\ tried_prefix ids new num
    /\ fetch_log s' = fetch_log s ++ new
    /\ (forall k, num = Some k -> len (successes new) <= Z.max k 1)
    /\ Forall answered new
    /\ stops_where_reached ids new num.
Proof.
  intros Hin.
  destruct (@attempt_loop_ok samples_info num ids [] s Hin)
    as (new & rest & s' & E & Hids & Hlog & _ & Hrest & Hb & Hf).
  destruct (@attempt_loop_stop samples_info num ids [] s Hin)
    as (new2 & s2 & E2 & Hlog2 & Hstop & Hgo).
  rewrite E in E2. inversion E2; subst s2.
  rewrite Hlog in Hlog2. apply app_inv_head in Hlog2. subst new2.
  simpl in *. exists new, s'.
  split; [exact E|]. split; [exists rest; auto|]. split; [exact Hlog|].
  split; [exact Hb|]. split; [exact Hf|]. split; [|exact Hgo].
  destruct Hstop as [Hall|Hstop]; auto.
Qed.

Lemma next_none_or_truthy (r : option Z) (n : Z) :
  none_or_truthy (next r n) = true -> none_or_truthy r = true.
Proof.
  destruct r as [k|]; simpl; auto. unfold next. simpl.
  destruct (Z.eqb_spec k 0) as [->|Hne]; simpl; auto.
Qed.

Lemma next_skip (r : option Z) (n : Z) :
  none_or_truthy r = false -> r = Some 0 /\ next r n = Some 0.
Proof.
  destruct r as [k|]; simpl; [|discriminate].
  destruct (Z.eqb_spec k 0) as [->|]; simpl; [|discriminate].
  intros _. split; reflexivity.
Qed.

Lemma present_all_incl : incl present_all (dict_keys all_class_samples).
Proof.
  intros x Hx. apply set_intersection_In in Hx. destruct Hx as [Hx _].
  exact (proj1 (pyset_In _ x) Hx).
Qed.

Lemma present_any_incl : incl present_any (dict_keys any_class_samples).
Proof.
  intros x Hx. apply set_intersection_In in Hx. destruct Hx as [Hx _].
  exact (proj1 (pyset_In _ x) Hx).
Qed.

Lemma present_all_NoDup : NoDup present_all.
Proof. apply set_intersection_NoDup, pyset_NoDup. Qed.

Lemma present_any_NoDup : NoDup present_any.
Proof. apply set_intersection_NoDup, pyset_NoDup. Qed.

Lemma absent_all_incl dl : incl (absent_all dl) (dict_keys all_class_samples).
Proof.
  intros x Hx. apply set_difference_In in Hx. destruct Hx as [Hx _].
  exact (proj1 (pyset_In _ x) Hx).
Qed.

Lemma absent_any_incl dl : incl (absent_any dl) (dict_keys any_class_samples).
Proof.
  intros x Hx. apply set_difference_In in Hx. destruct Hx as [Hx _].
  exact (proj1 (pyset_In _ x) Hx).
Qed.

Lemma absent_all_NoDup dl : NoDup (absent_all dl).
Proof. apply set_difference_NoDup, pyset_NoDup. Qed.

Lemma absent_any_NoDup dl : NoDup (absent_any dl).
Proof. apply set_difference_NoDup, pyset_NoDup. Qed.

Lemma seed_step_ok (s : state) :
  exists s', seed_step s = Ok tt s' /\ world s' = world s
             /\ fetch_log s' = fetch_log s
             /\ (forall sd, shuffle = true -> seed = Some sd ->
                   rng s' = random_seed sd).
Proof.
  unfold seed_step. destruct shuffle; [destruct seed|];
    eexists; (split; [reflexivity|]); simpl; splits; auto;
    intros sd H1 H2; congruence.
Qed.

(** Taking the downloaded candidates [P] of [src] with budget [r] *)
Lemma take_present_ok (src : dict sample_info) (P : list string)
    (r : option Z) (s : state) :
  incl P (dict_keys src) -> NoDup P ->
  exists D u s',
    shuffle_if shuffle P s = Ok D s'
    /\ Permutation P D
    /\ dict_comp src (slice_to D r) = inr u
    /\ dict_keys u = slice_to D r
    /\ world s' = world s /\ fetch_log s' = fetch_log s
    /\ (shuffle = false -> D = P)
    /\ entries_of src u
    /\ (shuffle = true -> D = fst (random_shuffle (rng s) P)).
Proof.
  intros Hin Hnd.
  destruct (shuffle_if_ok shuffle P s) as (D & s' & E & Hp & Hw & Hl & Hu & Hsh).
  assert (HinD : incl (slice_to D r) (dict_keys src)).
  { intros x Hx. apply Hin. apply (Permutation_in x (Permutation_sym Hp)).
    now apply (@slice_to_incl _ D r). }
  destruct (@dict_comp_ok _ src _ HinD) as (u & Eu & _ & _ & Hk & Hv).
  assert (HndD : NoDup (slice_to D r)).
  { apply slice_to_NoDup. eapply Permutation_NoDup; eauto. }
  exists D, u, s'. splits; auto. exact (Hv HndD).
Qed.

Lemma step1_ok (s : state) :
  exists D u L s',
    step1 s = Ok L s'
    /\ Permutation present_all D
    /\ dict_keys u = slice_to D max_samples
    /\ requested_samples L = dict_update [] u
    /\ requested_num L = next max_samples (len (slice_to D max_samples))
    /\ num_downloaded_samples L = 0
    /\ dl_all_class_ids L = D
    /\ dl_any_class_ids L = None
    /\ fetch_log s' = fetch_log s
    /\ (shuffle = false -> D = present_all)
    /\ entries_of all_class_samples u
    /\ (shuffle = true -> D = fst (random_shuffle (rng s) present_all)).
Proof.
  destruct (@take_present_ok all_class_samples present_all max_samples s
              present_all_incl present_all_NoDup)
    as (D & u & s' & E & Hp & Eu & Hk & _ & Hl & Hu & Hv & Hsh).
  exists D, u. eexists. exists s'.
  unfold step1. fold present_all. run E. run_lift s' Eu. unfold ret.
  split; [reflexivity|]. simpl. splits; auto.
Qed.

Lemma step2_ok (L : locals) (s : state) :
  exists D u L' s',
    step2 L s = Ok L' s'
    /\ Permutation present_any D
    /\ dict_keys u = slice_to D (requested_num L)
    /\ requested_samples L' = dict_update (requested_samples L) u
    /\ requested_num L'
       = next (requested_num L) (len (slice_to D (requested_num L)))
    /\ num_downloaded_samples L' = num_downloaded_samples L
    /\ dl_all_class_ids L' = dl_all_class_ids L
    /\ (none_or_truthy (requested_num L) = true -> dl_any_class_ids L' = Some D)
    /\ fetch_log s' = fetch_log s
    /\ (shuffle = false -> D = present_any)
    /\ entries_of any_class_samples u.
Proof.
  unfold step2. fold present_any.
  destruct (none_or_truthy (requested_num L)) eqn:Eg.
  - destruct (@take_present_ok any_class_samples present_any (requested_num L) s
                present_any_incl present_any_NoDup)
      as (D & u & s' & E & Hp & Eu & Hk & _ & Hl & Hu & Hv & _).
    exists D, u. eexists. exists s'.
    run E. run_lift s' Eu. unfold ret.
    split; [reflexivity|]. simpl. splits; auto.
  - destruct (@next_skip _ (len (slice_to present_any (requested_num L))) Eg)
      as [Er En].
    exists present_any, [], L, s. unfold ret. splits; auto.
    + rewrite Er. reflexivity.
    + rewrite En. exact Er.
    + discriminate.
    + intros k v [].
Qed.

(** Downloading the candidates [A] of [src] with budget [r] *)
Lemma fetch_absent_ok (src : dict sample_info) (A : list string)
    (r : option Z) (s : state) :
  incl A (dict_keys src) -> NoDup A ->
  exists C new u s1 s',
    shuffle_if shuffle A s = Ok C s1
    /\ _attempt_to_download videos_dir C src r s1 = Ok (successes new) s'
    /\ dict_comp src (successes new) = inr u
    /\ Permutation A C
    /\ tried_prefix C new r
    /\ (forall k, r = Some k -> len (successes new) <= Z.max k 1)
    /\ Forall answered new
    /\ dict_keys u = successes new
    /\ fetch_log s' = fetch_log s ++ new
    /\ (shuffle = false -> C = A)
    /\ entries_of src u
    /\ stops_where_reached C new r.
Proof.
  intros Hin Hnd.
  destruct (shuffle_if_ok shuffle A s) as (C & s1 & E & Hp & _ & Hl & Hu & _).
  assert (HinC : incl C (dict_keys src)).
  { intros x Hx. apply Hin. now apply (Permutation_in x (Permutation_sym Hp)). }
  destruct (@attempt_ok src r C s1 HinC)
    as (new & s' & Ea & Ht & Hlog & Hb & Hf & Hs).
  assert (HndC : NoDup C) by (eapply Permutation_NoDup; eauto).
  assert (Hsn : NoDup (successes new)).
  { apply successes_NoDup. destruct Ht as (rest & Hc & _). rewrite Hc in HndC.
    eapply NoDup_app_remove_r. exact HndC. }
  assert (Hsi : incl (successes new) (dict_keys src)).
  { intros x Hx. apply HinC. destruct Ht as (rest & Hc & _). rewrite Hc.
    apply in_or_app. left. now apply successes_incl. }
  destruct (@dict_comp_ok _ src _ Hsi) as (u & Eu & _ & _ & Hk & Hv).
  exists C, new, u, s1, s'. splits; auto; [congruence | exact (Hv Hsn)].
Qed.

Lemma tried_prefix_skip (C : list string) : tried_prefix C [] (Some 0).
Proof. exists C. split; [reflexivity | right; reflexivity]. Qed.

Lemma stops_where_reached_skip (C : list string) :
  stops_where_reached C [] (Some 0).
Proof.
  split; [right; left; auto|]. intros p i q H. destruct p; discriminate.
Qed.

Lemma step3_ok (L : locals) (s : state) :
  exists C new u L' s',
    step3 L s = Ok L' s'
    /\ Permutation (absent_all (dl_all_class_ids L)) C
    /\ tried_prefix C new (requested_num L)
    /\ (forall k, requested_num L = Some k -> len (successes new) <= Z.max k 1)
    /\ (requested_num L = Some 0 -> new = [])
    /\ Forall answered new
    /\ dict_keys u = successes new
    /\ requested_samples L' = dict_update (requested_samples L) u
    /\ requested_num L' = next (requested_num L) (len (successes new))
    /\ num_downloaded_samples L' = num_downloaded_samples L + len (successes new)
    /\ dl_any_class_ids L' = dl_any_class_ids L
    /\ fetch_log s' = fetch_log s ++ new
    /\ (shuffle = false -> C = absent_all (dl_all_class_ids L))
    /\ entries_of all_class_samples u
    /\ stops_where_reached C new (requested_num L).
Proof.
  unfold step3. fold (absent_all (dl_all_class_ids L)).
  destruct (none_or_truthy (requested_num L)) eqn:Eg.
  - destruct (@fetch_absent_ok all_class_samples (absent_all (dl_all_class_ids L))
                (requested_num L) s (absent_all_incl _) (absent_all_NoDup _))
      as (C & new & u & s1 & s' & E & Ea & Eu & Hp & Ht & Hb & Hf & Hk & Hl & Hu
          & Hv & Hs).
    exists C, new, u. eexists. exists s'.
    run E. run Ea. run_lift s' Eu.
    unfold ret. split; [reflexivity|]. simpl. splits; auto.
    intros Hz. rewrite Hz in Eg. discriminate.
  - destruct (@next_skip _ (len (successes [])) Eg) as [Er En].
    exists (absent_all (dl_all_class_ids L)), [], [], L, s. unfold ret.
    rewrite Er in *. splits; auto.
    + apply tried_prefix_skip.
    + intros k Hk. inversion Hk; subst. simpl. unfold len. simpl. lia.
    + simpl. unfold len. simpl. lia.
    + now rewrite app_nil_r.
    + intros k v [].
    + apply stops_where_reached_skip.
Qed.

Lemma step4_ok (L : locals) (s : state) (dl_any : list string) :
  (none_or_truthy (requested_num L) = true -> dl_any_class_ids L = Some dl_any) ->
  exists C new u L' s',
    step4 L s = Ok L' s'
    /\ Permutation (absent_any dl_any) C
    /\ tried_prefix C new (requested_num L)
    /\ (forall k, requested_num L = Some k -> len (successes new) <= Z.max k 1)
    /\ (requested_num L = Some 0 -> new = [])
    /\ Forall answered new
    /\ dict_keys u = successes new
    /\ requested_samples L' = dict_update (requested_samples L) u
    /\ num_downloaded_samples L' = num_downloaded_samples L + len (successes new)
    /\ fetch_log s' = fetch_log s ++ new
    /\ (shuffle = false -> C = absent_any dl_any)
    /\ entries_of any_class_samples u
    /\ stops_where_reached C new (requested_num L).
Proof.
  intros Hb0. unfold step4.
  destruct (none_or_truthy (requested_num L)) eqn:Eg.
  - rewrite (Hb0 eq_refl). unfold bind at 1, lift at 1.
    fold (absent_any dl_any).
    destruct (@fetch_absent_ok any_class_samples (absent_any dl_any)
                (requested_num L) s (absent_any_incl _) (absent_any_NoDup _))
      as (C & new & u & s1 & s' & E & Ea & Eu & Hp & Ht & Hb & Hf & Hk & Hl & Hu
          & Hv & Hs).
    exists C, new, u. eexists. exists s'.
    run E. run Ea. run_lift s' Eu.
    unfold ret. split; [reflexivity|]. simpl. splits; auto.
    intros Hz. rewrite Hz in Eg. discriminate.
  - destruct (@next_skip _ 0 Eg) as [Er _].
    exists (absent_any dl_any), [], [], L, s. unfold ret.
    rewrite Er in *. splits; auto.
    + apply tried_prefix_skip.
    + intros k Hk. inversion Hk; subst. simpl. unfold len. simpl. lia.
    + simpl. unfold len. simpl. lia.
    + now rewrite app_nil_r.
    + intros k v [].
    + apply stops_where_reached_skip.
Qed.

(** ** The planner as a whole *)

(** The planner never raises, and every run has a trace. *)
Lemma planner_run_order (s : state) :
  exists plan n s' T,
    _downloaded_necessary_samples s = Ok (plan, n) s'
    /\ planner_post s s' plan n T
    /\ (shuffle = false ->
        D1 T = present_all /\ D2 T = present_any
        /\ C3 T = absent_all (D1 T) /\ C4 T = absent_any (D2 T))
    /\ (forall sd, shuffle = true -> seed = Some sd ->
          D1 T = fst (random_shuffle (random_seed sd) present_all)).
Proof.
  destruct (seed_step_ok s) as (s0 & E0 & _ & Hl0 & Hg0).
  destruct (step1_ok s0)
    as (d1 & w1 & L1 & s1 & E1 & Hp1 & Hk1 & Hq1 & Hr1 & Hn1 & Hd1 & _ & Hl1 & Hu1 & Hv1
        & Hsh1).
  destruct (step2_ok L1 s1)
    as (d2 & w2 & L2 & s2 & E2 & Hp2 & Hk2 & Hq2 & Hr2 & Hn2 & Hd2 & Ha2 & Hl2
        & Hu2 & Hv2).
  destruct (step3_ok L2 s2)
    as (c3 & n3 & w3 & L3 & s3 & E3 & Hp3 & Ht3 & Hb3 & Hz3 & Hf3 & Hk3 & Hq3
        & Hr3 & Hn3 & Ha3 & Hl3 & Hu3 & Hv3 & Hs3).
  assert (Hany : none_or_truthy (requested_num L3) = true ->
                 dl_any_class_ids L3 = Some d2).
  { intros H. rewrite Ha3. apply Ha2. rewrite Hr3 in H.
    apply next_none_or_truthy in H. rewrite Hr2 in H.
    now apply next_none_or_truthy in H. }
  destruct (step4_ok L3 s3 Hany)
    as (c4 & n4 & w4 & L4 & s4 & E4 & Hp4 & Ht4 & Hb4 & Hz4 & Hf4 & Hk4 & Hq4
        & Hn4 & Hl4 & Hu4 & Hv4 & Hs4).
  exists (requested_samples L4), (num_downloaded_samples L4), s4,
    {| D1 := d1; D2 := d2; C3 := c3; C4 := c4; new3 := n3; new4 := n4;
       u1 := w1; u2 := w2; u3 := w3; u4 := w4 |}.
  rewrite Hd2, Hd1 in Hp3, Hu3.
  split; [|split; [|split]].
  - unfold _downloaded_necessary_samples.
    run E0. run E1. run E2. run E3. run E4. reflexivity.
  - unfold planner_post, budget3, budget2, budget1. cbn [D1 D2 C3 C4 new3 new4 u1 u2 u3 u4].
    rewrite <- Hr1. rewrite <- Hr2. rewrite <- Hr3.
    splits; auto.
    + rewrite Hq4, Hq3, Hq2, Hq1. reflexivity.
    + rewrite Hn4, Hn3, Hn2, Hn1. lia.
    + rewrite Hl4, Hl3, Hl2, Hl1, Hl0. now rewrite app_assoc.
  - intros Hs. cbn [D1 D2 C3 C4]. splits; auto.
  - intros sd Hs Hsd. cbn [D1]. rewrite (Hsh1 Hs), (Hg0 sd Hs Hsd). reflexivity.
Qed.

Lemma planner_run (s : state) :
  exists plan n s' T,
    _downloaded_necessary_samples s = Ok (plan, n) s'
    /\ planner_post s s' plan n T.
Proof.
  destruct (planner_run_order s) as (plan & n & s' & T & E & HP & _).
  now exists plan, n, s', T.
Qed.

End Planner.

Lemma next_Some (k n : Z) :
  next (Some k) n = Some (if k =? 0 then 0 else k - n).
Proof. unfold next. simpl. destruct (Z.eqb_spec k 0); subst; reflexivity. Qed.

Lemma len_keys {V} (d : dict V) : len (dict_keys d) = len d.
Proof. unfold len, dict_keys. now rewrite length_map. Qed.

Lemma len_nonneg {A} (l : list A) : 0 <= len l.
Proof. unfold len. lia. Qed.

Lemma slice_to_zero {A} (l : list A) : slice_to l (Some 0) = [].
Proof. reflexivity. Qed.

(** The size of the plan is at most what the four steps took. *)
Lemma plan_len (w1 w2 w3 w4 : dict sample_info) :
  len (dict_update (dict_update (dict_update (dict_update [] w1) w2) w3) w4)
  <= len w1 + len w2 + len w3 + len w4.
Proof.
  pose proof (dict_update_len w4 (dict_update (dict_update (dict_update [] w1) w2) w3)).
  pose proof (dict_update_len w3 (dict_update (dict_update [] w1) w2)).
  pose proof (dict_update_len w2 (dict_update [] w1)).
  pose proof (dict_update_len w1 []).
  change (len (@nil (string * sample_info))) with 0 in *. lia.
Qed.

(** Under a cap [c >= 0] the four steps take at most [c] records. *)
Lemma steps_within_cap all any prev (c : Z) (s s' : state) plan n T :
  0 <= c ->
  planner_post all any prev (Some c) s s' plan n T ->
  len (u1 T) + len (u2 T) + len (u3 T) + len (u4 T) <= c
  /\ 0 <= n.
Proof.
  intros Hc HP. unfold planner_post in HP.
  destruct HP as (_ & Hn & _ & _ & _ & _ & _ & Hk1 & Hk2 & Hk3 & Hk4 & _ & _
                  & Hb3 & Hb4 & Hz3 & Hz4 & _ & _).
  rewrite <- (len_keys (u1 T)), <- (len_keys (u2 T)),
    <- (len_keys (u3 T)), <- (len_keys (u4 T)).
  rewrite Hk1, Hk2, Hk3, Hk4.
  unfold budget3, budget2, budget1 in *.
  set (t1 := len (slice_to (D1 T) (Some c))) in *.
  assert (Ht1 : t1 = Z.min c (len (D1 T))) by (apply slice_to_len_nonneg; lia).
  pose proof (len_nonneg (D1 T)) as HD1.
  rewrite next_Some in *.
  set (r1 := if c =? 0 then 0 else c - t1) in *.
  assert (Hr1 : 0 <= r1 /\ t1 + r1 <= c).
  { unfold r1. destruct (Z.eqb_spec c 0); lia. }
  set (t2 := len (slice_to (D2 T) (Some r1))) in *.
  assert (Ht2 : t2 = Z.min r1 (len (D2 T))) by (apply slice_to_len_nonneg; lia).
  pose proof (len_nonneg (D2 T)) as HD2.
  rewrite next_Some in *.
  set (r2 := if r1 =? 0 then 0 else r1 - t2) in *.
  assert (Hr2 : 0 <= r2 /\ t2 + r2 <= r1).
  { unfold r2. destruct (Z.eqb_spec r1 0); lia. }
  set (s3 := len (successes (new3 T))) in *.
  assert (Hs3 : 0 <= s3 <= r2).
  { split; [apply len_nonneg|]. destruct (Z.eq_dec r2 0) as [E|E].
    - unfold s3. rewrite Hz3; [unfold len; simpl; lia | now rewrite E].
    - specialize (Hb3 r2 eq_refl). lia. }
  rewrite next_Some in *.
  set (r3 := if r2 =? 0 then 0 else r2 - s3) in *.
  assert (Hr3 : 0 <= r3 /\ s3 + r3 <= r2).
  { unfold r3. destruct (Z.eqb_spec r2 0); lia. }
  set (s4 := len (successes (new4 T))) in *.
  assert (Hs4 : 0 <= s4 <= r3).
  { split; [apply len_nonneg|]. destruct (Z.eq_dec r3 0) as [E|E].
    - unfold s4. rewrite Hz4; [unfold len; simpl; lia | now rewrite E].
    - specialize (Hb4 r3 eq_refl). lia. }
  lia.
Qed.

(** Every record of the plan is the record of its id in one of the two
    candidate dictionaries. *)
Lemma plan_entries all any prev (r : option Z) (s s' : state) plan n T :
  planner_post all any prev r s s' plan n T ->
  forall k v, In (k, v) plan ->
              dict_get k all = Some v \/ dict_get k any = Some v.
Proof.
  intros HP k v Hin. unfold planner_post in HP.
  destruct HP as (-> & _ & _ & _ & _ & _ & _ & _ & _ & _ & _ & _ & _ & _ & _
                  & _ & _ & _ & _ & H1 & H2 & H3 & H4 & _).
  apply dict_update_In in Hin. destruct Hin as [Hin|Hin]; [|right; now apply H4].
  apply dict_update_In in Hin. destruct Hin as [Hin|Hin]; [|left; now apply H3].
  apply dict_update_In in Hin. destruct Hin as [Hin|Hin]; [|right; now apply H2].
  apply dict_update_In in Hin. destruct Hin as [[]|Hin]. left; now apply H1.
Qed.

(** ** The properties of the planner *)

Lemma dict_keys_nil {V} (d : dict V) : dict_keys d = [] -> d = [].
Proof. destruct d; [reflexivity | discriminate]. Qed.

Lemma successes_nil_len (new : list (string * bool)) :
  new = [] -> successes new = [].
Proof. now intros ->. Qed.

(** With the budget used up by step 1, the plan is what step 1 took. *)
Lemma tight_cap_plan all any prev (c : Z) (s s' : state) plan n T :
  0 <= c -> c <= len (present_all all prev) ->
  planner_post all any prev (Some c) s s' plan n T ->
  plan = u1 T /\ dict_keys plan = slice_to (D1 T) (Some c)
  /\ len plan = c /\ n = 0 /\ fetch_log s' = fetch_log s.
Proof.
  intros Hc Hle HP. unfold planner_post in HP.
  destruct HP as (Hplan & Hn & Hlog & Hp1 & _ & _ & _ & Hk1 & Hk2 & Hk3 & Hk4 & _ & _
                  & _ & _ & Hz3 & Hz4 & _ & _).
  assert (Hnd : NoDup (D1 T)).
  { eapply Permutation_NoDup; [exact Hp1 | apply present_all_NoDup]. }
  assert (HlenD : len (D1 T) = len (present_all all prev)).
  { unfold len. now rewrite (Permutation_length Hp1). }
  assert (Ht1 : len (slice_to (D1 T) (Some c)) = c).
  { rewrite slice_to_len_nonneg by lia. lia. }
  assert (Hb1 : budget1 (Some c) T = Some 0).
  { unfold budget1. rewrite next_Some, Ht1.
    destruct (Z.eqb_spec c 0); f_equal; lia. }
  assert (Hb2 : budget2 (Some c) T = Some 0).
  { unfold budget2. rewrite Hb1. reflexivity. }
  assert (Hb3 : budget3 (Some c) T = Some 0).
  { unfold budget3. rewrite Hb2. reflexivity. }
  rewrite Hb1 in Hk2. rewrite slice_to_zero in Hk2. apply dict_keys_nil in Hk2.
  rewrite (Hz3 Hb2) in *. rewrite (Hz4 Hb3) in *.
  apply dict_keys_nil in Hk3. apply dict_keys_nil in Hk4.
  rewrite Hk2, Hk3, Hk4 in Hplan. simpl in Hplan.
  assert (Hu : dict_update [] (u1 T) = u1 T).
  { apply dict_update_nil_NoDup. fold (dict_keys (u1 T)). rewrite Hk1.
    now apply slice_to_NoDup. }
  rewrite Hu in Hplan. subst plan. splits; auto.
  - now rewrite <- len_keys, Hk1.
  - now rewrite Hlog, app_nil_r.
Qed.

(** The records step 1 took are the first keys of the plan. *)
Lemma plan_starts_with_step1 all any prev (r : option Z) (s s' : state) plan n T :
  planner_post all any prev r s s' plan n T ->
  exists rest, dict_keys plan = slice_to (D1 T) r ++ rest.
Proof.
  intros HP. unfold planner_post in HP.
  destruct HP as (Hplan & _ & _ & Hp1 & _ & _ & _ & Hk1 & _).
  assert (Hu : dict_update [] (u1 T) = u1 T).
  { apply dict_update_nil_NoDup. fold (dict_keys (u1 T)). rewrite Hk1.
    apply slice_to_NoDup.
    eapply Permutation_NoDup; [exact Hp1 | apply present_all_NoDup]. }
  rewrite Hu in Hplan. subst plan.
  destruct (dict_update_keys_prefix (u4 T)
              (dict_update (dict_update (u1 T) (u2 T)) (u3 T))) as [x4 H4].
  destruct (dict_update_keys_prefix (u3 T) (dict_update (u1 T) (u2 T))) as [x3 H3].
  destruct (dict_update_keys_prefix (u2 T) (u1 T)) as [x2 H2].
  exists (x2 ++ x3 ++ x4). rewrite H4, H3, H2, Hk1.
  now rewrite <- !app_assoc.
Qed.

(** C3 (tier priority): under a cap [c >= 0] the downloaded ids matching
    all classes, in the order [D1] in which step 1 iterates them, are
    taken first: the plan starts with the first [c] of them; with [c] no
    larger than their number the plan is exactly these records, nothing
    is downloaded and no download is attempted; and whenever the plan
    holds any other record, or a download was attempted, all of them are
    in the plan. *)
Theorem tier_priority videos_dir all any prev (c : Z) seed shuffle (s : state) :
  0 <= c ->
  exists plan n s' D1,
    _downloaded_necessary_samples videos_dir all any prev (Some c) seed shuffle s
    = Ok (plan, n) s'
    /\ Permutation (present_all all prev) D1
    /\ (exists rest, dict_keys plan = slice_to D1 (Some c) ++ rest)
    /\ (c <= len (present_all all prev) ->
        dict_keys plan = slice_to D1 (Some c) /\ len plan = c
        /\ entries_of all plan
        /\ n = 0 /\ fetch_log s' = fetch_log s)
    /\ ((exists k, In k (dict_keys plan) /\ ~ In k (present_all all prev))
        \/ fetch_log s' <> fetch_log s ->
        forall k, In k (present_all all prev) -> In k (dict_keys plan)).
Proof.
  intros Hc.
  destruct (planner_run videos_dir all any prev (Some c) seed shuffle s)
    as (plan & n & s' & T & E & HP).
  exists plan, n, s', (D1 T).
  assert (Hp1 : Permutation (present_all all prev) (D1 T)).
  { now destruct HP as (_ & _ & _ & Hp1 & _). }
  destruct (plan_starts_with_step1 HP) as [rest Hrest].
  splits; auto.
  - now exists rest.
  - intros Hle. destruct (tight_cap_plan Hc Hle HP) as (H0 & H1 & H2 & H3 & H4).
    splits; auto. rewrite H0. unfold planner_post in HP.
    now destruct HP as (_ & _ & _ & _ & _ & _ & _ & _ & _ & _ & _ & _ & _ & _ & _
                        & _ & _ & _ & _ & Hv1 & _).
  - intros Hbeyond k Hk.
    destruct (Z_le_gt_dec c (len (present_all all prev))) as [Hle|Hgt].
    + exfalso. destruct (tight_cap_plan Hc Hle HP) as (_ & H1 & _ & _ & H4).
      destruct Hbeyond as [(k' & Hin & Hout)|Hlog]; [|now apply Hlog].
      apply Hout. rewrite H1 in Hin. apply slice_to_incl in Hin.
      now apply (Permutation_in k' (Permutation_sym Hp1)).
    + rewrite Hrest. apply in_or_app. left.
      assert (Hall : slice_to (D1 T) (Some c) = D1 T).
      { unfold slice_to. destruct (Z.leb_spec 0 c); [|lia].
        apply firstn_all2. unfold len in Hgt.
        rewrite (Permutation_length Hp1) in Hgt. lia. }
      rewrite Hall. now apply (Permutation_in k Hp1).
Qed.

Lemma present_all_iff all prev (x : string) :
  In x (present_all all prev) <-> In x (dict_keys all) /\ In x prev.
Proof.
  unfold present_all. rewrite set_intersection_In, !pyset_In. tauto.
Qed.

Lemma present_any_iff any prev (x : string) :
  In x (present_any any prev) <-> In x (dict_keys any) /\ In x prev.
Proof.
  unfold present_any. rewrite set_intersection_In, !pyset_In. tauto.
Qed.

Lemma absent_all_iff all prev (D : list string) (x : string) :
  Permutation (present_all all prev) D ->
  In x (absent_all all D) <-> In x (dict_keys all) /\ ~ In x prev.
Proof.
  intros Hp. unfold absent_all. rewrite set_difference_In, !pyset_In.
  assert (HD : In x D <-> In x (dict_keys all) /\ In x prev).
  { rewrite <- present_all_iff. split; apply Permutation_in; auto.
    now apply Permutation_sym. }
  tauto.
Qed.

Lemma absent_any_iff any prev (D : list string) (x : string) :
  Permutation (present_any any prev) D ->
  In x (absent_any any D) <-> In x (dict_keys any) /\ ~ In x prev.
Proof.
  intros Hp. unfold absent_any. rewrite set_difference_In, !pyset_In.
  assert (HD : In x D <-> In x (dict_keys any) /\ In x prev).
  { rewrite <- present_any_iff. split; apply Permutation_in; auto.
    now apply Permutation_sym. }
  tauto.
Qed.

(** The downloads attempted by the two download steps: distinct ids of
    the respective candidates that were not downloaded before. *)
Lemma attempted_ids all any prev (r : option Z) (s s' : state) plan n T :
  planner_post all any prev r s s' plan n T ->
  NoDup (map fst (new3 T)) /\ NoDup (map fst (new4 T))
  /\ (forall x, In x (map fst (new3 T)) -> In x (dict_keys all) /\ ~ In x prev)
  /\ (forall x, In x (map fst (new4 T)) -> In x (dict_keys any) /\ ~ In x prev).
Proof.
  intros HP. unfold planner_post in HP.
  destruct HP as (_ & _ & _ & Hp1 & Hp2 & Hp3 & Hp4 & _ & _ & _ & _
                  & (rest3 & Hc3 & _) & (rest4 & Hc4 & _) & _).
  assert (Hn3 : NoDup (C3 T)).
  { eapply Permutation_NoDup; [exact Hp3 | apply absent_all_NoDup]. }
  assert (Hn4 : NoDup (C4 T)).
  { eapply Permutation_NoDup; [exact Hp4 | apply absent_any_NoDup]. }
  rewrite Hc3 in Hn3. rewrite Hc4 in Hn4. splits.
  - eapply NoDup_app_remove_r; eauto.
  - eapply NoDup_app_remove_r; eauto.
  - intros x Hx. apply (absent_all_iff x Hp1).
    apply (Permutation_in x (Permutation_sym Hp3)). rewrite Hc3.
    apply in_or_app. now left.
  - intros x Hx. apply (absent_any_iff x Hp2).
    apply (Permutation_in x (Permutation_sym Hp4)). rewrite Hc4.
    apply in_or_app. now left.
Qed.

(** C4 (no duplicate fetch): when no id is both an all-class and an
    any-class candidate, as for the candidates [_get_matching_samples]
    computes, one run of the planner calls the downloader at most once
    per id, only for candidates, and never for an id that was already
    downloaded. *)
Theorem no_duplicate_fetch videos_dir all any prev max_samples seed shuffle
    (s : state) :
  (forall k, In k (dict_keys all) -> ~ In k (dict_keys any)) ->
  exists plan n s' new,
    _downloaded_necessary_samples videos_dir all any prev max_samples seed shuffle s
    = Ok (plan, n) s'
    /\ fetch_log s' = fetch_log s ++ new
    /\ NoDup (map fst new)
    /\ (forall k, In k (map fst new) -> ~ In k prev)
    /\ (forall k, In k (map fst new) ->
          In k (dict_keys all) \/ In k (dict_keys any)).
Proof.
  intros Hdisj.
  destruct (planner_run videos_dir all any prev max_samples seed shuffle s)
    as (plan & n & s' & T & E & HP).
  destruct (attempted_ids HP) as (Hn3 & Hn4 & Hi3 & Hi4).
  exists plan, n, s', (new3 T ++ new4 T). rewrite map_app.
  splits; auto.
  - now destruct HP as (_ & _ & Hlog & _).
  - apply NoDup_app; auto. intros x H3 H4.
    apply (Hdisj x); [apply Hi3 | apply Hi4]; assumption.
  - intros k Hk. apply in_app_or in Hk.
    destruct Hk as [Hk|Hk]; [apply Hi3 in Hk | apply Hi4 in Hk]; tauto.
  - intros k Hk. apply in_app_or in Hk.
    destruct Hk as [Hk|Hk]; [apply Hi3 in Hk | apply Hi4 in Hk]; tauto.
Qed.

(** Without a cap every step runs over all of its candidates. *)
Lemma uncapped_trace all any prev (s s' : state) plan n T :
  planner_post all any prev None s s' plan n T ->
  dict_keys (u1 T) = D1 T /\ dict_keys (u2 T) = D2 T
  /\ map fst (new3 T) = C3 T /\ map fst (new4 T) = C4 T.
Proof.
  intros HP. unfold planner_post in HP.
  destruct HP as (_ & _ & _ & _ & _ & _ & _ & Hk1 & Hk2 & _ & _
                  & (rest3 & Hc3 & Hr3) & (rest4 & Hc4 & Hr4) & _).
  unfold budget3, budget2, budget1, next in *. simpl in *.
  destruct Hr3 as [->|Hr3]; [|discriminate].
  destruct Hr4 as [->|Hr4]; [|discriminate].
  rewrite app_nil_r in *. auto.
Qed.

Lemma plan_keys_In (w1 w2 w3 w4 : dict sample_info) (k : string) :
  In k (dict_keys (dict_update (dict_update (dict_update (dict_update [] w1) w2)
                                  w3) w4))
  <-> In k (dict_keys w1) \/ In k (dict_keys w2)
      \/ In k (dict_keys w3) \/ In k (dict_keys w4).
Proof.
  rewrite !dict_update_keys_In. simpl. fold (dict_keys w1) (dict_keys w2)
    (dict_keys w3) (dict_keys w4). tauto.
Qed.

(** C7 (unbounded cap): with [max_samples = None], and no id both an
    all-class and an any-class candidate, the planner attempts the
    download of every candidate that was not downloaded before exactly
    once, and the plan holds every candidate that was downloaded before
    together with exactly the candidates whose download succeeded. *)
Theorem unbounded_cap videos_dir all any prev seed shuffle (s : state) :
  (forall k, In k (dict_keys all) -> ~ In k (dict_keys any)) ->
  exists plan n s' new,
    _downloaded_necessary_samples videos_dir all any prev None seed shuffle s
    = Ok (plan, n) s'
    /\ fetch_log s' = fetch_log s ++ new
    /\ NoDup (map fst new)
    /\ (forall k, In k (map fst new) <->
          (In k (dict_keys all) \/ In k (dict_keys any)) /\ ~ In k prev)
    /\ (forall k, In k (dict_keys plan) <->
          ((In k (dict_keys all) \/ In k (dict_keys any)) /\ In k prev)
          \/ In (k, true) new)
    /\ (forall k v, In (k, v) plan ->
          dict_get k all = Some v \/ dict_get k any = Some v)
    /\ n = len (successes new).
Proof.
  intros Hdisj.
  destruct (planner_run videos_dir all any prev None seed shuffle s)
    as (plan & n & s' & T & E & HP).
  destruct (attempted_ids HP) as (Hn3 & Hn4 & Hi3 & Hi4).
  destruct (uncapped_trace HP) as (Hk1 & Hk2 & Ht3 & Ht4).
  pose proof (plan_entries HP) as Hent.
  unfold planner_post in HP.
  destruct HP as (Hplan & Hn & Hlog & Hp1 & Hp2 & Hp3 & Hp4 & _ & _ & Hk3 & Hk4 & _).
  exists plan, n, s', (new3 T ++ new4 T). rewrite map_app.
  splits; auto.
  - apply NoDup_app; auto. intros x H3 H4.
    apply (Hdisj x); [apply Hi3 | apply Hi4]; assumption.
  - intros k. rewrite in_app_iff, Ht3, Ht4.
    split.
    + intros [H|H]; [apply (Permutation_in k (Permutation_sym Hp3)) in H
                    | apply (Permutation_in k (Permutation_sym Hp4)) in H].
      * pose proof (proj1 (absent_all_iff k Hp1) H). tauto.
      * pose proof (proj1 (absent_any_iff k Hp2) H). tauto.
    + intros [[H|H] Hnot].
      * left. apply (Permutation_in k Hp3). apply (absent_all_iff k Hp1). tauto.
      * right. apply (Permutation_in k Hp4). apply (absent_any_iff k Hp2). tauto.
  - intros k. subst plan. rewrite plan_keys_In, Hk1, Hk2, Hk3, Hk4.
    rewrite in_app_iff, <- !successes_In.
    assert (H1 : In k (D1 T) <-> In k (dict_keys all) /\ In k prev).
    { rewrite <- present_all_iff. split; apply Permutation_in; auto.
      now apply Permutation_sym. }
    assert (H2 : In k (D2 T) <-> In k (dict_keys any) /\ In k prev).
    { rewrite <- present_any_iff. split; apply Permutation_in; auto.
      now apply Permutation_sym. }
    tauto.
  - rewrite successes_app. unfold len in *. rewrite length_app. lia.
Qed.

(** A download that fails is skipped: the loop goes on with the next id
    and the list of downloaded ids unchanged. *)
Lemma failed_download_skipped videos_dir (samples_info : dict sample_info)
    (num : option Z) (i : string) (ids downloaded : list string)
    (v : sample_info) (s : state) (w : World) :
  dict_get i samples_info = Some v ->
  ydl_download (world s) (url v) (os_path_join videos_dir (i ++ ".mp4")%string)
  = (false, w) ->
  _attempt_to_download_loop videos_dir (i :: ids) samples_info num downloaded s
  = _attempt_to_download_loop videos_dir ids samples_info num downloaded
      {| rng := rng s; world := w; fetch_log := fetch_log s ++ [(i, false)] |}.
Proof.
  intros Ev Ed. simpl. unfold bind, lift, dict_getitem, _do_download, log_fetch.
  rewrite Ev, Ed. reflexivity.
Qed.

Lemma all_failed (new : list (string * bool)) :
  (forall w u p, fst (ydl_download w u p) = false) ->
  Forall answered new ->
  Forall (fun e => snd e = false) new /\ successes new = [].
Proof.
  intros Hfail Hf. induction Hf as [|[i b] new (w & u & p & Hb) _ [IH1 IH2]].
  - split; [constructor | reflexivity].
  - simpl in Hb. rewrite Hfail in Hb. subst b. split.
    + constructor; auto.
    + unfold successes in *. simpl. exact IH2.
Qed.

Lemma failed_no_success (new : list (string * bool)) :
  Forall (fun e => snd e = false) new -> successes new = [].
Proof.
  unfold successes. induction 1 as [|[i b] new Hb _ IH]; simpl; auto.
  simpl in Hb. now rewrite Hb.
Qed.

Lemma no_success_failed (new : list (string * bool)) :
  (forall i, ~ In (i, true) new) -> successes new = [].
Proof.
  intros H. apply failed_no_success. apply Forall_forall. intros [i b] Hin.
  destruct b; simpl; auto. exfalso. exact (H i Hin).
Qed.

Lemma successes_last (new : list (string * bool)) (i : string) :
  successes (new ++ [(i, true)]) <> [].
Proof. rewrite successes_app. simpl. now destruct (successes new). Qed.

Lemma app_self_nil {A} (l r : list A) : l = l ++ r -> r = [].
Proof.
  intros H. apply (app_inv_head l). rewrite app_nil_r. now symmetry.
Qed.

(** With a negative budget a download step stops at its first success. *)
Lemma negative_budget_stop (C : list string) (new : list (string * bool))
    (k : Z) :
  k < 0 ->
  tried_prefix C new (Some k) -> stops_where_reached C new (Some k) ->
  stops_at_first_success C new.
Proof.
  intros Hk (rest & HC & _) [Hstop Hgo]. exists rest. split; [exact HC|].
  assert (Hlast : forall p i q, new = p ++ (i, true) :: q -> q = []).
  { intros p i q H. destruct q as [|e q]; auto. exfalso.
    assert (Hq : e :: q <> []) by discriminate.
    specialize (Hgo p i (e :: q) H Hq). simpl in Hgo.
    apply Z.leb_gt in Hgo. pose proof (len_nonneg (successes (p ++ [(i, true)]))).
    lia. }
  destruct new as [|e new'] using rev_ind.
  - left. split; [reflexivity|].
    destruct Hstop as [H|[[H _]|[(n' & i & H) _]]].
    + rewrite <- H in HC. now apply app_self_nil in HC.
    + inversion H. lia.
    + destruct n'; discriminate.
  - clear IHnew'.
    assert (Hf : successes new' = []).
    { apply no_success_failed. intros i Hin.
      apply in_split in Hin. destruct Hin as (p & q & ->).
      specialize (Hlast p i (q ++ [e])). rewrite <- app_assoc in Hlast.
      specialize (Hlast eq_refl). destruct q; discriminate. }
    destruct e as [i [|]].
    + right. now exists new', i.
    + left. split.
      * rewrite successes_app, Hf. reflexivity.
      * destruct Hstop as [H|[[H _]|[(n' & j & H) _]]].
        -- rewrite <- H in HC. now apply app_self_nil in HC.
        -- inversion H. lia.
        -- apply app_inj_tail in H. destruct H as [_ H]. discriminate.
Qed.

Lemma next_zero (r : option Z) : next r 0 = r.
Proof.
  unfold next, isub. destruct r as [k|]; simpl; auto.
  destruct (k =? 0); simpl; f_equal; lia.
Qed.

(** A download step without a success was skipped or tried every
    candidate. *)
Lemma failed_step_tries_all (C : list string) (new : list (string * bool))
    (r : option Z) :
  stops_where_reached C new r -> successes new = [] ->
  (r = Some 0 /\ new = []) \/ map fst new = C.
Proof.
  intros [[H|[H|[(new' & i & ->) _]]] _] Hs; auto.
  exfalso. exact (successes_last _ _ Hs).
Qed.

(** C5 (fetch failure skip): the planner always returns a plan, and in a
    run where the download fails for every candidate it is attempted for,
    as with a downloader that always fails, the count of downloaded
    samples is 0 and the plan is exactly the records steps 1 and 2 took
    among the ids downloaded before: the update [w1] of step 1 followed
    by the update [w2] of step 2. No failure ends a download step: unless
    the present records used up the cap, in which case nothing is
    attempted, step 3 attempts every all-class candidate that was not
    downloaded before, each once, and step 4 every any-class candidate
    likewise. *)
Theorem fetch_failure_skip videos_dir all any prev max_samples seed shuffle
    (s : state) :
  exists plan n s' D1 D2 w1 w2 new3 new4,
    _downloaded_necessary_samples videos_dir all any prev max_samples seed shuffle s
    = Ok (plan, n) s'
    /\ Permutation (present_all all prev) D1
    /\ Permutation (present_any any prev) D2
    /\ fetch_log s' = fetch_log s ++ new3 ++ new4
    /\ ((forall w u p, fst (ydl_download w u p) = false) ->
        Forall (fun e => snd e = false) (new3 ++ new4))
    /\ (Forall (fun e => snd e = false) (new3 ++ new4) ->
        n = 0
        /\ dict_keys w1 = slice_to D1 max_samples
        /\ dict_keys w2
           = slice_to D2 (next max_samples (len (slice_to D1 max_samples)))
        /\ entries_of all w1 /\ entries_of any w2
        /\ plan = dict_update w1 w2
        /\ (forall k, In k (dict_keys plan) ->
              In k prev /\ (In k (dict_keys all) \/ In k (dict_keys any)))
        /\ (download_budget max_samples D1 D2 = Some 0 ->
            new3 = [] /\ new4 = [])
        /\ (download_budget max_samples D1 D2 <> Some 0 ->
            NoDup (map fst new3)
            /\ (forall k, In k (map fst new3) <->
                  In k (dict_keys all) /\ ~ In k prev)
            /\ NoDup (map fst new4)
            /\ (forall k, In k (map fst new4) <->
                  In k (dict_keys any) /\ ~ In k prev))).
Proof.
  destruct (planner_run videos_dir all any prev max_samples seed shuffle s)
    as (plan & n & s' & T & E & HP).
  destruct (attempted_ids HP) as (Hn3 & Hn4 & Hi3 & Hi4).
  unfold planner_post in HP.
  destruct HP as (Hplan & Hn & Hlog & Hp1 & Hp2 & Hp3 & Hp4 & Hk1 & Hk2 & Hk3
                  & Hk4 & _ & _ & _ & _ & Hz3 & Hz4 & Hf3 & Hf4 & Hv1 & Hv2 & _ & _
                  & Hs3 & Hs4).
  exists plan, n, s', (D1 T), (D2 T), (u1 T), (u2 T), (new3 T), (new4 T).
  split; [exact E|]. split; [exact Hp1|]. split; [exact Hp2|].
  split; [exact Hlog|]. split.
  { intros Hfail. apply Forall_app.
    split; [apply (all_failed Hfail Hf3) | apply (all_failed Hfail Hf4)]. }
  intros Hall. apply Forall_app in Hall. destruct Hall as [Hx3 Hx4].
  pose proof (failed_no_success Hx3) as Hs30.
  pose proof (failed_no_success Hx4) as Hs40.
  assert (Hb3 : budget3 max_samples T = budget2 max_samples T).
  { unfold budget3. rewrite Hs30. apply next_zero. }
  rewrite Hb3 in *.
  change (budget2 max_samples T)
    with (download_budget max_samples (D1 T) (D2 T)) in *.
  rewrite Hs30 in Hk3. rewrite Hs40 in Hk4.
  apply dict_keys_nil in Hk3. apply dict_keys_nil in Hk4.
  rewrite Hk3, Hk4 in Hplan. simpl in Hplan.
  assert (Hu : dict_update [] (u1 T) = u1 T).
  { apply dict_update_nil_NoDup. fold (dict_keys (u1 T)). rewrite Hk1.
    apply slice_to_NoDup.
    eapply Permutation_NoDup; [exact Hp1 | apply present_all_NoDup]. }
  rewrite Hu in Hplan.
  split; [rewrite Hn, Hs30, Hs40; reflexivity|].
  split; [exact Hk1|]. split; [exact Hk2|]. split; [exact Hv1|].
  split; [exact Hv2|]. split; [exact Hplan|]. split; [|split].
  - intros k Hk. subst plan. apply dict_update_keys_In in Hk.
    fold (dict_keys (u2 T)) in Hk. rewrite Hk1, Hk2 in Hk.
    destruct Hk as [Hk|Hk]; apply slice_to_incl in Hk.
    + apply (Permutation_in k (Permutation_sym Hp1)) in Hk.
      apply present_all_iff in Hk. tauto.
    + apply (Permutation_in k (Permutation_sym Hp2)) in Hk.
      apply present_any_iff in Hk. tauto.
  - intros Hb. auto.
  - intros Hb.
    destruct (failed_step_tries_all Hs3 Hs30) as [[H _]|H3]; [contradiction|].
    destruct (failed_step_tries_all Hs4 Hs40) as [[H _]|H4]; [contradiction|].
    split; [exact Hn3|]. split; [|split; [exact Hn4|]].
    + intros k. rewrite H3, <- (absent_all_iff k Hp1).
      split; apply Permutation_in; auto. now apply Permutation_sym.
    + intros k. rewrite H4, <- (absent_any_iff k Hp2).
      split; apply Permutation_in; auto. now apply Permutation_sym.
Qed.


(** C2, as the code has it: a negative cap [c] raises nothing. All four
    steps run, with the negative slices of Python: step 1 takes the
    downloaded all-class ids but the last [-c] of them, in the order [D1]
    in which it iterates them, and step 2 takes the downloaded any-class
    ids but the last ones likewise, the budget being [c] less what step 1
    took. Each of the two download steps tries its candidates in order
    and stops at its first successful download, or tries them all when
    none succeeds, so at most 2 samples are downloaded. The plan holds
    exactly the ids steps 1 and 2 took and the ids downloaded with
    success. *)
Theorem negative_cap_returns_plan videos_dir all any prev (c : Z) seed shuffle
    (s : state) :
  c < 0 ->
  exists plan n s' D1 D2 C3 C4 new3 new4,
    _downloaded_necessary_samples videos_dir all any prev (Some c) seed shuffle s
    = Ok (plan, n) s'
    /\ Permutation (present_all all prev) D1
    /\ Permutation (present_any any prev) D2
    /\ Permutation (absent_all all D1) C3
    /\ Permutation (absent_any any D2) C4
    /\ (exists rest,
          dict_keys plan = firstn (Z.to_nat (len D1 + c)) D1 ++ rest)
    /\ (forall k,
          In k (dict_keys plan) <->
          In k (firstn (Z.to_nat (len D1 + c)) D1)
          \/ In k (slice_to D2 (Some (c - len (slice_to D1 (Some c)))))
          \/ In (k, true) new3 \/ In (k, true) new4)
    /\ fetch_log s' = fetch_log s ++ new3 ++ new4
    /\ stops_at_first_success C3 new3
    /\ stops_at_first_success C4 new4
    /\ n = len (successes new3) + len (successes new4)
    /\ 0 <= n <= 2.
Proof.
  intros Hc.
  destruct (planner_run videos_dir all any prev (Some c) seed shuffle s)
    as (plan & n & s' & T & E & HP).
  exists plan, n, s', (D1 T), (D2 T), (C3 T), (C4 T), (new3 T), (new4 T).
  destruct (plan_starts_with_step1 HP) as [rest Hrest].
  unfold planner_post in HP.
  destruct HP as (Hplan & Hn & Hlog & Hp1 & Hp2 & Hp3 & Hp4 & Hk1 & Hk2 & Hk3
                  & Hk4 & Ht3 & Ht4 & Hb3 & Hb4 & _ & _ & _ & _ & _ & _ & _ & _
                  & Hs3 & Hs4).
  assert (Hsl : slice_to (D1 T) (Some c) = firstn (Z.to_nat (len (D1 T) + c)) (D1 T)).
  { unfold slice_to. destruct (Z.leb_spec 0 c); [lia | reflexivity]. }
  unfold budget3, budget2, budget1 in *. rewrite !next_Some in *.
  pose proof (len_nonneg (slice_to (D1 T) (Some c))) as H1.
  destruct (Z.eqb_spec c 0) as [|_]; [lia|].
  set (r1 := c - len (slice_to (D1 T) (Some c))) in *.
  pose proof (len_nonneg (slice_to (D2 T) (Some r1))) as H2.
  destruct (Z.eqb_spec r1 0) as [|_]; [lia|].
  set (r2 := r1 - len (slice_to (D2 T) (Some r1))) in *.
  pose proof (len_nonneg (successes (new3 T))) as H3.
  destruct (Z.eqb_spec r2 0) as [|_]; [lia|].
  pose proof (len_nonneg (successes (new4 T))) as H4.
  specialize (Hb3 _ eq_refl). specialize (Hb4 _ eq_refl).
  split; [exact E|]. split; [exact Hp1|]. split; [exact Hp2|].
  split; [exact Hp3|]. split; [exact Hp4|].
  split; [exists rest; now rewrite Hrest, Hsl|].
  split.
  { intros k. rewrite Hplan, plan_keys_In, Hk1, Hk2, Hk3, Hk4, <- Hsl.
    rewrite <- !successes_In. fold r1. tauto. }
  split; [exact Hlog|].
  split; [apply (@negative_budget_stop _ _ r2); auto; lia|].
  split; [apply (@negative_budget_stop _ _ (r2 - len (successes (new3 T))));
          auto; lia|].
  split; [exact Hn | lia].
Qed.

(** ** Determinism *)

Lemma rng_free_ret {A} (a : A) : rng_free (ret a).
Proof. intros g s. reflexivity. Qed.

Lemma rng_free_lift {A} (r : exn + A) : rng_free (lift r).
Proof. intros g s. destruct r; reflexivity. Qed.

Lemma rng_free_bind {A B} (m : M A) (f : A -> M B) :
  rng_free m -> (forall a, rng_free (f a)) -> rng_free (bind m f).
Proof.
  intros Hm Hf g s. unfold bind. rewrite Hm.
  destruct (m s) as [a s'|e s']; simpl; [apply Hf | reflexivity].
Qed.

Lemma rng_free_do_download (u p : string) : rng_free (_do_download u p).
Proof.
  intros g s. unfold _do_download. simpl.
  destruct (ydl_download (world s) u p). reflexivity.
Qed.

Lemma rng_free_log_fetch (i : string) (b : bool) : rng_free (log_fetch i b).
Proof. intros g s. reflexivity. Qed.

Lemma rng_free_attempt_loop videos_dir (samples_info : dict sample_info)
    (num : option Z) (ids : list string) :
  forall downloaded,
    rng_free (_attempt_to_download_loop videos_dir ids samples_info num downloaded).
Proof.
  induction ids as [|i ids IH]; intros downloaded; simpl.
  - apply rng_free_ret.
  - apply rng_free_bind; [apply rng_free_lift|]. intros v.
    apply rng_free_bind; [apply rng_free_do_download|]. intros b.
    apply rng_free_bind; [apply rng_free_log_fetch|]. intros _.
    destruct b; simpl; [|apply IH].
    destruct (reached num (len (downloaded ++ [i]))); [apply rng_free_ret | apply IH].
Qed.

Lemma rng_free_step1 all prev max_samples :
  rng_free (step1 all prev max_samples false).
Proof.
  unfold step1. apply rng_free_bind; [apply rng_free_ret|]. intros D.
  apply rng_free_bind; [apply rng_free_lift|]. intros u. apply rng_free_ret.
Qed.

Lemma rng_free_step2 any prev L : rng_free (step2 any prev false L).
Proof.
  unfold step2. destruct (none_or_truthy (requested_num L)); [|apply rng_free_ret].
  apply rng_free_bind; [apply rng_free_ret|]. intros D.
  apply rng_free_bind; [apply rng_free_lift|]. intros u. apply rng_free_ret.
Qed.

Lemma rng_free_step3 videos_dir all L : rng_free (step3 videos_dir all false L).
Proof.
  unfold step3. destruct (none_or_truthy (requested_num L)); [|apply rng_free_ret].
  apply rng_free_bind; [apply rng_free_ret|]. intros C.
  apply rng_free_bind; [apply rng_free_attempt_loop|]. intros d.
  apply rng_free_bind; [apply rng_free_lift|]. intros u. apply rng_free_ret.
Qed.

Lemma rng_free_step4 videos_dir any L : rng_free (step4 videos_dir any false L).
Proof.
  unfold step4. destruct (none_or_truthy (requested_num L)); [|apply rng_free_ret].
  apply rng_free_bind; [apply rng_free_lift|]. intros dl.
  apply rng_free_bind; [apply rng_free_ret|]. intros C.
  apply rng_free_bind; [apply rng_free_attempt_loop|]. intros d.
  apply rng_free_bind; [apply rng_free_lift|]. intros u. apply rng_free_ret.
Qed.

(** Without shuffle the planner leaves the random generator alone. *)
Lemma rng_free_planner videos_dir all any prev max_samples seed :
  rng_free
    (_downloaded_necessary_samples videos_dir all any prev max_samples seed false).
Proof.
  unfold _downloaded_necessary_samples.
  apply rng_free_bind; [apply rng_free_ret|]. intros _.
  apply rng_free_bind; [apply rng_free_step1|]. intros L1.
  apply rng_free_bind; [apply rng_free_step2|]. intros L2.
  apply rng_free_bind; [apply rng_free_step3|]. intros L3.
  apply rng_free_bind; [apply rng_free_step4|]. intros L4.
  apply rng_free_ret.
Qed.

(** C6, as the code has it. With [shuffle] and an explicit seed the run
    is a function of the inputs, the seed, the iteration order of sets
    and the answers of the downloader: the state of the random generator
    before the call plays no part, and step 1 iterates the downloaded
    all-class ids in the order in which the generator seeded with [seed]
    shuffles their set. Without [shuffle] the run depends neither on the
    generator, which it leaves untouched, nor on [seed], and the order in
    every step is the iteration order of the set the code computes, not
    the insertion order of the input mapping (unless sets happen to
    iterate in that order): steps 1 and 2 take the first ids of
    [present_all] and of [present_any], steps 3 and 4 attempt the ids of
    [absent_all] and of [absent_any] from the first one on, stopping only
    where the budget is reached, and the plan is the four updates in this
    order. The selection of [openimages.py] has no seed: with a truthy
    cap it is the first ids of the valid ids as shuffled from the state
    in which the call finds the generator; otherwise it is the valid ids
    in the iteration order of their set, the generator left alone. *)
Theorem selection_deterministic videos_dir all any prev max_samples :
  (forall sd s1 s2,
      world s1 = world s2 -> fetch_log s1 = fetch_log s2 ->
      _downloaded_necessary_samples videos_dir all any prev max_samples
        (Some sd) true s1
      = _downloaded_necessary_samples videos_dir all any prev max_samples
          (Some sd) true s2)
  /\ (forall sd s, exists plan n s' rest,
        _downloaded_necessary_samples videos_dir all any prev max_samples
          (Some sd) true s = Ok (plan, n) s'
        /\ dict_keys plan
           = slice_to (fst (random_shuffle (random_seed sd) (present_all all prev)))
               max_samples ++ rest)
  /\ (forall seed seed' g s,
        _downloaded_necessary_samples videos_dir all any prev max_samples
          seed false (with_rng g s)
        = result_with_rng g
            (_downloaded_necessary_samples videos_dir all any prev max_samples
               seed' false s))
  /\ (forall seed s, exists plan n s' rest,
        _downloaded_necessary_samples videos_dir all any prev max_samples
          seed false s = Ok (plan, n) s'
        /\ dict_keys plan = slice_to (present_all all prev) max_samples ++ rest)
  /\ (forall seed s, exists plan n s' w1 w2 w3 w4 new3 new4,
        let P1 := present_all all prev in
        let P2 := present_any any prev in
        let A3 := absent_all all P1 in
        let A4 := absent_any any P2 in
        let b := download_budget max_samples P1 P2 in
        _downloaded_necessary_samples videos_dir all any prev max_samples
          seed false s = Ok (plan, n) s'
        /\ plan = dict_update (dict_update (dict_update (dict_update [] w1) w2)
                                 w3) w4
        /\ dict_keys w1 = slice_to P1 max_samples
        /\ dict_keys w2
           = slice_to P2 (next max_samples (len (slice_to P1 max_samples)))
        /\ dict_keys w3 = successes new3
        /\ dict_keys w4 = successes new4
        /\ fetch_log s' = fetch_log s ++ new3 ++ new4
        /\ (exists rest, A3 = map fst new3 ++ rest)
        /\ stops_where_reached A3 new3 b
        /\ (exists rest, A4 = map fst new4 ++ rest)
        /\ stops_where_reached A4 new4 (next b (len (successes new3))))
  /\ (forall (valid_ids : list string) (c : Z) s,
        c <> 0 ->
        let l := fst (random_shuffle (rng s) valid_ids) in
        let s' := with_rng (snd (random_shuffle (rng s) valid_ids)) s in
        select_valid_ids valid_ids (Some c) s
        = match slice_to l (Some c) with
          | [] => Raise (ValueError "No samples found") s'
          | x :: ids => Ok (x :: ids) s'
          end)
  /\ (forall (valid_ids : list string) m g s,
        truthy m = false ->
        select_valid_ids valid_ids m (with_rng g s)
        = result_with_rng g (select_valid_ids valid_ids m s)
        /\ (valid_ids <> [] -> select_valid_ids valid_ids m s = Ok valid_ids s)).
Proof.
  splits.
  - intros sd s1 s2 Hw Hl. unfold _downloaded_necessary_samples.
    unfold bind at 1. unfold bind at 6. unfold seed_step, seed_m.
    now rewrite Hw, Hl.
  - intros sd s.
    destruct (planner_run_order videos_dir all any prev max_samples (Some sd)
                true s) as (plan & n & s' & T & E & HP & _ & Hsh).
    destruct (plan_starts_with_step1 HP) as [rest Hrest].
    exists plan, n, s', rest. rewrite <- (Hsh sd eq_refl eq_refl). auto.
  - intros seed seed' g s.
    rewrite (@rng_free_planner videos_dir all any prev max_samples seed g s).
    reflexivity.
  - intros seed s.
    destruct (planner_run_order videos_dir all any prev max_samples seed false s)
      as (plan & n & s' & T & E & HP & Hord & _).
    destruct (Hord eq_refl) as (H1 & _).
    destruct (plan_starts_with_step1 HP) as [rest Hrest].
    exists plan, n, s', rest. rewrite <- H1. auto.
  - intros seed s.
    destruct (planner_run_order videos_dir all any prev max_samples seed false s)
      as (plan & n & s' & T & E & HP & Hord & _).
    destruct (Hord eq_refl) as (H1 & H2 & H3 & H4).
    unfold planner_post in HP.
    destruct HP as (Hplan & Hn & Hlog & _ & _ & _ & _ & Hk1 & Hk2 & Hk3 & Hk4
                    & (rest3 & Ht3 & _) & (rest4 & Ht4 & _) & _ & _ & _ & _ & _
                    & _ & _ & _ & _ & _ & Hs3 & Hs4).
    unfold budget3 in Hs4.
    change (budget2 max_samples T)
      with (download_budget max_samples (D1 T) (D2 T)) in *.
    unfold budget1 in Hk2.
    rewrite H3 in *. rewrite H4 in *. rewrite H1 in *. rewrite H2 in *.
    exists plan, n, s', (u1 T), (u2 T), (u3 T), (u4 T), (new3 T), (new4 T).
    cbv zeta. splits; eauto.
  - intros valid_ids c s Hc. cbv zeta.
    unfold select_valid_ids, bind, shuffle_m, ret, with_rng. simpl.
    destruct (Z.eqb_spec c 0) as [|_]; [contradiction|]. simpl.
    destruct (random_shuffle (rng s) valid_ids) as [l g]. simpl.
    destruct (if 0 <=? c then firstn (Z.to_nat c) l
              else firstn (Z.to_nat (len l + c)) l); reflexivity.
  - intros valid_ids m g s Hm. unfold select_valid_ids, bind. rewrite Hm.
    unfold ret. destruct valid_ids; split; auto; contradiction.
Qed.

(** ** The capped selection of Open Images *)

(** With a cap [c >= 1] at most [c] ids are selected, all of them valid. *)
Lemma select_valid_ids_cap (valid_ids : list string) (c : Z) (s : state) :
  0 < c ->
  (exists ids s', select_valid_ids valid_ids (Some c) s = Ok ids s'
                  /\ len ids <= c /\ incl ids valid_ids /\ ids <> [])
  \/ (valid_ids = []
      /\ exists s', select_valid_ids valid_ids (Some c) s
                    = Raise (ValueError "No samples found") s').
Proof.
  intros Hc. unfold select_valid_ids, bind, shuffle_m, ret. simpl.
  destruct (Z.eqb_spec c 0) as [|_]; [lia|]. simpl.
  pose proof (random_shuffle_perm (rng s) valid_ids) as Hp.
  destruct (random_shuffle (rng s) valid_ids) as [l g]. simpl in Hp.
  destruct (Z.leb_spec 0 c); [|lia].
  destruct (firstn (Z.to_nat c) l) as [|x ids] eqn:Ef.
  - right. split; [|eexists; reflexivity].
    destruct l as [|y l]; [now apply Permutation_sym, Permutation_nil in Hp|].
    destruct (Z.to_nat c) eqn:Ec; [lia | discriminate].
  - left. eexists _, _. split; [reflexivity|]. splits.
    + rewrite <- Ef. unfold len. rewrite length_firstn. lia.
    + intros y Hy. rewrite <- Ef in Hy. apply firstn_incl in Hy.
      now apply (Permutation_in y (Permutation_sym Hp)).
    + discriminate.
Qed.

(** A cap of 0 counts as no cap: every valid id is selected. *)
Lemma select_valid_ids_zero (valid_ids : list string) (s : state) :
  valid_ids <> [] ->
  select_valid_ids valid_ids (Some 0) s = Ok valid_ids s.
Proof.
  intros Hne. unfold select_valid_ids, bind. simpl.
  destruct valid_ids; [contradiction | reflexivity].
Qed.

(** Without any valid id the selection raises [ValueError]. *)
Lemma select_valid_ids_empty (max_samples : option Z) (s : state) :
  exists s', select_valid_ids [] max_samples s
             = Raise (ValueError "No samples found") s'.
Proof.
  unfold select_valid_ids, bind, shuffle_m, ret.
  destruct (truthy max_samples).
  - pose proof (random_shuffle_perm (rng s) []) as Hp.
    destruct (random_shuffle (rng s) []) as [l g]. simpl in Hp.
    apply Permutation_nil in Hp. subst l.
    replace (slice_to [] max_samples) with (@nil string).
    + eexists; reflexivity.
    + destruct max_samples as [k|]; simpl; auto.
      destruct (0 <=? k); now rewrite firstn_nil.
  - eexists; reflexivity.
Qed.


(** C1, as the code has it. For every input with a cap [c >= 0] the
    planner of [activitynet.py] returns a plan whose number of records
    is at most [c], whatever the candidates, the downloaded ids and the
    outcomes of the downloads. The selection of [openimages.py] applies
    the cap only where it is truthy: with [c >= 1] and some valid id it
    selects at most [c] ids; a cap of 0 counts as no cap, every valid id
    is selected and the selection is larger than the cap; with no valid
    id it raises [ValueError]. *)
Theorem cap_respected videos_dir all any prev (valid_ids : list string) (c : Z)
    seed shuffle (s : state) :
  0 <= c ->
  (exists plan n s',
     _downloaded_necessary_samples videos_dir all any prev (Some c) seed shuffle s
     = Ok (plan, n) s'
     /\ len plan <= c)
  /\ (0 < c -> valid_ids <> [] ->
      exists ids s',
        select_valid_ids valid_ids (Some c) s = Ok ids s'
        /\ len ids <= c /\ incl ids valid_ids)
  /\ (c = 0 -> valid_ids <> [] ->
      select_valid_ids valid_ids (Some c) s = Ok valid_ids s
      /\ c < len valid_ids)
  /\ (valid_ids = [] ->
      exists s', select_valid_ids valid_ids (Some c) s
                 = Raise (ValueError "No samples found") s').
Proof.
  intros Hc. splits.
  - destruct (planner_run videos_dir all any prev (Some c) seed shuffle s)
      as (plan & n & s' & T & E & HP).
    exists plan, n, s'. split; [exact E|].
    destruct (steps_within_cap Hc HP) as [Hb _].
    destruct HP as (-> & _).
    pose proof (plan_len (u1 T) (u2 T) (u3 T) (u4 T)). lia.
  - intros Hpos Hne.
    destruct (select_valid_ids_cap valid_ids s Hpos)
      as [(ids & s' & E & Hle & Hin & _)|[He _]]; [|contradiction].
    exists ids, s'. auto.
  - intros -> Hne. split; [now apply select_valid_ids_zero|].
    destruct valid_ids; [contradiction|]. unfold len. simpl. lia.
  - intros ->. apply select_valid_ids_empty.
Qed.


(** ** The class matcher *)

Lemma issubset_iff (a b : list string) :
  issubset a b = true <-> forall c, In c a -> In c b.
Proof.
  unfold issubset. rewrite forallb_forall.
  split; intros H c Hc; [apply mem_true_iff | apply mem_true_iff]; auto.
Qed.

Lemma intersects_iff (a b : list string) :
  intersects a b = true <-> exists c, In c a /\ In c b.
Proof.
  unfold intersects. rewrite existsb_exists.
  split; intros (c & Hc & H); exists c; split; auto; apply mem_true_iff; auto.
Qed.

Lemma dict_set_keys_In {V} (k x : string) (v : V) (d : dict V) :
  In x (dict_keys (dict_set k v d)) <-> x = k \/ In x (dict_keys d).
Proof.
  rewrite dict_keys_set. destruct (mem k (dict_keys d)) eqn:E.
  - apply mem_true_iff in E. split; [tauto|]. intros [->|H]; auto.
  - rewrite in_app_iff. simpl. split; [intros [H|[H|[]]] | intros [H|H]]; auto.
Qed.

(** The keys the loop adds to the two dictionaries *)
Lemma matching_loop_keys (sp : string) (classes : list string)
    (items : list (string * sample_info)) :
  forall all_m any_m,
    let r := _get_matching_samples_loop sp classes items all_m any_m in
    (forall k, In k (dict_keys (snd r)) <->
       In k (dict_keys all_m)
       \/ exists info, In (k, info) items /\ subset info = sp
            /\ issubset classes (map label (annotations info)) = true)
    /\ (forall k, In k (dict_keys (fst r)) <->
       In k (dict_keys any_m)
       \/ exists info, In (k, info) items /\ subset info = sp
            /\ issubset classes (map label (annotations info)) = false
            /\ intersects classes (map label (annotations info)) = true).
Proof.
  induction items as [|[id info] items IH]; intros all_m any_m; simpl.
  - split; intros k; split; auto; intros [H|(i & [] & _)]; auto.
  - destruct (String.eqb_spec sp (subset info)) as [Hs|Hs]; simpl.
    + destruct (issubset classes (map label (annotations info))) eqn:Ei.
      * destruct (IH (dict_set id info all_m) any_m) as [Ha Hb].
        split; intros k; [rewrite Ha | rewrite Hb].
        -- rewrite dict_set_keys_In. split.
           ++ intros [[->|H]|(i & Hi & H)]; auto.
              ** right. exists info. auto.
              ** right. exists i. tauto.
           ++ intros [H|(i & [Hi|Hi] & H)]; auto.
              ** inversion Hi; subst. auto.
              ** right. exists i. tauto.
        -- split.
           ++ intros [H|(i & Hi & H)]; auto. right. exists i. tauto.
           ++ intros [H|(i & [Hi|Hi] & H)]; auto.
              ** inversion Hi; subst. destruct H as (_ & H & _). congruence.
              ** right. exists i. tauto.
      * destruct (intersects classes (map label (annotations info))) eqn:Ex.
        -- destruct (IH all_m (dict_set id info any_m)) as [Ha Hb].
           split; intros k; [rewrite Ha | rewrite Hb].
           ++ split.
              ** intros [H|(i & Hi & H)]; auto. right. exists i. tauto.
              ** intros [H|(i & [Hi|Hi] & H)]; auto.
                 --- inversion Hi; subst. destruct H as (_ & H). congruence.
                 --- right. exists i. tauto.
           ++ rewrite dict_set_keys_In. split.
              ** intros [[->|H]|(i & Hi & H)]; auto.
                 --- right. exists info. auto.
                 --- right. exists i. tauto.
              ** intros [H|(i & [Hi|Hi] & H)]; auto.
                 --- inversion Hi; subst. auto.
                 --- right. exists i. tauto.
        -- destruct (IH all_m any_m) as [Ha Hb].
           split; intros k; [rewrite Ha | rewrite Hb].
           ++ split.
              ** intros [H|(i & Hi & H)]; auto. right. exists i. tauto.
              ** intros [H|(i & [Hi|Hi] & H)]; auto.
                 --- inversion Hi; subst. destruct H as (_ & H). congruence.
                 --- right. exists i. tauto.
           ++ split.
              ** intros [H|(i & Hi & H)]; auto. right. exists i. tauto.
              ** intros [H|(i & [Hi|Hi] & H)]; auto.
                 --- inversion Hi; subst. destruct H as (_ & _ & H). congruence.
                 --- right. exists i. tauto.
    + destruct (IH all_m any_m) as [Ha Hb].
      split; intros k; [rewrite Ha | rewrite Hb].
      * split.
        -- intros [H|(i & Hi & H)]; auto. right. exists i. tauto.
        -- intros [H|(i & [Hi|Hi] & H)]; auto.
           ++ inversion Hi; subst. destruct H as (H & _). congruence.
           ++ right. exists i. tauto.
      * split.
        -- intros [H|(i & Hi & H)]; auto. right. exists i. tauto.
        -- intros [H|(i & [Hi|Hi] & H)]; auto.
           ++ inversion Hi; subst. destruct H as (H & _). congruence.
           ++ right. exists i. tauto.
Qed.

Lemma NoDup_keys_unique {V} (d : dict V) (k : string) (v v' : V) :
  NoDup (dict_keys d) -> In (k, v) d -> In (k, v') d -> v = v'.
Proof.
  induction d as [|[k0 v0] d IH]; simpl; intros Hnd H1 H2; [contradiction|].
  inversion Hnd as [|? ? Hnot Hnd']; subst.
  destruct H1 as [H1|H1], H2 as [H2|H2].
  - congruence.
  - inversion H1; subst. exfalso. apply Hnot.
    change k with (fst (k, v')). now apply in_map.
  - inversion H2; subst. exfalso. apply Hnot.
    change k with (fst (k, v)). now apply in_map.
  - now apply IH.
Qed.

(** No sample id is both an all-class and an any-class match. *)
Lemma matching_samples_disjoint (raw : raw_annotations) (classes : list string)
    (split : string) (any_m all_m : dict sample_info) :
  NoDup (dict_keys (database raw)) ->
  _get_matching_samples raw classes split = inr (any_m, all_m) ->
  forall id, ~ (In id (dict_keys all_m) /\ In id (dict_keys any_m)).
Proof.
  intros Hnd E. unfold _get_matching_samples in E.
  destruct (dict_getitem _SPLIT_MAP split) as [e|sp]; [discriminate|].
  inversion E as [E']. clear E.
  destruct (matching_loop_keys sp classes (database raw) [] []) as [Ha Hb].
  rewrite E' in Ha, Hb. simpl in Ha, Hb.
  intros id [H1 H2]. apply Ha in H1. apply Hb in H2.
  destruct H1 as [[]|(i1 & Hi1 & _ & Ht)].
  destruct H2 as [[]|(i2 & Hi2 & _ & Hf & _)].
  rewrite (@NoDup_keys_unique _ _ _ _ _ Hnd Hi1 Hi2) in Ht. congruence.
Qed.

(** C9 (exclusive classification): in the result of
    [_get_matching_samples], a sample of the requested split whose labels
    include every requested class is an all-class match and not an
    any-class match; one whose labels include some but not all of the
    requested classes is an any-class match and not an all-class match;
    and no sample id is in both dictionaries. *)
Theorem classification_exclusive (raw : raw_annotations) (classes : list string)
    (split sp : string) (any_m all_m : dict sample_info) :
  NoDup (dict_keys (database raw)) ->
  dict_get split _SPLIT_MAP = Some sp ->
  _get_matching_samples raw classes split = inr (any_m, all_m) ->
  (forall id, ~ (In id (dict_keys all_m) /\ In id (dict_keys any_m)))
  /\ (forall id info,
        In (id, info) (database raw) -> subset info = sp ->
        (forall c, In c classes -> In c (map label (annotations info))) ->
        In id (dict_keys all_m) /\ ~ In id (dict_keys any_m))
  /\ (forall id info,
        In (id, info) (database raw) -> subset info = sp ->
        (exists c, In c classes /\ In c (map label (annotations info))) ->
        ~ (forall c, In c classes -> In c (map label (annotations info))) ->
        In id (dict_keys any_m) /\ ~ In id (dict_keys all_m)).
Proof.
  intros Hnd Hsp E.
  pose proof (matching_samples_disjoint raw classes split Hnd E) as Hex.
  unfold _get_matching_samples, dict_getitem in E.
  rewrite Hsp in E. inversion E as [E']. clear E.
  destruct (matching_loop_keys sp classes (database raw) [] []) as [Ha Hb].
  rewrite E' in Ha, Hb. simpl in Ha, Hb.
  splits; auto.
  - intros id info Hin Hs Hall.
    assert (H1 : In id (dict_keys all_m)).
    { apply Ha. right. exists info. splits; auto. now apply issubset_iff. }
    split; auto. intros H2. apply (Hex id). auto.
  - intros id info Hin Hs Hsome Hnotall.
    assert (H2 : In id (dict_keys any_m)).
    { apply Hb. right. exists info. splits; auto.
      - destruct (issubset classes (map label (annotations info))) eqn:Ei; auto.
        exfalso. apply Hnotall. now apply issubset_iff.
      - now apply intersects_iff. }
    split; auto. intros H1. apply (Hex id). auto.
Qed.

(** The candidates [download_activitynet_split] hands to the planner are
    disjoint, which is what the planner's properties C4 and C7 ask for. *)
Lemma candidate_samples_disjoint (raw : raw_annotations)
    (classes : option (list string)) (split : string)
    (any_m all_m : dict sample_info) :
  NoDup (dict_keys (database raw)) ->
  candidate_samples raw classes split = inr (any_m, all_m) ->
  forall k, In k (dict_keys all_m) -> ~ In k (dict_keys any_m).
Proof.
  intros Hnd E k H1 H2. destruct classes as [cs|]; simpl in E.
  - apply (matching_samples_disjoint raw cs split Hnd E k). auto.
  - inversion E; subst. destruct H1.
Qed.

(** ** The scan of the download directory *)

Lemma os_remove_In (vfn f : string) (dir : list string) :
  In f (os_remove vfn dir) <-> In f dir /\ f <> vfn.
Proof.
  unfold os_remove. rewrite filter_In.
  destruct (String.eqb_spec f vfn); simpl; split; intros [H1 H2]; split; auto;
    try discriminate; try contradiction.
Qed.

Lemma downloaded_ids_loop (fns : list string) :
  forall ids dir,
    fst (_get_downloaded_sample_ids_loop fns ids dir)
    = ids ++ map (fun f => fst (os_path_splitext f))
               (filter (fun f => negb (is_part f)) fns)
    /\ (forall f, In f (snd (_get_downloaded_sample_ids_loop fns ids dir)) <->
          In f dir /\ ~ (In f fns /\ is_part f = true)).
Proof.
  induction fns as [|vfn fns IH]; intros ids dir; simpl.
  - rewrite app_nil_r. split; auto. intros f. tauto.
  - unfold is_part at 1 3. destruct (os_path_splitext vfn) as [video_id ext] eqn:Es.
    simpl. destruct (String.eqb_spec ext ".part") as [He|He]; simpl.
    + destruct (IH ids (os_remove vfn dir)) as [H1 H2]. split; [exact H1|].
      intros f. rewrite H2, os_remove_In. split.
      * intros [[Hd Hne] Hn]. split; auto. intros [[E|Hf] Hp]; auto.
      * intros [Hd Hn]. split; [split; auto|].
        -- intros ->. apply Hn. split; auto. unfold is_part. rewrite Es. simpl.
           subst ext. reflexivity.
        -- intros [Hf Hp]. apply Hn. auto.
    + destruct (IH (ids ++ [video_id]) dir) as [H1 H2]. split.
      * rewrite H1, <- app_assoc, Es. reflexivity.
      * intros f. rewrite H2. split.
        -- intros [Hd Hn]. split; auto. intros [[E|Hf] Hp]; auto.
           subst f. unfold is_part in Hp. rewrite Es in Hp. simpl in Hp.
           apply String.eqb_eq in Hp. contradiction.
        -- intros [Hd Hn]. split; auto. intros [Hf Hp]. apply Hn. auto.
Qed.

(** C10 (no partial download counts as present): the ids returned by
    [_get_downloaded_sample_ids] are the names, extension taken off, of
    the entries whose extension is not [.part], in the order of the
    listing; the entries with extension [.part] are removed from the
    directory and no other; so every returned id is the name of an entry
    that remains and is no partial download, and an id all of whose
    entries are partial downloads is not returned. *)
Theorem partial_downloads_excluded (dir : list string) :
  let ids := fst (_get_downloaded_sample_ids dir) in
  let dir' := snd (_get_downloaded_sample_ids dir) in
  ids = map (fun f => fst (os_path_splitext f))
          (filter (fun f => negb (is_part f)) dir)
  /\ (forall f, In f dir' <-> In f dir /\ is_part f = false)
  /\ (forall id, In id ids ->
        exists f, In f dir' /\ fst (os_path_splitext f) = id
                  /\ snd (os_path_splitext f) <> ".part")
  /\ (forall id,
        (forall f, In f dir -> fst (os_path_splitext f) = id ->
                   snd (os_path_splitext f) = ".part") ->
        ~ In id ids).
Proof.
  intros ids dir'. subst ids dir'. unfold _get_downloaded_sample_ids.
  destruct (downloaded_ids_loop dir [] dir) as [H1 H2]. simpl in H1.
  assert (Hd : forall f, In f (snd (_get_downloaded_sample_ids_loop dir [] dir))
                         <-> In f dir /\ is_part f = false).
  { intros f. rewrite H2. destruct (is_part f); split; intros [Ha Hb]; split; auto.
    - exfalso. apply Hb. auto.
    - discriminate.
    - intros [_ Hc]. discriminate. }
  assert (Hi : forall id,
             In id (fst (_get_downloaded_sample_ids_loop dir [] dir)) ->
             exists f, In f dir /\ is_part f = false
                       /\ fst (os_path_splitext f) = id).
  { intros id Hid. rewrite H1 in Hid. apply in_map_iff in Hid.
    destruct Hid as (f & Ef & Hf). apply filter_In in Hf.
    destruct Hf as [Hf Hp]. apply negb_true_iff in Hp. exists f. auto. }
  splits; auto.
  - intros id Hid. destruct (Hi id Hid) as (f & Hf & Hp & Ef).
    exists f. splits; auto.
    + apply Hd. auto.
    + intros Hext. unfold is_part in Hp. rewrite Hext in Hp. discriminate.
  - intros id Hall Hid. destruct (Hi id Hid) as (f & Hf & Hp & Ef).
    specialize (Hall f Hf Ef). unfold is_part in Hp. rewrite Hall in Hp.
    discriminate.
Qed.

(** * More of the code

    The rest of [activitynet.py] and of [openimages.py] that can be
    embedded: the leaf classes, the conversion of the labels, the loader
    [download_activitynet_split] around the planner, and the parsing of
    label types, class names and label rows of Open Images. *)

(** ** Leaf classes *)

Lemma insert_sorted_perm (x : string) (l : list string) :
  Permutation (x :: l) (insert_sorted x l).
Proof.
  induction l as [|y l IH]; simpl; auto.
  destruct (String.leb x y); auto.
  eapply perm_trans; [apply perm_swap|]. now constructor.
Qed.

Lemma py_sorted_perm (l : list string) : Permutation l (py_sorted l).
Proof.
  induction l as [|x l IH]; simpl; auto.
  eapply perm_trans; [|apply insert_sorted_perm]. now constructor.
Qed.

Lemma insert_sorted_Sorted (x : string) (l : list string) :
  Sorted (fun a b => String.leb a b = true) l ->
  Sorted (fun a b => String.leb a b = true) (insert_sorted x l).
Proof.
  induction l as [|y l IH]; simpl; intros Hs.
  - constructor; constructor.
  - destruct (String.leb x y) eqn:E.
    + constructor; auto.
    + assert (Hyx : String.leb y x = true).
      { destruct (String.leb_total x y) as [H|H]; [congruence | exact H]. }
      inversion Hs as [|? ? Hs' Hhd]; subst. constructor; auto.
      destruct l as [|z l]; simpl.
      * constructor. exact Hyx.
      * destruct (String.leb x z); constructor; auto.
        inversion Hhd; subst. assumption.
Qed.

Lemma py_sorted_Sorted (l : list string) :
  Sorted (fun a b => String.leb a b = true) (py_sorted l).
Proof.
  induction l as [|x l IH]; simpl; [constructor|].
  now apply insert_sorted_Sorted.
Qed.

Lemma parent_names_In (taxonomy : list (string * option string)) (c : string) :
  In c (parent_names taxonomy) <-> In (Some c) (map snd taxonomy).
Proof.
  unfold parent_names. rewrite in_flat_map, in_map_iff. split.
  - intros ([n p] & Hin & Hc). exists (n, p). split; auto. simpl in *.
    destruct p as [p|]; [|destruct Hc]. destruct Hc as [->|[]]. reflexivity.
  - intros ([n p] & E & Hin). exists (n, p). split; auto. simpl in *.
    subst p. now left.
Qed.

(** X1: the classes of ActivityNet are the leaves of the taxonomy: the
    list is sorted, has no duplicate, and holds exactly the node names
    that are the parent name of no node, whatever order sets iterate in. *)
Theorem all_classes_sorted_leaves (taxonomy : list (string * option string)) :
  Sorted (fun a b => String.leb a b = true) (_get_all_classes_of taxonomy)
  /\ NoDup (_get_all_classes_of taxonomy)
  /\ (forall c, In c (_get_all_classes_of taxonomy) <->
        In c (map fst taxonomy) /\ ~ In (Some c) (map snd taxonomy)).
Proof.
  unfold _get_all_classes_of. splits.
  - apply py_sorted_Sorted.
  - eapply Permutation_NoDup; [apply py_sorted_perm|].
    apply set_difference_NoDup, pyset_NoDup.
  - intros c. rewrite <- parent_names_In. split.
    + intros H. apply (Permutation_in c (Permutation_sym (py_sorted_perm _))) in H.
      apply set_difference_In in H. now rewrite !pyset_In in H.
    + intros H. apply (Permutation_in c (py_sorted_perm _)).
      apply set_difference_In. now rewrite !pyset_In.
Qed.

(** ** The target map and the conversion of the labels *)

Lemma dict_get_In {V} (k : string) (v : V) (d : dict V) :
  dict_get k d = Some v -> In (k, v) d.
Proof.
  induction d as [|[k' v'] d IH]; simpl; [discriminate|].
  destruct (String.eqb_spec k k') as [->|Hne].
  - intros E. inversion E. now left.
  - intros E. right. auto.
Qed.

Lemma In_dict_get {V} (k : string) (v : V) (d : dict V) :
  NoDup (dict_keys d) -> In (k, v) d -> dict_get k d = Some v.
Proof.
  intros Hnd Hin. destruct (proj1 (dict_get_In_keys k d)) as [v' Hv'].
  - change k with (fst (k, v)). now apply in_map.
  - rewrite Hv'. f_equal. apply dict_get_In in Hv'.
    exact (@NoDup_keys_unique _ _ _ _ _ Hnd Hv' Hin).
Qed.

Lemma enumerate_from_In {A} (l : list A) :
  forall (i j : Z) (x : A),
    In (j, x) (enumerate_from i l) <->
    i <= j /\ nth_error l (Z.to_nat (j - i)) = Some x.
Proof using Type.
  clear random_seed.
  induction l as [|y l IH]; intros i j x; simpl.
  - split; [tauto|]. intros [_ H]. destruct (Z.to_nat (j - i)); discriminate.
  - rewrite IH. split.
    + intros [E|[Hle Hn]].
      * inversion E; subst. split; [lia|]. now rewrite Z.sub_diag.
      * split; [lia|]. replace (Z.to_nat (j - i)) with (S (Z.to_nat (j - (i + 1))))
          by lia. exact Hn.
    + intros [Hle Hn]. destruct (Z.eq_dec i j) as [->|Hne].
      * left. rewrite Z.sub_diag in Hn. simpl in Hn. congruence.
      * right. split; [lia|].
        replace (Z.to_nat (j - i)) with (S (Z.to_nat (j - (i + 1)))) in Hn by lia.
        exact Hn.
Qed.

Lemma enumerate_from_snd {A} (l : list A) (i : Z) :
  map snd (enumerate_from i l) = l.
Proof. revert i. induction l as [|x l IH]; intros i; simpl; [|rewrite IH]; auto. Qed.

Lemma target_map_entries (all_classes : list string) :
  NoDup all_classes ->
  target_map_of all_classes
  = map (fun ic => (snd ic, fst ic)) (enumerate_from 0 all_classes)
  /\ dict_keys (target_map_of all_classes) = all_classes.
Proof.
  intros Hnd. unfold target_map_of.
  assert (Hk : map fst (map (fun ic : Z * string => (snd ic, fst ic))
                          (enumerate_from 0 all_classes)) = all_classes).
  { rewrite map_map. simpl. apply enumerate_from_snd. }
  rewrite dict_update_nil_NoDup by now rewrite Hk.
  split; [reflexivity | exact Hk].
Qed.

Lemma target_map_get (all_classes : list string) (c : string) (i : Z) :
  NoDup all_classes ->
  dict_get c (target_map_of all_classes) = Some i ->
  0 <= i /\ nth_error all_classes (Z.to_nat i) = Some c.
Proof.
  intros Hnd H. destruct (target_map_entries Hnd) as [E _].
  apply dict_get_In in H. rewrite E in H.
  apply in_map_iff in H. destruct H as ([j x] & Ex & Hin).
  simpl in Ex. inversion Ex; subst. apply enumerate_from_In in Hin.
  now rewrite Z.sub_0_r in Hin.
Qed.

(** X2: the target map is the inverse of indexing the class list: for a
    list of classes without duplicates, a class is mapped to [i] exactly
    when it is the class at index [i], and a name that is no class has
    no target. *)
Theorem target_map_round_trip (all_classes : list string) (c : string) (i : Z) :
  NoDup all_classes ->
  (dict_get c (target_map_of all_classes) = Some i <->
   0 <= i /\ nth_error all_classes (Z.to_nat i) = Some c)
  /\ (dict_get c (target_map_of all_classes) = None <-> ~ In c all_classes).
Proof.
  intros Hnd. destruct (target_map_entries Hnd) as [E Hk]. split.
  - split.
    + now apply target_map_get.
    + intros [Hi Hn]. apply In_dict_get; [now rewrite Hk|]. rewrite E.
      apply in_map_iff. exists (i, c). split; [reflexivity|].
      apply enumerate_from_In. now rewrite Z.sub_0_r.
  - split.
    + intros H Hin. rewrite <- Hk in Hin. apply dict_get_In_keys in Hin.
      destruct Hin as [v Hv]. congruence.
    + intros H. destruct (dict_get c (target_map_of all_classes)) eqn:Eg; auto.
      exfalso. apply H. rewrite <- Hk. apply dict_get_In_keys. eauto.
Qed.

(** A converted annotation carries the target of the label and the
    timestamps of the segment *)
Definition converted (target_map : dict Z) (a : annotation) (f : fo_annot_label)
  : Prop :=
  dict_get (label a) target_map = Some (fo_label f)
  /\ fo_timestamps f = segment a.

Lemma convert_annotations_inr (target_map : dict Z) (annots : list annotation) :
  forall fos,
    convert_annotations annots target_map = inr fos ->
    Forall2 (converted target_map) annots fos.
Proof.
  induction annots as [|a annots IH]; simpl; intros fos E.
  - inversion E. constructor.
  - unfold dict_getitem in E.
    destruct (dict_get (label a) target_map) as [t|] eqn:Et; [|discriminate].
    destruct (convert_annotations annots target_map) as [e|r]; [discriminate|].
    inversion E; subst. constructor; [split; auto | now apply IH].
Qed.

Lemma convert_annotations_inl (target_map : dict Z) (annots : list annotation) :
  forall e,
    convert_annotations annots target_map = inl e ->
    exists a, In a annots /\ ~ In (label a) (dict_keys target_map)
              /\ e = KeyError (label a).
Proof.
  induction annots as [|a annots IH]; simpl; intros e E; [discriminate|].
  unfold dict_getitem in E.
  destruct (dict_get (label a) target_map) as [t|] eqn:Et.
  - destruct (convert_annotations annots target_map) as [e'|r] eqn:Er;
      [|discriminate].
    inversion E; subst. destruct (IH e eq_refl) as (b & Hb & Hn & He).
    exists b. auto.
  - inversion E; subst. exists a. splits; auto.
    intros Hin. apply dict_get_In_keys in Hin. destruct Hin as [v Hv]. congruence.
Qed.

Lemma convert_annotations_total (target_map : dict Z) (annots : list annotation) :
  (forall a, In a annots -> In (label a) (dict_keys target_map)) ->
  exists fos, convert_annotations annots target_map = inr fos.
Proof.
  intros H. destruct (convert_annotations annots target_map) as [e|fos] eqn:E.
  - apply convert_annotations_inl in E. destruct E as (a & Ha & Hn & _).
    exfalso. apply Hn. auto.
  - eauto.
Qed.

(** The converted form of one item of the selected samples *)
Definition converted_item (target_map : dict Z) (item : string * sample_info)
    (conv : string * list fo_annot_label) : Prop :=
  fst conv = fst item
  /\ Forall2 (converted target_map) (annotations (snd item)) (snd conv).

Lemma convert_loop_inr (target_map : dict Z) (items : list (string * sample_info)) :
  forall labels res,
    _convert_label_format_loop items target_map labels = inr res ->
    exists convs, Forall2 (converted_item target_map) items convs
                  /\ res = dict_update labels convs.
Proof.
  induction items as [|[id info] items IH]; simpl; intros labels res E.
  - inversion E. exists []. split; [constructor | reflexivity].
  - destruct (convert_annotations (annotations info) target_map) as [e|fos] eqn:Ec;
      [discriminate|].
    destruct (IH _ _ E) as (convs & Hf & Hr).
    exists ((id, fos) :: convs). split.
    + constructor; auto. split; [reflexivity|].
      now apply convert_annotations_inr.
    + exact Hr.
Qed.

Lemma convert_loop_inl (target_map : dict Z) (items : list (string * sample_info)) :
  forall labels e,
    _convert_label_format_loop items target_map labels = inl e ->
    exists id info a, In (id, info) items /\ In a (annotations info)
                      /\ ~ In (label a) (dict_keys target_map)
                      /\ e = KeyError (label a).
Proof.
  induction items as [|[id info] items IH]; simpl; intros labels e E;
    [discriminate|].
  destruct (convert_annotations (annotations info) target_map) as [e'|fos] eqn:Ec.
  - inversion E; subst. apply convert_annotations_inl in Ec.
    destruct Ec as (a & Ha & Hn & He). exists id, info, a. auto.
  - destruct (IH _ _ E) as (id' & info' & a & Hin & Ha & Hn & He).
    exists id', info', a. auto.
Qed.

(** X3: [_convert_label_format] raises exactly when some annotation of a
    selected sample has a label without a target, and then the error is
    the [KeyError] of such a label; otherwise it returns. *)
Theorem convert_label_format_error (activitynet_labels : dict sample_info)
    (target_map : dict Z) :
  ((exists out, _convert_label_format activitynet_labels target_map = inr out)
   <-> (forall id info a,
          In (id, info) activitynet_labels -> In a (annotations info) ->
          In (label a) (dict_keys target_map)))
  /\ (forall e,
        _convert_label_format activitynet_labels target_map = inl e ->
        exists id info a,
          In (id, info) activitynet_labels /\ In a (annotations info)
          /\ ~ In (label a) (dict_keys target_map) /\ e = KeyError (label a)).
Proof.
  unfold _convert_label_format.
  destruct (_convert_label_format_loop activitynet_labels target_map [])
    as [e|labels] eqn:E.
  - split.
    + split.
      * intros (out & H). discriminate.
      * intros Hall. exfalso. apply convert_loop_inl in E.
        destruct E as (id & info & a & Hin & Ha & Hn & _). apply Hn. eauto.
    + intros e' H. inversion H; subst. now apply convert_loop_inl in E.
  - split; [|intros e H; discriminate]. split; [|eauto].
    intros _ id info a Hin Ha.
    apply convert_loop_inr in E. destruct E as (convs & Hf & _).
    clear - Hf Hin Ha. induction Hf as [|item conv items convs [_ Hc] _ IH].
    + destruct Hin.
    + destruct Hin as [Ei|Hin]; [subst item|now apply IH]. simpl in Hc.
      clear - Hc Ha. induction Hc as [|b f bs fs [Hb _] _ IHc]; [destruct Ha|].
      destruct Ha as [Ea|Ha]; [subst b|now apply IHc].
      apply dict_get_In_keys. eauto.
Qed.

Lemma Forall2_weaken {A B} (P Q : A -> B -> Prop) (l : list A) (l' : list B) :
  (forall a b, P a b -> Q a b) -> Forall2 P l l' -> Forall2 Q l l'.
Proof. intros H. induction 1; constructor; auto. Qed.

Lemma converted_items_keys (target_map : dict Z)
    (items : list (string * sample_info))
    (convs : list (string * list fo_annot_label)) :
  Forall2 (converted_item target_map) items convs ->
  map fst convs = map fst items.
Proof.
  induction 1 as [|item conv items convs [Hk _] _ IH]; simpl; [|rewrite Hk, IH];
    reflexivity.
Qed.

(** X4: the written labels decode to the labels of the selected samples.
    With the target map of a class list without duplicates, a conversion
    that returns gives the class list itself as [classes], one entry per
    selected sample in the same order, and for each annotation, in order,
    the index of its label in the class list together with its segment. *)
Theorem convert_label_format_decodes (activitynet_labels : dict sample_info)
    (all_classes : list string) (out : fo_annots) :
  NoDup (dict_keys activitynet_labels) ->
  NoDup all_classes ->
  _convert_label_format activitynet_labels (target_map_of all_classes) = inr out ->
  fo_classes out = all_classes
  /\ dict_keys (fo_labels out) = dict_keys activitynet_labels
  /\ (forall id info,
        In (id, info) activitynet_labels ->
        exists fos,
          dict_get id (fo_labels out) = Some fos
          /\ Forall2
               (fun a f =>
                  0 <= fo_label f
                  /\ nth_error (fo_classes out) (Z.to_nat (fo_label f))
                     = Some (label a)
                  /\ fo_timestamps f = segment a)
               (annotations info) fos).
Proof.
  intros Hnd Hcls E. unfold _convert_label_format in E.
  destruct (_convert_label_format_loop activitynet_labels
              (target_map_of all_classes) []) as [e|labels] eqn:El;
    [discriminate|].
  inversion E; subst out. clear E. simpl.
  destruct (target_map_entries Hcls) as [_ Hk]. rewrite Hk.
  apply convert_loop_inr in El. destruct El as (convs & Hf & Hr).
  pose proof (converted_items_keys Hf) as Hkeys.
  rewrite dict_update_nil_NoDup in Hr by (rewrite Hkeys; exact Hnd).
  subst labels.
  splits; auto.
  intros id info Hin.
  assert (Hndc : NoDup (dict_keys convs)).
  { unfold dict_keys. rewrite Hkeys. exact Hnd. }
  clear Hkeys Hnd.
  induction Hf as [|item conv items convs [Hk' Hc] Hf IH]; [destruct Hin|].
  destruct conv as [cid fos]. simpl in Hk', Hc. subst cid.
  inversion Hndc as [|? ? Hnot Hndc']; subst.
  destruct Hin as [->|Hin].
  - exists fos. simpl. rewrite String.eqb_refl. split; [reflexivity|].
    simpl in Hc. revert Hc. apply Forall2_weaken.
    intros a f [Ht Hs].
    apply (target_map_get _ Hcls) in Ht.
    tauto.
  - destruct (IH Hin Hndc') as (fos' & Hg & Hfo).
    exists fos'. split; auto. simpl.
    destruct (String.eqb_spec id (fst item)) as [->|_]; auto.
    exfalso. apply Hnot. apply dict_get_In_keys. eauto.
Qed.

(** ** More on the class matcher *)

(** X5: of the three splits [download_activitynet_split] accepts, the
    values of [_SPLIT_MAP], only ["validation"] is also a key of it: for
    ["train"] and ["test"] the lookup [_SPLIT_MAP[split]] of
    [_get_matching_samples] raises [KeyError], whatever the annotations
    and the classes. *)
Theorem matching_samples_split_error (raw : raw_annotations)
    (classes : list string) (split : string) :
  In split (map snd _SPLIT_MAP) ->
  (split = "validation" ->
   exists r, _get_matching_samples raw classes split = inr r)
  /\ (split <> "validation" ->
      _get_matching_samples raw classes split = inl (KeyError split)).
Proof.
  simpl. intros [<-|[<-|[<-|[]]]]; split; intros H;
    try discriminate; try contradiction; try reflexivity.
  eexists. reflexivity.
Qed.

(** A sample of the split [sp] with all the classes among its labels *)
Definition all_match (sp : string) (classes : list string)
    (item : string * sample_info) : bool :=
  String.eqb sp (subset (snd item))
  && issubset classes (map label (annotations (snd item))).

(** A sample of the split [sp] with some but not all of the classes *)
Definition any_match (sp : string) (classes : list string)
    (item : string * sample_info) : bool :=
  String.eqb sp (subset (snd item))
  && negb (issubset classes (map label (annotations (snd item))))
  && intersects classes (map label (annotations (snd item))).

Lemma dict_set_fresh {V} (k : string) (v : V) (d : dict V) :
  ~ In k (dict_keys d) -> dict_set k v d = d ++ [(k, v)].
Proof.
  induction d as [|[k' v'] d IH]; simpl; intros Hk; auto.
  destruct (String.eqb_spec k k') as [->|_].
  - exfalso. apply Hk. now left.
  - f_equal. apply IH. tauto.
Qed.

Lemma filter_keys_incl {V} (f : string * V -> bool) (d : dict V) :
  incl (dict_keys (filter f d)) (dict_keys d).
Proof.
  intros k Hk. unfold dict_keys in *. apply in_map_iff in Hk.
  destruct Hk as (x & <- & Hx). apply filter_In in Hx. apply in_map. tauto.
Qed.

Lemma matching_loop_filters (sp : string) (classes : list string)
    (items : list (string * sample_info)) :
  forall all_m any_m,
    NoDup (dict_keys items) ->
    (forall k, In k (dict_keys all_m) -> ~ In k (dict_keys items)) ->
    (forall k, In k (dict_keys any_m) -> ~ In k (dict_keys items)) ->
    _get_matching_samples_loop sp classes items all_m any_m
    = (any_m ++ filter (any_match sp classes) items,
       all_m ++ filter (all_match sp classes) items).
Proof.
  induction items as [|[id info] items IH]; intros all_m any_m Hnd Ha Hb; simpl.
  - now rewrite !app_nil_r.
  - inversion Hnd as [|? ? Hid Hnd']; subst.
    unfold all_match, any_match. simpl.
    assert (Ha' : forall k, In k (dict_keys all_m) -> ~ In k (dict_keys items)).
    { intros k Hk Hin. apply (Ha k Hk). now right. }
    assert (Hb' : forall k, In k (dict_keys any_m) -> ~ In k (dict_keys items)).
    { intros k Hk Hin. apply (Hb k Hk). now right. }
    assert (Hfa : ~ In id (dict_keys all_m)).
    { intros Hk. apply (Ha id Hk). now left. }
    assert (Hfb : ~ In id (dict_keys any_m)).
    { intros Hk. apply (Hb id Hk). now left. }
    destruct (String.eqb sp (subset info)); simpl; [|now apply IH].
    destruct (issubset classes (map label (annotations info))); simpl.
    + rewrite (@dict_set_fresh _ id info all_m Hfa). rewrite IH; auto.
      * now rewrite <- app_assoc.
      * intros k Hk. unfold dict_keys in Hk. rewrite map_app in Hk.
        apply in_app_or in Hk. destruct Hk as [Hk|[<-|[]]]; auto.
    + destruct (intersects classes (map label (annotations info))); simpl;
        [|now apply IH].
      rewrite (@dict_set_fresh _ id info any_m Hfb). rewrite IH; auto.
      * now rewrite <- app_assoc.
      * intros k Hk. unfold dict_keys in Hk. rewrite map_app in Hk.
        apply in_app_or in Hk. destruct Hk as [Hk|[<-|[]]]; auto.
Qed.

Lemma matching_filters_eq (raw : raw_annotations)
    (classes : list string) (split sp : string) :
  NoDup (dict_keys (database raw)) ->
  dict_get split _SPLIT_MAP = Some sp ->
  _get_matching_samples raw classes split
  = inr (filter (any_match sp classes) (database raw),
         filter (all_match sp classes) (database raw)).
Proof.
  intros Hnd Hsp. unfold _get_matching_samples, dict_getitem. rewrite Hsp.
  rewrite matching_loop_filters; auto.
Qed.

(** X6: for a database with unique keys, the two dictionaries of
    [_get_matching_samples] are the database filtered, in its order and
    with its records: the samples of the split that have all the classes,
    and those of the split that have some but not all of them. Samples of
    other splits and samples with none of the classes are in neither. *)
Theorem matching_samples_are_filters (raw : raw_annotations)
    (classes : list string) (split sp : string) :
  NoDup (dict_keys (database raw)) ->
  dict_get split _SPLIT_MAP = Some sp ->
  _get_matching_samples raw classes split
  = inr (filter (any_match sp classes) (database raw),
         filter (all_match sp classes) (database raw)).
Proof.
  intros Hnd Hsp. unfold _get_matching_samples, dict_getitem. rewrite Hsp.
  rewrite matching_loop_filters; auto.
Qed.

(** ** More on the planner *)

(** X7: whatever the cap, the candidates and the answers of the
    downloader, the count the planner returns is the number of downloads
    that succeeded in this run, every sample downloaded with success is in
    the plan, and every sample of the plan was either downloaded before
    or downloaded with success in this run: the plan never lists a sample
    whose download failed or was not attempted. *)
Theorem plan_holds_materialized_samples videos_dir all any prev max_samples
    seed shuffle (s : state) :
  exists plan n s' new,
    _downloaded_necessary_samples videos_dir all any prev max_samples seed shuffle s
    = Ok (plan, n) s'
    /\ fetch_log s' = fetch_log s ++ new
    /\ n = len (successes new)
    /\ (forall k, In (k, true) new -> In k (dict_keys plan))
    /\ (forall k, In k (dict_keys plan) -> In k prev \/ In (k, true) new).
Proof.
  destruct (planner_run videos_dir all any prev max_samples seed shuffle s)
    as (plan & n & s' & T & E & HP).
  exists plan, n, s', (new3 T ++ new4 T). split; [exact E|].
  unfold planner_post in HP.
  destruct HP as (Hplan & Hn & Hlog & Hp1 & Hp2 & _ & _ & Hk1 & Hk2 & Hk3 & Hk4 & _).
  splits; auto.
  - rewrite successes_app. unfold len in *. rewrite length_app. lia.
  - intros k Hk. subst plan. apply plan_keys_In. rewrite Hk3, Hk4.
    apply in_app_or in Hk. rewrite !successes_In. tauto.
  - intros k Hk. subst plan. apply plan_keys_In in Hk.
    rewrite Hk1, Hk2, Hk3, Hk4 in Hk. rewrite in_app_iff, <- !successes_In.
    destruct Hk as [Hk|[Hk|[Hk|Hk]]]; auto.
    + apply slice_to_incl in Hk.
      apply (Permutation_in k (Permutation_sym Hp1)) in Hk.
      apply present_all_iff in Hk. tauto.
    + apply slice_to_incl in Hk.
      apply (Permutation_in k (Permutation_sym Hp2)) in Hk.
      apply present_any_iff in Hk. tauto.
Qed.

Lemma plan_exact (w1 w2 w3 w4 : dict sample_info) :
  NoDup (dict_keys w1 ++ dict_keys w2 ++ dict_keys w3 ++ dict_keys w4) ->
  dict_update (dict_update (dict_update (dict_update [] w1) w2) w3) w4
  = w1 ++ w2 ++ w3 ++ w4.
Proof.
  intros H.
  assert (H1 : NoDup (dict_keys w1)) by (eapply NoDup_app_remove_r; eauto).
  assert (H12 : NoDup (dict_keys w1 ++ dict_keys w2)).
  { rewrite app_assoc in H. eapply NoDup_app_remove_r; eauto. }
  assert (H123 : NoDup ((dict_keys w1 ++ dict_keys w2) ++ dict_keys w3)).
  { rewrite !app_assoc in H. eapply NoDup_app_remove_r; eauto. }
  rewrite (dict_update_nil_NoDup w1 H1).
  rewrite (@dict_update_fresh _ w2 w1 H12).
  rewrite (@dict_update_fresh _ w3 (w1 ++ w2)).
  - rewrite (@dict_update_fresh _ w4 ((w1 ++ w2) ++ w3)).
    + now rewrite <- !app_assoc.
    + unfold dict_keys in *. rewrite !map_app, <- !app_assoc. exact H.
  - unfold dict_keys in *. rewrite !map_app. exact H123.
Qed.

Lemma slice_to_all {A} (l : list A) (k : Z) :
  0 <= k -> len (slice_to l (Some k)) < k -> slice_to l (Some k) = l.
Proof.
  intros Hk Hlt. rewrite slice_to_len_nonneg in Hlt by assumption.
  unfold slice_to. destruct (Z.leb_spec 0 k); [|lia].
  apply firstn_all2. unfold len in Hlt. lia.
Qed.

(** X8: a plan smaller than the cap means the candidates ran out. With
    no id both an all-class and an any-class candidate, when the plan has
    fewer records than the cap, every candidate downloaded before is in
    the plan and the download of every other candidate was attempted. *)
Theorem fewer_than_cap_means_exhausted videos_dir all any prev (c : Z) seed
    shuffle (s : state) :
  (forall k, In k (dict_keys all) -> ~ In k (dict_keys any)) ->
  exists plan n s' new,
    _downloaded_necessary_samples videos_dir all any prev (Some c) seed shuffle s
    = Ok (plan, n) s'
    /\ fetch_log s' = fetch_log s ++ new
    /\ (len plan < c ->
        (forall k, In k (dict_keys all) \/ In k (dict_keys any) ->
                   In k prev -> In k (dict_keys plan))
        /\ (forall k, In k (dict_keys all) \/ In k (dict_keys any) ->
                      ~ In k prev -> In k (map fst new))).
Proof.
  intros Hdisj.
  destruct (planner_run videos_dir all any prev (Some c) seed shuffle s)
    as (plan & n & s' & T & E & HP).
  exists plan, n, s', (new3 T ++ new4 T). split; [exact E|].
  destruct (attempted_ids HP) as (Hn3 & Hn4 & Hi3 & Hi4).
  unfold planner_post in HP.
  destruct HP as (Hplan & Hn & Hlog & Hp1 & Hp2 & Hp3 & Hp4 & Hk1 & Hk2 & Hk3 & Hk4
                  & (rest3 & Hc3 & Hr3) & (rest4 & Hc4 & Hr4) & _).
  split; [exact Hlog|]. intros Hlt.
  assert (Hin1 : forall k, In k (dict_keys (u1 T)) ->
                           In k (dict_keys all) /\ In k prev).
  { intros k Hk. rewrite Hk1 in Hk. apply slice_to_incl in Hk.
    apply (Permutation_in k (Permutation_sym Hp1)) in Hk.
    now apply present_all_iff in Hk. }
  assert (Hin2 : forall k, In k (dict_keys (u2 T)) ->
                           In k (dict_keys any) /\ In k prev).
  { intros k Hk. rewrite Hk2 in Hk. apply slice_to_incl in Hk.
    apply (Permutation_in k (Permutation_sym Hp2)) in Hk.
    now apply present_any_iff in Hk. }
  assert (Hin3 : forall k, In k (dict_keys (u3 T)) ->
                           In k (dict_keys all) /\ ~ In k prev).
  { intros k Hk. rewrite Hk3 in Hk. apply successes_incl in Hk. auto. }
  assert (Hin4 : forall k, In k (dict_keys (u4 T)) ->
                           In k (dict_keys any) /\ ~ In k prev).
  { intros k Hk. rewrite Hk4 in Hk. apply successes_incl in Hk. auto. }
  assert (Hnd1 : NoDup (dict_keys (u1 T))).
  { rewrite Hk1. apply slice_to_NoDup.
    eapply Permutation_NoDup; [exact Hp1 | apply present_all_NoDup]. }
  assert (Hnd2 : NoDup (dict_keys (u2 T))).
  { rewrite Hk2. apply slice_to_NoDup.
    eapply Permutation_NoDup; [exact Hp2 | apply present_any_NoDup]. }
  assert (Hnd3 : NoDup (dict_keys (u3 T))).
  { rewrite Hk3. now apply successes_NoDup. }
  assert (Hnd4 : NoDup (dict_keys (u4 T))).
  { rewrite Hk4. now apply successes_NoDup. }
  assert (Hnd : NoDup (dict_keys (u1 T) ++ dict_keys (u2 T)
                         ++ dict_keys (u3 T) ++ dict_keys (u4 T))).
  { apply NoDup_app; auto.
    - apply NoDup_app; auto.
      + apply NoDup_app; auto. intros k H3 H4.
        apply Hin3 in H3. apply Hin4 in H4. apply (Hdisj k); tauto.
      + intros k H2 H34. apply Hin2 in H2. apply in_app_or in H34.
        destruct H34 as [H|H]; [apply Hin3 in H | apply Hin4 in H]; tauto.
    - intros k H1 H234. apply Hin1 in H1. apply in_app_or in H234.
      destruct H234 as [H|H]; [apply Hin2 in H; apply (Hdisj k); tauto|].
      apply in_app_or in H.
      destruct H as [H|H]; [apply Hin3 in H | apply Hin4 in H]; tauto. }
  assert (Hlen : len plan = len (slice_to (D1 T) (Some c))
                            + len (slice_to (D2 T) (budget1 (Some c) T))
                            + len (successes (new3 T))
                            + len (successes (new4 T))).
  { rewrite Hplan, (plan_exact _ _ _ _ Hnd). rewrite <- Hk1, <- Hk2, <- Hk3, <- Hk4.
    rewrite !len_keys. unfold len. rewrite !length_app. lia. }
  unfold budget3, budget2, budget1 in *.
  pose proof (len_nonneg (slice_to (D1 T) (Some c))) as G1.
  pose proof (len_nonneg (successes (new3 T))) as G3.
  pose proof (len_nonneg (successes (new4 T))) as G4.
  set (t1 := len (slice_to (D1 T) (Some c))) in *.
  rewrite next_Some in *.
  destruct (Z.eqb_spec c 0) as [Hc0|Hc0]; cbv iota in *.
  { pose proof (len_nonneg (slice_to (D2 T) (Some 0))). lia. }
  set (r1 := c - t1) in *.
  pose proof (len_nonneg (slice_to (D2 T) (Some r1))) as G2.
  set (t2 := len (slice_to (D2 T) (Some r1))) in *.
  rewrite next_Some in *.
  destruct (Z.eqb_spec r1 0) as [Hr0|Hr0]; cbv iota in *; [lia|].
  set (r2 := r1 - t2) in *.
  rewrite next_Some in *.
  destruct (Z.eqb_spec r2 0) as [Hr20|Hr20]; cbv iota in *; [lia|].
  pose proof (len_nonneg plan) as Gp.
  assert (HD1 : slice_to (D1 T) (Some c) = D1 T).
  { apply slice_to_all; [lia | fold t1; lia]. }
  assert (HD2 : slice_to (D2 T) (Some r1) = D2 T).
  { apply slice_to_all; [unfold r1; lia | fold t2; unfold r1; lia]. }
  assert (Hrest3 : rest3 = []).
  { destruct Hr3 as [H|H]; auto. simpl in H. apply Z.leb_le in H. lia. }
  assert (Hrest4 : rest4 = []).
  { destruct Hr4 as [H|H]; auto. simpl in H. apply Z.leb_le in H. lia. }
  subst rest3 rest4. rewrite app_nil_r in Hc3, Hc4.
  split.
  - intros k Hk Hprev. rewrite Hplan. apply plan_keys_In.
    rewrite Hk1, Hk2, HD1, HD2. destruct Hk as [Hk|Hk].
    + left. apply (Permutation_in k Hp1). apply present_all_iff. auto.
    + right. left. apply (Permutation_in k Hp2). apply present_any_iff. auto.
  - intros k Hk Hprev. rewrite map_app, in_app_iff, <- Hc3, <- Hc4.
    destruct Hk as [Hk|Hk].
    + left. apply (Permutation_in k Hp3). apply (absent_all_iff k Hp1). auto.
    + right. apply (Permutation_in k Hp4). apply (absent_any_iff k Hp2). auto.
Qed.

Lemma attempt_loop_budget videos_dir (samples_info : dict sample_info)
    (num : option Z) (ids : list string) :
  forall (downloaded : list string) (s : state),
    incl ids (dict_keys samples_info) ->
    exists new rest s',
      _attempt_to_download_loop videos_dir ids samples_info num downloaded s
      = Ok (downloaded ++ successes new) s'
      /\ ids = map fst new ++ rest
      /\ fetch_log s' = fetch_log s ++ new
      /\ (num = None -> rest = [])
      /\ (forall k, num = Some k ->
            len (downloaded ++ successes new) <= Z.max k (len downloaded + 1)
            /\ (rest <> [] ->
                len (downloaded ++ successes new)
                = Z.max k (len downloaded + 1)
                /\ exists new' i, new = new' ++ [(i, true)])).
Proof.
  induction ids as [|i ids IH]; intros downloaded s Hin.
  - exists [], [], s. simpl. unfold ret. rewrite !app_nil_r.
    splits; auto. intros k _. split; [lia | intros H; contradiction].
  - assert (Hi : In i (dict_keys samples_info)) by (apply Hin; now left).
    assert (Hin' : incl ids (dict_keys samples_info)).
    { intros x Hx. apply Hin. now right. }
    apply dict_get_In_keys in Hi. destruct Hi as [v Ev].
    simpl. unfold bind at 1. unfold lift, dict_getitem. rewrite Ev.
    unfold bind at 1. unfold _do_download.
    destruct (ydl_download (world s) (url v)
                (os_path_join videos_dir (i ++ ".mp4")%string)) as [success w].
    unfold bind at 1. unfold log_fetch. cbn [rng world fetch_log].
    destruct success; cbn [negb].
    + destruct (reached num (len (downloaded ++ [i]))) eqn:Er.
      * exists [(i, true)], ids. eexists. unfold ret.
        split; [reflexivity|]. cbn [rng world fetch_log].
        splits; auto.
        -- intros ->. discriminate.
        -- intros k ->. simpl in Er. apply Z.leb_le in Er.
           unfold len in *. rewrite length_app in *. simpl in *.
           split; [lia|]. intros _. split; [lia|]. now exists [], i.
      * match goal with
        | |- context [_attempt_to_download_loop _ _ _ _ ?d ?st] =>
            destruct (IH d st Hin')
              as (new & rest & s' & E & Hids & Hlog & Hnone & Hb)
        end.
        exists ((i, true) :: new), rest, s'.
        cbn [rng world fetch_log] in *.
        replace (successes ((i, true) :: new)) with ([i] ++ successes new)
          by reflexivity.
        rewrite app_assoc. split; [exact E|].
        splits; auto.
        -- simpl. now rewrite Hids.
        -- rewrite Hlog, <- app_assoc. reflexivity.
        -- intros k Hk. destruct (Hb k Hk) as [Hle Hst]. subst num.
           simpl in Er. apply Z.leb_gt in Er. unfold len in *.
           repeat rewrite length_app in *. simpl in *. split; [lia|].
           intros Hr. destruct (Hst Hr) as [Heq (new' & j & Hj)].
           split; [lia|]. exists ((i, true) :: new'), j. now rewrite Hj.
    + match goal with
      | |- context [_attempt_to_download_loop _ _ _ _ ?d ?st] =>
          destruct (IH d st Hin')
            as (new & rest & s' & E & Hids & Hlog & Hnone & Hb)
      end.
      exists ((i, false) :: new), rest, s'.
      cbn [rng world fetch_log] in *.
      replace (successes ((i, false) :: new)) with (successes new) by reflexivity.
      split; [exact E|]. splits; auto.
      * simpl. now rewrite Hids.
      * rewrite Hlog, <- app_assoc. reflexivity.
      * intros k Hk. destruct (Hb k Hk) as [Hle Hst]. split; auto.
        intros Hr. destruct (Hst Hr) as [Heq (new' & j & Hj)].
        split; auto. exists ((i, false) :: new'), j. now rewrite Hj.
Qed.

(** X9: [_attempt_to_download] over ids that all have an entry tries a
    prefix of them in order, returns those that succeeded, and never
    raises. Without a number it tries them all; with a number [k] it
    returns at most [max k 1] ids and leaves ids untried only when it has
    exactly that many, the last attempt being a success: the number is
    tested after a success only, so even [k <= 0] lets one download
    through. *)
Theorem attempt_to_download_stops_at_budget videos_dir (ids : list string)
    (samples_info : dict sample_info) (num : option Z) (s : state) :
  incl ids (dict_keys samples_info) ->
  exists new rest s',
    _attempt_to_download videos_dir ids samples_info num s
    = Ok (successes new) s'
    /\ ids = map fst new ++ rest
    /\ fetch_log s' = fetch_log s ++ new
    /\ (num = None -> rest = [])
    /\ (forall k, num = Some k ->
          len (successes new) <= Z.max k 1
          /\ (rest <> [] ->
              len (successes new) = Z.max k 1
              /\ exists new' i, new = new' ++ [(i, true)])).
Proof.
  intros Hin.
  destruct (@attempt_loop_budget videos_dir samples_info num ids [] s Hin)
    as (new & rest & s' & E & Hids & Hlog & Hnone & Hb).
  exists new, rest, s'. simpl in *. splits; auto.
Qed.

(** ** More on the scan of the download directory *)

Lemma filter_filter {A} (p q : A -> bool) (l : list A) :
  filter p (filter q l) = filter (fun x => q x && p x) l.
Proof.
  induction l as [|x l IH]; simpl; auto.
  destruct (q x); simpl; [destruct (p x); simpl; now rewrite IH | exact IH].
Qed.

Lemma downloaded_ids_loop_dir (fns : list string) :
  forall ids dir,
    snd (_get_downloaded_sample_ids_loop fns ids dir)
    = filter (fun f => negb (is_part f && mem f fns)) dir.
Proof.
  induction fns as [|vfn fns IH]; intros ids dir; simpl.
  - rewrite <- (filter_ext_in (fun _ => true)).
    + clear. induction dir as [|x dir IHd]; simpl; [|rewrite <- IHd]; auto.
    + intros f _. now rewrite andb_false_r.
  - destruct (os_path_splitext vfn) as [video_id ext] eqn:Es.
    destruct (String.eqb_spec ext ".part") as [He|He].
    + rewrite IH. unfold os_remove. rewrite filter_filter.
      apply filter_ext. intros f. unfold mem at 2.
      destruct (in_dec string_dec f (vfn :: fns)) as [Hi|Hn];
        destruct (String.eqb_spec f vfn) as [->|Hne]; simpl.
      * unfold is_part. rewrite Es. simpl. subst ext. reflexivity.
      * destruct Hi as [E|Hi]; [congruence|].
        replace (mem f fns) with true; [reflexivity|].
        symmetry. now apply mem_true_iff.
      * exfalso. apply Hn. now left.
      * replace (mem f fns) with false; [reflexivity|].
        symmetry. apply mem_false_iff. intros Hf. apply Hn. now right.
    + rewrite IH. apply filter_ext_in. intros f Hf. unfold mem.
      destruct (in_dec string_dec f fns) as [Hi|Hn];
        destruct (in_dec string_dec f (vfn :: fns)) as [Hi'|Hn']; auto.
      * exfalso. apply Hn'. now right.
      * destruct Hi' as [<-|Hi']; [|contradiction].
        unfold is_part. rewrite Es. simpl.
        destruct (String.eqb_spec ext ".part"); [contradiction | reflexivity].
Qed.

Lemma scan_result (dir : list string) :
  _get_downloaded_sample_ids dir
  = (map (fun f => fst (os_path_splitext f))
       (filter (fun f => negb (is_part f)) dir),
     filter (fun f => negb (is_part f)) dir).
Proof.
  unfold _get_downloaded_sample_ids.
  destruct (downloaded_ids_loop dir [] dir) as [H1 _].
  pose proof (downloaded_ids_loop_dir dir [] dir) as H2.
  destruct (_get_downloaded_sample_ids_loop dir [] dir) as [ids dir'].
  simpl in *. subst ids dir'. f_equal.
  apply filter_ext_in. intros f Hf.
  replace (mem f dir) with true; [now rewrite andb_true_r|].
  symmetry. now apply mem_true_iff.
Qed.

(** X10: scanning the download directory a second time changes nothing:
    on the directory the first scan leaves, the scan returns the same ids
    and removes no entry. *)
Theorem scan_is_idempotent (dir : list string) :
  _get_downloaded_sample_ids (snd (_get_downloaded_sample_ids dir))
  = _get_downloaded_sample_ids dir.
Proof.
  rewrite (scan_result dir). simpl. rewrite scan_result.
  rewrite filter_filter.
  assert (E : filter (fun x => negb (is_part x) && negb (is_part x)) dir
              = filter (fun f => negb (is_part f)) dir).
  { apply filter_ext. intros f. now destruct (is_part f). }
  now rewrite E.
Qed.

(** ** Label types and class names of Open Images *)

Lemma parse_label_types_loop_spec (label_types : list string) :
  forall acc,
    ((forall l, In l label_types -> In l _DEFAULT_LABEL_TYPES)
     /\ _parse_label_types_loop label_types acc = inr (acc ++ label_types))
    \/ (exists pre l post,
          label_types = pre ++ l :: post
          /\ (forall x, In x pre -> In x _DEFAULT_LABEL_TYPES)
          /\ ~ In l _DEFAULT_LABEL_TYPES
          /\ _parse_label_types_loop label_types acc
             = inl (ValueError (unsupported_label_type l))).
Proof.
  induction label_types as [|l rest IH]; intros acc.
  - left. split; [intros l []|]. simpl. now rewrite app_nil_r.
  - cbn [_parse_label_types_loop].
    destruct (mem l _DEFAULT_LABEL_TYPES) eqn:Em; cbn [negb].
    + apply mem_true_iff in Em.
      destruct (IH (acc ++ [l])) as [[Hall E]|(pre & x & post & Hl & Hpre & Hx & E)].
      * left. split.
        -- intros y [<-|Hy]; auto.
        -- rewrite E, <- app_assoc. reflexivity.
      * right. exists (l :: pre), x, post. splits; auto.
        -- now rewrite Hl.
        -- intros y [<-|Hy]; auto.
    + apply mem_false_iff in Em. right. exists [], l, rest. splits; auto.
      intros x [].
Qed.

(** X11: [_parse_label_types] returns a list only when every given type
    is supported, and then a non-empty list of supported types: the
    given list itself, or the four default types when none is given
    ([None] or the empty list). Otherwise it raises the [ValueError] of
    the first unsupported type. *)
Theorem parse_label_types_validates (label_types : option (list string)) :
  (forall r,
      _parse_label_types label_types = inr r ->
      r <> []
      /\ (forall l, In l r -> In l _DEFAULT_LABEL_TYPES)
      /\ (forall given, label_types = Some given -> given <> [] -> r = given)
      /\ (label_types = None \/ label_types = Some [] ->
          r = _DEFAULT_LABEL_TYPES))
  /\ (forall e,
        _parse_label_types label_types = inl e ->
        exists pre l post,
          label_types = Some (pre ++ l :: post)
          /\ (forall x, In x pre -> In x _DEFAULT_LABEL_TYPES)
          /\ ~ In l _DEFAULT_LABEL_TYPES
          /\ e = ValueError (unsupported_label_type l))
  /\ ((exists r, _parse_label_types label_types = inr r) <->
      (forall given, label_types = Some given ->
                     forall l, In l given -> In l _DEFAULT_LABEL_TYPES)).
Proof.
  assert (Hdef : _parse_label_types_loop _DEFAULT_LABEL_TYPES []
                 = inr _DEFAULT_LABEL_TYPES) by reflexivity.
  destruct label_types as [[|l0 given]|]; unfold _parse_label_types.
  - rewrite Hdef. splits.
    + intros r E. inversion E; subst. splits; auto; try discriminate.
      intros g Eg Hg. inversion Eg; subst. contradiction.
    + intros e E. discriminate.
    + split; [|eauto]. intros _ g Eg l Hl. inversion Eg; subst. destruct Hl.
  - destruct (parse_label_types_loop_spec (l0 :: given) [])
      as [[Hall E]|(pre & x & post & Hl & Hpre & Hx & E)]; rewrite E; simpl.
    + splits.
      * intros r Er. inversion Er; subst. splits; auto; try discriminate.
        -- intros g Eg _. now inversion Eg.
        -- intros [H|H]; discriminate.
      * intros e Ee. discriminate.
      * split; [|eauto]. intros _ g Eg. inversion Eg; subst. exact Hall.
    + splits.
      * intros r Er. discriminate.
      * intros e Ee. inversion Ee; subst. exists pre, x, post. rewrite Hl. auto.
      * split; [intros (r & Er); discriminate|].
        intros Hall. exfalso. apply Hx. apply (Hall _ eq_refl).
        rewrite Hl. apply in_or_app. right. now left.
  - rewrite Hdef. splits.
    + intros r E. inversion E; subst. splits; auto; try discriminate.
    + intros e E. discriminate.
    + split; [|eauto]. intros _ g Eg. discriminate.
Qed.

Lemma dict_rev_Some (m : dict string) (c k : string) :
  NoDup (dict_keys m) ->
  dict_get c (dict_rev m) = Some k -> dict_get k m = Some c.
Proof.
  intros Hnd H. apply dict_get_In in H. unfold dict_rev in H.
  apply dict_update_In in H. destruct H as [[]|H].
  apply in_map_iff in H. destruct H as ([k' c'] & E & Hin).
  simpl in E. inversion E; subst. now apply In_dict_get.
Qed.

Lemma dict_rev_keys (m : dict string) (c : string) :
  In c (dict_keys (dict_rev m)) <-> In c (map snd m).
Proof.
  unfold dict_rev. rewrite dict_update_keys_In, map_map. simpl. tauto.
Qed.

Lemma resolve_names_loop_spec (m : dict string) (classes : list string) :
  NoDup (dict_keys m) ->
  forall oi f mi,
    exists ks,
      resolve_names_loop (dict_rev m) classes oi f mi
      = (oi ++ ks,
         f ++ filter (fun c => mem c (map snd m)) classes,
         mi ++ filter (fun c => negb (mem c (map snd m))) classes)
      /\ Forall2 (fun k c => dict_get k m = Some c) ks
           (filter (fun c => mem c (map snd m)) classes).
Proof.
  intros Hnd. induction classes as [|c rest IH]; intros oi f mi; simpl.
  - exists []. rewrite !app_nil_r. split; [reflexivity | constructor].
  - unfold dict_getitem. destruct (dict_get c (dict_rev m)) as [k|] eqn:Eg.
    + assert (Hc : mem c (map snd m) = true).
      { apply mem_true_iff, dict_rev_keys, dict_get_In_keys. eauto. }
      rewrite Hc. simpl.
      destruct (IH (oi ++ [k]) (f ++ [c]) mi) as (ks & E & Hf).
      exists (k :: ks). rewrite E, <- !app_assoc. split; [reflexivity|].
      constructor; auto. now apply dict_rev_Some.
    + assert (Hc : mem c (map snd m) = false).
      { apply mem_false_iff. intros Hin. apply dict_rev_keys in Hin.
        apply dict_get_In_keys in Hin. destruct Hin as [v Hv]. congruence. }
      rewrite Hc. simpl.
      destruct (IH oi f (mi ++ [c])) as (ks & E & Hf).
      exists ks. rewrite E, <- !app_assoc. split; [reflexivity | exact Hf].
Qed.

(** X12: turning the requested class names into ids never raises and
    loses no name: for a class map with unique ids, the names kept are
    the requested names that are names of the map, in order, the missing
    ones are the others, in order, and the ids found map back, one by
    one, to the names kept. *)
Theorem resolve_names_round_trip (classes_map : dict string)
    (classes : list string) :
  NoDup (dict_keys classes_map) ->
  exists oi_classes,
    resolve_names classes_map classes
    = (oi_classes,
       filter (fun c => mem c (map snd classes_map)) classes,
       filter (fun c => negb (mem c (map snd classes_map))) classes)
    /\ Forall2 (fun k c => dict_get k classes_map = Some c) oi_classes
         (filter (fun c => mem c (map snd classes_map)) classes).
Proof.
  intros Hnd. unfold resolve_names.
  destruct (@resolve_names_loop_spec classes_map classes Hnd [] [] [])
    as (ks & E & Hf).
  exists ks. split; [exact E | exact Hf].
Qed.

(** ** The label rows of Open Images *)

(** The rows of the image [image_id] *)
Definition rows_of (id_ind : nat) (image_id : string) (rows : list (list string))
  : list (list string) :=
  filter (fun l => match nth_error l id_ind with
                   | Some x => String.eqb x image_id
                   | None => false
                   end) rows.

(** The row has one of the classes or attributes in a label column *)
Definition row_relevant (label_inds : list nat) (oi_classes_attrs : list string)
    (l : list string) : Prop :=
  exists i x, In i label_inds /\ nth_error l i = Some x /\ In x oi_classes_attrs.

(** The row has the id column and the label columns *)
Definition row_long_enough (label_inds : list nat) (id_ind : nat)
    (l : list string) : Prop :=
  (id_ind < List.length l)%nat
  /\ forall i, In i label_inds -> (i < List.length l)%nat.

Lemma dict_get_set {V} (k k' : string) (v : V) (d : dict V) :
  dict_get k (dict_set k' v d)
  = if String.eqb k k' then Some v else dict_get k d.
Proof.
  induction d as [|[k0 v0] d IH]; simpl.
  - reflexivity.
  - destruct (String.eqb_spec k' k0) as [->|Hne]; simpl.
    + destruct (String.eqb_spec k k0); reflexivity.
    + rewrite IH. destruct (String.eqb_spec k k0) as [->|Hne'].
      * destruct (String.eqb_spec k0 k'); [congruence | reflexivity].
      * reflexivity.
Qed.

Lemma valid_labels_of_spec (l : list string) (cls : list string)
    (label_inds : list nat) :
  (forall i, In i label_inds -> (i < List.length l)%nat) ->
  exists bs, valid_labels_of l label_inds cls = Some bs
             /\ (existsb (fun b => b) bs = true <-> row_relevant label_inds cls l).
Proof.
  induction label_inds as [|i inds IH]; intros Hlen; simpl.
  - exists []. split; [reflexivity|]. simpl. split; [discriminate|].
    intros (i & x & [] & _).
  - destruct (nth_error l i) as [x|] eqn:En.
    + destruct IH as (bs & E & Hb).
      { intros j Hj. apply Hlen. now right. }
      rewrite E. exists (mem x cls :: bs). split; [reflexivity|]. simpl.
      rewrite orb_true_iff, Hb, mem_true_iff. split.
      * intros [Hx|(j & y & Hj & Hy & Hin)].
        -- exists i, x. splits; auto. now left.
        -- exists j, y. splits; auto. now right.
      * intros (j & y & [<-|Hj] & Hy & Hin).
        -- left. congruence.
        -- right. exists j, y. auto.
    + exfalso. apply nth_error_None in En.
      specialize (Hlen i (or_introl eq_refl)). lia.
Qed.

Lemma valid_labels_of_short (l : list string) (cls : list string)
    (label_inds : list nat) :
  (exists i, In i label_inds /\ (List.length l <= i)%nat) ->
  valid_labels_of l label_inds cls = None.
Proof.
  induction label_inds as [|i inds IH]; intros (j & Hj & Hlen); simpl.
  - destruct Hj.
  - destruct (nth_error l i) as [x|] eqn:En; auto.
    destruct Hj as [<-|Hj].
    + apply nth_error_None in Hlen. congruence.
    + rewrite IH; eauto.
Qed.

Lemma set_add_In (x y : string) (s : list string) :
  In y (set_add x s) <-> y = x \/ In y s.
Proof.
  unfold set_add. destruct (mem x s) eqn:E.
  - apply mem_true_iff in E. split; [tauto|]. intros [->|H]; auto.
  - rewrite in_app_iff. simpl. split; [intros [H|[H|[]]] | intros [H|H]]; auto.
Qed.

Lemma label_data_loop_spec (label_inds : list nat) (id_ind : nat)
    (cls : list string) (rows : list (list string)) :
  forall d rel,
    (forall l, In l rows -> row_long_enough label_inds id_ind l) ->
    exists d' rel',
      _get_label_data_loop rows label_inds id_ind cls d rel = Some (d', rel')
      /\ (forall id, In id rel' <->
            In id rel
            \/ exists l, In l rows /\ nth_error l id_ind = Some id
                         /\ row_relevant label_inds cls l)
      /\ (forall id, dict_get id d'
                     = match dict_get id d, rows_of id_ind id rows with
                       | Some old, rs => Some (old ++ rs)
                       | None, [] => None
                       | None, rs => Some rs
                       end).
Proof.
  induction rows as [|l rows IH]; intros d rel Hlong.
  - exists d, rel. simpl. splits; auto.
    + intros id. split; auto. intros [H|(l & [] & _)]. exact H.
    + intros id. destruct (dict_get id d); [now rewrite app_nil_r | reflexivity].
  - assert (Hl : row_long_enough label_inds id_ind l) by (apply Hlong; now left).
    assert (Hlong' : forall l', In l' rows -> row_long_enough label_inds id_ind l').
    { intros l' H'. apply Hlong. now right. }
    destruct Hl as [Hid Hinds].
    cbn [_get_label_data_loop].
    destruct (nth_error l id_ind) as [image_id|] eqn:En;
      [|apply nth_error_None in En; lia].
    destruct (valid_labels_of_spec l cls label_inds Hinds) as (bs & Eb & Hb).
    rewrite Eb.
    match goal with
    | |- context [_get_label_data_loop rows _ _ _ ?d1 ?r1] =>
        destruct (IH d1 r1 Hlong') as (d' & rel' & E & Hrel & Hget)
    end.
    exists d', rel'. split; [exact E|]. split.
    + intros id. rewrite Hrel. destruct (existsb (fun b => b) bs) eqn:Ex.
      * rewrite set_add_In. split.
        -- intros [[->|H]|(l' & Hl' & Hn & Hr)]; auto.
           ++ right. exists l. splits; auto. now left. now apply Hb.
           ++ right. exists l'. splits; auto. now right.
        -- intros [H|(l' & [<-|Hl'] & Hn & Hr)]; auto.
           ++ left. left. congruence.
           ++ right. exists l'. auto.
      * split.
        -- intros [H|(l' & Hl' & Hn & Hr)]; auto.
           right. exists l'. splits; auto. now right.
        -- intros [H|(l' & [<-|Hl'] & Hn & Hr)]; auto.
           ++ exfalso. apply Hb in Hr. congruence.
           ++ right. exists l'. auto.
    + intros id. rewrite Hget. unfold rows_of. cbn [filter]. rewrite En.
      destruct (dict_get image_id d) as [old|] eqn:Eo; rewrite dict_get_set;
        rewrite (String.eqb_sym id image_id);
        destruct (String.eqb_spec image_id id) as [->|Hne].
      * rewrite Eo, <- app_assoc. reflexivity.
      * reflexivity.
      * rewrite Eo. reflexivity.
      * reflexivity.
Qed.

Lemma label_data_loop_short (label_inds : list nat) (id_ind : nat)
    (cls : list string) (rows : list (list string)) :
  forall d rel,
    (exists l, In l rows /\ ~ row_long_enough label_inds id_ind l) ->
    _get_label_data_loop rows label_inds id_ind cls d rel = None.
Proof.
  induction rows as [|l rows IH]; intros d rel (l0 & Hin & Hshort).
  - destruct Hin.
  - cbn [_get_label_data_loop].
    destruct (nth_error l id_ind) as [image_id|] eqn:En; auto.
    destruct (valid_labels_of l label_inds cls) as [bs|] eqn:Eb; auto.
    apply IH. destruct Hin as [<-|Hin]; [|eauto].
    exfalso. apply Hshort. split.
    + apply nth_error_Some. congruence.
    + intros i Hi. destruct (Nat.lt_ge_cases i (List.length l)) as [H|H]; auto.
      rewrite valid_labels_of_short in Eb; [discriminate | eauto].
Qed.

Lemma mem_cons (x k : string) (ks : list string) :
  mem x (k :: ks) = String.eqb x k || mem x ks.
Proof.
  destruct (String.eqb_spec x k) as [->|Hne]; simpl.
  - apply mem_true_iff. now left.
  - destruct (mem x ks) eqn:E.
    + apply mem_true_iff. right. now apply mem_true_iff.
    + apply mem_false_iff. apply mem_false_iff in E.
      intros [H|H]; [congruence | contradiction].
Qed.

Lemma blank_fold_spec (rel : list string) (id : string) (ks : list string) :
  forall d : dict (list (list string)),
    incl ks (dict_keys d) ->
    dict_get id
      (fold_left
         (fun d image_id =>
            if negb (mem image_id rel) then dict_set image_id [] d else d)
         ks d)
    = match dict_get id d with
      | None => None
      | Some v => Some (if mem id ks && negb (mem id rel) then [] else v)
      end.
Proof.
  induction ks as [|k ks IH]; intros d Hin.
  - simpl. destruct (dict_get id d); reflexivity.
  - assert (Hk : In k (dict_keys d)) by (apply Hin; now left).
    cbn [fold_left]. rewrite mem_cons.
    destruct (negb (mem k rel)) eqn:Er.
    + rewrite IH.
      * rewrite dict_get_set. destruct (String.eqb_spec id k) as [->|Hne].
        -- apply dict_get_In_keys in Hk. destruct Hk as [v Hv]. rewrite Hv.
           rewrite Er. simpl. now destruct (mem k ks).
        -- simpl. reflexivity.
      * intros x Hx. apply dict_set_keys_In. right. apply Hin. now right.
    + rewrite IH by (intros x Hx; apply Hin; now right).
      destruct (dict_get id d) as [v|] eqn:Ev; auto. f_equal.
      destruct (String.eqb_spec id k) as [->|Hne]; simpl; auto.
      rewrite Er. now rewrite andb_false_r.
Qed.

(** X13: [_get_label_data] on rows that all have the id column and the
    label columns returns, as relevant ids, exactly the images with a row
    that names one of the classes or attributes in a label column, and as
    label data one entry per image of the file: all the rows of the
    image, relevant or not and in the order of the file, when the image
    is relevant, and no row at all when it is not. The header row is left
    out. A row that is too short makes it fail. *)
Theorem label_data_rows (data : list (list string)) (label_inds : list nat)
    (oi_classes oi_attrs : list string) (id_ind : nat) :
  ((forall l, In l (tl data) -> row_long_enough label_inds id_ind l) ->
   exists label_id_data relevant_ids,
     _get_label_data data label_inds oi_classes oi_attrs id_ind
     = Some (label_id_data, relevant_ids)
     /\ (forall id, In id relevant_ids <->
           exists l, In l (tl data) /\ nth_error l id_ind = Some id
                     /\ row_relevant label_inds (oi_classes ++ oi_attrs) l)
     /\ (forall id, dict_get id label_id_data
                    = match rows_of id_ind id (tl data) with
                      | [] => None
                      | rows => Some (if mem id relevant_ids then rows else [])
                      end))
  /\ ((exists l, In l (tl data) /\ ~ row_long_enough label_inds id_ind l) ->
      _get_label_data data label_inds oi_classes oi_attrs id_ind = None).
Proof.
  unfold _get_label_data. split.
  - intros Hlong.
    destruct (@label_data_loop_spec label_inds id_ind (oi_classes ++ oi_attrs)
                (tl data) [] [] Hlong) as (d' & rel' & E & Hrel & Hget).
    rewrite E. exists (blank_irrelevant d' rel'), rel'.
    split; [reflexivity|]. split.
    + intros id. rewrite Hrel. simpl. tauto.
    + intros id. unfold blank_irrelevant.
      rewrite blank_fold_spec by apply incl_refl. rewrite Hget. simpl.
      destruct (rows_of id_ind id (tl data)) as [|r rs] eqn:Er; auto.
      f_equal.
      assert (Hk : mem id (dict_keys d') = true).
      { apply mem_true_iff, dict_get_In_keys. rewrite Hget, Er. simpl. eauto. }
      rewrite Hk. simpl. now destruct (mem id rel').
  - intros Hshort. now rewrite label_data_loop_short.
Qed.

(** ** The valid image ids of Open Images *)

(** The relevant ids of a label type *)
Definition ids_of_type (det_ids lab_ids rel_ids seg_ids : list string)
    (t : string) : list string :=
  if String.eqb t "detections" then det_ids
  else if String.eqb t "classifications" then lab_ids
  else if String.eqb t "relationships" then rel_ids
  else seg_ids.

Lemma narrow_valid_ids_In (valid_ids : option (list string)) (ids : list string) :
  exists v, narrow_valid_ids valid_ids ids = Some v
            /\ forall x, In x v <->
                         In x ids /\ match valid_ids with
                                     | None => True
                                     | Some w => In x w
                                     end.
Proof.
  destruct valid_ids as [w|]; simpl; eexists; split; try reflexivity; intros x.
  - rewrite set_intersection_In. tauto.
  - tauto.
Qed.

Lemma select_valid_ids_Ok (valid_ids : list string) (max_samples : option Z)
    (s s' : state) (ids : list string) :
  select_valid_ids valid_ids max_samples s = Ok ids s' ->
  ids <> [] /\ incl ids valid_ids
  /\ (forall c, max_samples = Some c -> 0 < c -> len ids <= c).
Proof.
  unfold select_valid_ids, bind, shuffle_m, ret.
  destruct (truthy max_samples) eqn:Et.
  - pose proof (random_shuffle_perm (rng s) valid_ids) as Hp.
    destruct (random_shuffle (rng s) valid_ids) as [l g]. simpl in Hp.
    destruct (slice_to l max_samples) as [|x rest] eqn:Es; [discriminate|].
    intros E. inversion E; subst. splits.
    + discriminate.
    + intros y Hy. rewrite <- Es in Hy. apply slice_to_incl in Hy.
      now apply (Permutation_in y (Permutation_sym Hp)).
    + intros c -> Hc. rewrite <- Es, slice_to_len_nonneg by lia. lia.
  - destruct valid_ids as [|x rest]; [discriminate|].
    intros E. inversion E; subst. splits.
    + discriminate.
    + apply incl_refl.
    + intros c -> Hc. simpl in Et. destruct (Z.eqb_spec c 0); [lia | discriminate].
Qed.

(** X14: for label types as [_parse_label_types] returns them, at least
    one and all supported, the valid ids of [_load_open_images_split] are
    never [None]: they are exactly the images relevant for every
    requested label type. An image is selected only among them, so it has
    a relevant label of each requested type, and with a cap of at least 1
    no more images than the cap are selected. *)
Theorem open_images_selection_sound
    (label_types det_ids lab_ids rel_ids seg_ids : list string)
    (max_samples : option Z) (s : state) :
  label_types <> [] ->
  (forall t, In t label_types -> In t _DEFAULT_LABEL_TYPES) ->
  exists v,
    valid_ids_of label_types det_ids lab_ids rel_ids seg_ids = Some v
    /\ (forall x, In x v <->
          forall t, In t label_types ->
                    In x (ids_of_type det_ids lab_ids rel_ids seg_ids t))
    /\ (forall ids s',
          select_valid_ids (set_iter v) max_samples s = Ok ids s' ->
          ids <> []
          /\ (forall x t, In x ids -> In t label_types ->
                          In x (ids_of_type det_ids lab_ids rel_ids seg_ids t))
          /\ (forall c, max_samples = Some c -> 0 < c -> len ids <= c)).
Proof.
  intros Hne Hsup.
  assert (Hchar : exists v,
             valid_ids_of label_types det_ids lab_ids rel_ids seg_ids = Some v
             /\ forall x, In x v <->
                  forall t, In t label_types ->
                            In x (ids_of_type det_ids lab_ids rel_ids seg_ids t)).
  { unfold valid_ids_of.
    assert (Hcases : forall t, In t label_types ->
               t = "detections" \/ t = "classifications"
               \/ t = "relationships" \/ t = "segmentations").
    { intros t Ht. apply Hsup in Ht. simpl in Ht.
      destruct Ht as [<-|[<-|[<-|[<-|[]]]]]; auto. }
    destruct (mem "detections" label_types) eqn:E1;
      destruct (mem "classifications" label_types) eqn:E2;
      destruct (mem "relationships" label_types) eqn:E3;
      destruct (mem "segmentations" label_types) eqn:E4;
      simpl;
      try (eexists; split; [reflexivity|]; intros x;
           rewrite ?set_intersection_In;
           repeat match goal with
                  | H : mem _ _ = true |- _ => apply mem_true_iff in H
                  | H : mem _ _ = false |- _ => apply mem_false_iff in H
                  end;
           split;
           [ intros Hx t Ht;
             destruct (Hcases t Ht) as [-> | [-> | [-> | ->]]];
             try contradiction; simpl; tauto
           | intros Hall;
             repeat match goal with
                    | H : In ?t label_types |- _ =>
                        pose proof (Hall t H); clear H
                    end;
             simpl in *; tauto ]).
    exfalso. destruct label_types as [|t rest]; [contradiction|].
    apply mem_false_iff in E1, E2, E3, E4.
    destruct (Hcases t (or_introl eq_refl)) as [-> | [-> | [-> | ->]]];
      [apply E1 | apply E2 | apply E3 | apply E4]; now left. }
  destruct Hchar as (v & Ev & Hv). exists v. splits; auto.
  intros ids s' E. apply select_valid_ids_Ok in E.
  destruct E as (Hn & Hincl & Hcap). splits; auto.
  intros x t Hx Ht. apply Hincl in Hx.
  apply (Permutation_in x (Permutation_sym (set_iter_perm v))) in Hx.
  now apply Hv.
Qed.

(** ** The loader [download_activitynet_split]

    The loader around the planner. The annotations are given as
    [etas.load_json] returns them and the directory of the videos by the
    entries [os.listdir] finds in it, once [etau.ensure_dir] and the
    download of the annotation file are done. The outcome holds the
    labels [_write_annotations] writes and, of the entries the directory
    had, those the loader has not removed; what the downloads add to the
    directory is part of the world of the state. *)

Inductive loader_error : Type :=
| PyError (e : exn)
| TypeError (msg : string).

Inductive loader_outcome : Type :=
| Loaded (num_samples : option Z) (all_classes : list string)
    (written : fo_annots) (dir : list string) (s : state)
| Failed (e : loader_error) (dir : list string) (s : state).

(** The state the loader ends in *)
Definition outcome_state (o : loader_outcome) : state :=
  match o with
  | Loaded _ _ _ _ s => s
  | Failed _ _ s => s
  end.

(** The entries the directory had that the loader has not removed *)
Definition outcome_dir (o : loader_outcome) : list string :=
  match o with
  | Loaded _ _ _ dir _ => dir
  | Failed _ dir _ => dir
  end.

Definition unsupported_split (split : string) : string :=
  ("Unsupported split '" ++ split
   ++ "'; supported values are ('train', 'test', 'validation')")%string.

Definition unsupported_version (version : string) : string :=
  ("Unsupported version '" ++ version
   ++ "'; supported values are ('200', '100')")%string.

(** The check of the requested classes: ["..%s" % tuple(l)] formats one
    class only, and raises [TypeError] for a tuple of two or more *)
Definition check_classes (classes : option (list string))
    (all_classes : list string) : option loader_error :=
  match classes with
  | None => None
  | Some cs =>
      let non_existant_classes := set_difference (pyset cs) (pyset all_classes) in
      match non_existant_classes with
      | [] => None
      | [c] =>
          Some (PyError
                  (ValueError ("Non existant classes specified; " ++ c)%string))
      | _ =>
          Some (TypeError "not all arguments converted during string formatting")
      end
  end.

Definition download_activitynet_split (raw : raw_annotations) (dir : list string)
    (dataset_dir split : string) (classes : option (list string))
    (num_workers : option Z) (shuffle : bool) (seed max_samples : option Z)
    (version : string) (s : state) : loader_outcome :=
  if negb (mem split (map snd _SPLIT_MAP)) then
    Failed (PyError (ValueError (unsupported_split split))) dir s
  else if negb (mem version activitynet_versions) then
    Failed (PyError (ValueError (unsupported_version version))) dir s
  else
    let classes :=
      match classes with
      | Some cs => if String.eqb split "test" then None else Some cs
      | None => None
      end in
    let videos_dir := os_path_join dataset_dir "data" in
    let all_classes := _get_all_classes raw in
    let target_map := target_map_of all_classes in
    match check_classes classes all_classes with
    | Some e => Failed e dir s
    | None =>
        (* Get ids of previously downloaded samples *)
        let (prev_downloaded_ids, dir) := _get_downloaded_sample_ids dir in
        match candidate_samples raw classes split with
        | inl e => Failed (PyError e) dir s
        | inr (any_class_samples, all_class_samples) =>
            (* Check if the downloaded samples are enough, else download more *)
            match _downloaded_necessary_samples videos_dir all_class_samples
                    any_class_samples prev_downloaded_ids max_samples seed
                    shuffle s with
            | Raise e s' => Failed (PyError e) dir s'
            | Ok (selected_samples, num_downloaded_samples) s' =>
                let num_samples :=
                  if num_downloaded_samples =? 0 then None
                  else Some (num_downloaded_samples + len prev_downloaded_ids) in
                match _convert_label_format selected_samples target_map with
                | inl e => Failed (PyError e) dir s'
                | inr fo_matching_labels =>
                    Loaded num_samples all_classes fo_matching_labels dir s'
                end
            end
        end
    end.

Lemma all_classes_NoDup (raw : raw_annotations) : NoDup (_get_all_classes raw).
Proof.
  unfold _get_all_classes, _get_all_classes_of.
  eapply Permutation_NoDup; [apply py_sorted_perm|].
  apply set_difference_NoDup, pyset_NoDup.
Qed.

Lemma check_classes_missing (cs all_classes : list string) :
  (exists c, In c cs /\ ~ In c all_classes) ->
  exists e, check_classes (Some cs) all_classes = Some e.
Proof.
  intros (c & Hc & Hn). unfold check_classes.
  destruct (set_difference (pyset cs) (pyset all_classes)) as [|x [|y l]] eqn:E;
    eauto.
  exfalso. assert (H : In c (set_difference (pyset cs) (pyset all_classes))).
  { apply set_difference_In. now rewrite !pyset_In. }
  rewrite E in H. destruct H.
Qed.

Lemma check_classes_present (cs all_classes : list string) :
  (forall c, In c cs -> In c all_classes) ->
  check_classes (Some cs) all_classes = None.
Proof.
  intros Hall. unfold check_classes.
  destruct (set_difference (pyset cs) (pyset all_classes)) as [|x l] eqn:E; auto.
  exfalso. assert (H : In x (set_difference (pyset cs) (pyset all_classes))).
  { rewrite E. now left. }
  apply set_difference_In in H. rewrite !pyset_In in H.
  destruct H as [H1 H2]. auto.
Qed.

(** X15: the loader rejects bad arguments before it touches the videos.
    For an unsupported split, an unsupported version, or, on a split other
    than ["test"], a requested class that is no leaf class of the
    taxonomy, it fails with the entries of the directory as they were (no
    partial download removed) and the state as it was (no download
    attempted, the random generator untouched). *)
Theorem loader_rejects_arguments_first (raw : raw_annotations)
    (dir : list string) (dataset_dir split : string)
    (classes : option (list string)) (num_workers : option Z) (shuffle : bool)
    (seed max_samples : option Z) (version : string) (s : state) :
  ~ In split ["train"; "test"; "validation"]
  \/ ~ In version ["200"; "100"]
  \/ (split <> "test"
      /\ exists cs c, classes = Some cs /\ In c cs
                      /\ ~ In c (_get_all_classes raw)) ->
  exists e,
    download_activitynet_split raw dir dataset_dir split classes num_workers
      shuffle seed max_samples version s
    = Failed e dir s.
Proof.
  intros H. unfold download_activitynet_split.
  destruct (mem split (map snd _SPLIT_MAP)) eqn:Es; cbn [negb]; [|eauto].
  destruct (mem version activitynet_versions) eqn:Ev; cbn [negb]; [|eauto].
  apply mem_true_iff in Es, Ev.
  destruct H as [H|[H|(Hne & cs & c & -> & Hc & Hn)]]; try contradiction.
  destruct (String.eqb_spec split "test") as [E|_]; [contradiction|].
  destruct (@check_classes_missing cs (_get_all_classes raw)) as [e He]; [eauto|].
  rewrite He. eauto.
Qed.

(** X16: on the split ["train"] a class filter cannot work. With a
    supported version and requested classes that are all leaf classes,
    the loader scans the directory, removing the partial downloads, and
    then fails with [KeyError] on ["train"]: no download is attempted and
    nothing is written. *)
Theorem loader_train_with_classes_raises (raw : raw_annotations)
    (dir : list string) (dataset_dir : string) (cs : list string)
    (num_workers : option Z) (shuffle : bool) (seed max_samples : option Z)
    (version : string) (s : state) :
  In version ["200"; "100"] ->
  (forall c, In c cs -> In c (_get_all_classes raw)) ->
  download_activitynet_split raw dir dataset_dir "train" (Some cs) num_workers
    shuffle seed max_samples version s
  = Failed (PyError (KeyError "train"))
      (filter (fun f => negb (is_part f)) dir) s.
Proof.
  intros Hv Hall. unfold download_activitynet_split.
  replace (mem "train" (map snd _SPLIT_MAP)) with true by reflexivity.
  cbn [negb]. apply mem_true_iff in Hv. unfold activitynet_versions.
  rewrite Hv. cbn [negb]. replace (String.eqb "train" "test") with false
    by reflexivity.
  rewrite (check_classes_present _ _ Hall). rewrite scan_result. reflexivity.
Qed.

Lemma scan_ids_In (dir : list string) (k : string) :
  In k (fst (_get_downloaded_sample_ids dir)) <->
  exists f, In f dir /\ is_part f = false /\ fst (os_path_splitext f) = k.
Proof.
  rewrite scan_result. simpl. rewrite in_map_iff. split.
  - intros (f & E & Hf). apply filter_In in Hf. destruct Hf as [Hf Hp].
    apply negb_true_iff in Hp. eauto.
  - intros (f & Hf & Hp & E). exists f. split; auto. apply filter_In.
    split; auto. now rewrite Hp.
Qed.

Lemma candidate_samples_keys (raw : raw_annotations)
    (classes : option (list string)) (split : string)
    (any_m all_m : dict sample_info) :
  NoDup (dict_keys (database raw)) ->
  candidate_samples raw classes split = inr (any_m, all_m) ->
  incl (dict_keys all_m) (dict_keys (database raw))
  /\ incl (dict_keys any_m) (dict_keys (database raw)).
Proof.
  intros Hnd E. destruct classes as [cs|]; simpl in E.
  - destruct (dict_get split _SPLIT_MAP) as [sp|] eqn:Hsp.
    + rewrite (matching_filters_eq raw cs split Hnd Hsp) in E.
      inversion E; subst. split; apply filter_keys_incl.
    + unfold _get_matching_samples, dict_getitem in E. rewrite Hsp in E.
      discriminate.
  - inversion E; subst. split; [intros k [] | apply incl_refl].
Qed.

(** X17: the loader never downloads a video twice, nor one that is
    already there. For annotations with unique sample ids and whatever the
    arguments and the outcome, the ids the loader tries to download in
    one call are pairwise distinct, are sample ids of the annotations,
    and none of them is the name, extension taken off, of an entry of the
    directory that is no partial download. *)
Theorem loader_never_refetches (raw : raw_annotations) (dir : list string)
    (dataset_dir split : string) (classes : option (list string))
    (num_workers : option Z) (shuffle : bool) (seed max_samples : option Z)
    (version : string) (s : state) :
  NoDup (dict_keys (database raw)) ->
  exists new,
    fetch_log
      (outcome_state
         (download_activitynet_split raw dir dataset_dir split classes
            num_workers shuffle seed max_samples version s))
    = fetch_log s ++ new
    /\ NoDup (map fst new)
    /\ (forall k, In k (map fst new) ->
          In k (dict_keys (database raw))
          /\ ~ exists f, In f dir /\ is_part f = false
                         /\ fst (os_path_splitext f) = k).
Proof.
  intros Hnd.
  assert (Hnone : exists new : list (string * bool),
             fetch_log s = fetch_log s ++ new /\ NoDup (map fst new)
             /\ (forall k, In k (map fst new) ->
                   In k (dict_keys (database raw))
                   /\ ~ exists f, In f dir /\ is_part f = false
                                  /\ fst (os_path_splitext f) = k)).
  { exists []. rewrite app_nil_r. splits; auto; [constructor | intros k []]. }
  unfold download_activitynet_split.
  destruct (negb (mem split (map snd _SPLIT_MAP))); [exact Hnone|].
  destruct (negb (mem version activitynet_versions)); [exact Hnone|].
  set (classes' := match classes with
                   | Some cs => if String.eqb split "test" then None else Some cs
                   | None => None
                   end).
  destruct (check_classes classes' (_get_all_classes raw)); [exact Hnone|].
  pose proof (scan_ids_In dir) as Hscan.
  destruct (_get_downloaded_sample_ids dir) as [prev dir'] eqn:Ed.
  simpl in Hscan.
  destruct (candidate_samples raw classes' split) as [e|[any_m all_m]] eqn:Ec;
    [exact Hnone|].
  pose proof (candidate_samples_disjoint raw classes' split Hnd Ec) as Hdisj.
  destruct (candidate_samples_keys raw classes' split Hnd Ec) as [Hka Hkb].
  destruct (planner_run (os_path_join dataset_dir "data") all_m any_m prev
              max_samples seed shuffle s) as (plan & n & s' & T & E & HP).
  rewrite E.
  destruct (attempted_ids HP) as (Hn3 & Hn4 & Hi3 & Hi4).
  assert (Hlog : fetch_log s' = fetch_log s ++ new3 T ++ new4 T).
  { now destruct HP as (_ & _ & Hlog & _). }
  assert (Hres : exists new : list (string * bool),
             fetch_log s' = fetch_log s ++ new /\ NoDup (map fst new)
             /\ (forall k, In k (map fst new) ->
                   In k (dict_keys (database raw))
                   /\ ~ exists f, In f dir /\ is_part f = false
                                  /\ fst (os_path_splitext f) = k)).
  { exists (new3 T ++ new4 T). rewrite map_app. splits; auto.
    - apply NoDup_app; auto. intros x H3 H4.
      apply (Hdisj x); [apply Hi3 | apply Hi4]; assumption.
    - intros k Hk. apply in_app_or in Hk. destruct Hk as [Hk|Hk].
      + apply Hi3 in Hk. destruct Hk as [Hk Hp]. split; [now apply Hka|].
        intros Hf. apply Hp. now apply Hscan.
      + apply Hi4 in Hk. destruct Hk as [Hk Hp]. split; [now apply Hkb|].
        intros Hf. apply Hp. now apply Hscan. }
  destruct (_convert_label_format plan (target_map_of (_get_all_classes raw)));
    exact Hres.
Qed.

(** X18: what a successful load reports and writes. The classes
    returned and written are the leaf classes of the taxonomy; of the
    entries the directory had, exactly the partial downloads are removed;
    the number of samples is [None] exactly when no download succeeded in
    this call, and otherwise the number of successful downloads plus the
    number of entries of the directory that were no partial download; and
    labels are written, once per sample, only for samples that were found
    in the directory or downloaded with success in this call. *)
Theorem loader_reports_what_it_did (raw : raw_annotations) (dir : list string)
    (dataset_dir split : string) (classes : option (list string))
    (num_workers : option Z) (shuffle : bool) (seed max_samples : option Z)
    (version : string) (s s' : state) (num_samples : option Z)
    (all_classes : list string) (written : fo_annots) (dir' : list string) :
  download_activitynet_split raw dir dataset_dir split classes num_workers
    shuffle seed max_samples version s
  = Loaded num_samples all_classes written dir' s' ->
  all_classes = _get_all_classes raw
  /\ fo_classes written = all_classes
  /\ dir' = filter (fun f => negb (is_part f)) dir
  /\ exists new,
       fetch_log s' = fetch_log s ++ new
       /\ (num_samples = None <-> successes new = [])
       /\ (forall n, num_samples = Some n ->
             n = len (successes new)
                 + len (filter (fun f => negb (is_part f)) dir))
       /\ NoDup (dict_keys (fo_labels written))
       /\ (forall id, In id (dict_keys (fo_labels written)) ->
             In (id, true) new
             \/ exists f, In f dir /\ is_part f = false
                          /\ fst (os_path_splitext f) = id).
Proof.
  unfold download_activitynet_split.
  destruct (negb (mem split (map snd _SPLIT_MAP))); [discriminate|].
  destruct (negb (mem version activitynet_versions)); [discriminate|].
  set (classes' := match classes with
                   | Some cs => if String.eqb split "test" then None else Some cs
                   | None => None
                   end).
  destruct (check_classes classes' (_get_all_classes raw)); [discriminate|].
  pose proof (scan_ids_In dir) as Hscan.
  rewrite (scan_result dir) in *. simpl in Hscan.
  set (prev := map (fun f => fst (os_path_splitext f))
                 (filter (fun f => negb (is_part f)) dir)) in *.
  destruct (candidate_samples raw classes' split) as [e|[any_m all_m]] eqn:Ec;
    [discriminate|].
  destruct (planner_run (os_path_join dataset_dir "data") all_m any_m prev
              max_samples seed shuffle s) as (plan & n & s1 & T & E & HP).
  rewrite E.
  destruct (_convert_label_format plan (target_map_of (_get_all_classes raw)))
    as [e|fo] eqn:Ef; [discriminate|].
  intros H. inversion H; subst. clear H.
  assert (Hndp : NoDup (dict_keys plan)).
  { destruct HP as (-> & _). repeat apply dict_update_NoDup. constructor. }
  unfold _convert_label_format in Ef.
  destruct (_convert_label_format_loop plan
              (target_map_of (_get_all_classes raw)) []) as [e|labels] eqn:El;
    [discriminate|].
  inversion Ef; subst written. clear Ef. simpl.
  destruct (target_map_entries (all_classes_NoDup raw)) as [_ Hk].
  apply convert_loop_inr in El. destruct El as (convs & Hf & Hr).
  pose proof (converted_items_keys Hf) as Hkeys.
  rewrite dict_update_nil_NoDup in Hr by (rewrite Hkeys; exact Hndp).
  subst labels.
  assert (Hkl : dict_keys convs = dict_keys plan) by exact Hkeys.
  unfold planner_post in HP.
  destruct HP as (Hplan & Hn & Hlog & Hp1 & Hp2 & _ & _ & Hk1 & Hk2 & Hk3 & Hk4 & _).
  splits; auto.
  exists (new3 T ++ new4 T).
  assert (Hsucc : n = len (successes (new3 T ++ new4 T))).
  { rewrite successes_app. unfold len in *. rewrite length_app. lia. }
  splits; auto.
  - destruct (Z.eqb_spec n 0) as [Hz|Hz].
    + split; auto. intros _. rewrite Hsucc in Hz. unfold len in Hz.
      destruct (successes (new3 T ++ new4 T)); [reflexivity | simpl in Hz; lia].
    + split; [discriminate|]. intros H0. exfalso. apply Hz.
      rewrite Hsucc, H0. reflexivity.
  - intros m Hm. destruct (Z.eqb_spec n 0); [discriminate|].
    inversion Hm; subst m. rewrite <- Hsucc. unfold prev, len.
    now rewrite length_map.
  - now rewrite Hkl.
  - intros id Hid. rewrite Hkl, Hplan in Hid. apply plan_keys_In in Hid.
    rewrite Hk1, Hk2, Hk3, Hk4 in Hid.
    destruct Hid as [Hid|[Hid|[Hid|Hid]]].
    + right. apply slice_to_incl in Hid.
      apply (Permutation_in id (Permutation_sym Hp1)) in Hid.
      apply present_all_iff in Hid. apply Hscan. tauto.
    + right. apply slice_to_incl in Hid.
      apply (Permutation_in id (Permutation_sym Hp2)) in Hid.
      apply present_any_iff in Hid. apply Hscan. tauto.
    + left. apply in_or_app. left. now apply successes_In.
    + left. apply in_or_app. right. now apply successes_In.
Qed.

End ActivityNet.

Arguments Ok {RNG World A} a s.
Arguments Raise {RNG World A} e s.

(** ** Examples on the concrete environment *)

Lemma rev_shuffle_perm (g : nat) (l : list string) :
  Permutation l (fst (rev_shuffle g l)).
Proof. apply Permutation_rev. Qed.

Lemma insertion_order_perm (l : list string) : Permutation l (insertion_order l).
Proof. apply Permutation_refl. Qed.

Lemma insert_decreasing_perm (x : string) (l : list string) :
  Permutation (x :: l) (insert_decreasing x l).
Proof.
  induction l as [|y l IH]; simpl; auto.
  destruct (String.leb y x); auto.
  eapply perm_trans; [apply perm_swap|]. now constructor.
Qed.

Lemma decreasing_order_perm (l : list string) : Permutation l (decreasing_order l).
Proof.
  induction l as [|x l IH]; simpl; auto.
  eapply perm_trans; [|apply insert_decreasing_perm]. now constructor.
Qed.

(** The planner on the concrete generator, with sets iterating in the
    given order and the given downloader *)
#[warnings="-notation-for-abbreviation"]
Notation planner order download :=
  (@_downloaded_necessary_samples nat Z.to_nat rev_shuffle order unit download
     "videos").

#[warnings="-notation-for-abbreviation"]
Notation start := {| rng := 0%nat; world := tt; fetch_log := [] |}.

(** Scenario 1 of the specification: one any-class sample downloaded
    before, one to download, cap 2 *)
Example scenario_cap_2 :
  planner insertion_order url_download
    [] [("a", video "ok" []); ("b", video "ok" [])] ["a"] (Some 2) None false start
  = Ok ([("a", video "ok" []); ("b", video "ok" [])], 1)
      {| rng := 0%nat; world := tt; fetch_log := [("b", true)] |}.
Proof. reflexivity. Qed.

(** Scenario 2: the same with cap 1, nothing is attempted *)
Example scenario_cap_1 :
  planner insertion_order url_download
    [] [("a", video "ok" []); ("b", video "ok" [])] ["a"] (Some 1) None false start
  = Ok ([("a", video "ok" [])], 0) start.
Proof. reflexivity. Qed.

(** Scenario 3: no cap, the only download fails *)
Example scenario_failed_download :
  planner insertion_order url_download
    [("x", video "bad" [])] [] [] None None false start
  = Ok ([], 0) {| rng := 0%nat; world := tt; fetch_log := [("x", false)] |}.
Proof. reflexivity. Qed.

(** The directory scan on a listing with two partial downloads *)
Example scan_example :
  _get_downloaded_sample_ids ["abc.mp4"; "d.mp4.part"; "e.part"; ".part"]
  = (["abc"; ".part"], ["abc.mp4"; ".part"]).
Proof. reflexivity. Qed.

Lemma cap_respected_witness :
  let all := [("x", video "ok" [])] in
  let any := [("a", video "ok" []); ("b", video "ok" [])] in
  let valid_ids := ["i1"; "i2"; "i3"] in
  0 <= 1
  /\ (exists plan n s',
        planner insertion_order url_download all any ["a"] (Some 1) None false
          start
        = Ok (plan, n) s'
        /\ len plan <= 1)
  /\ (0 < 1 -> valid_ids <> [] ->
      exists ids s',
        select_valid_ids rev_shuffle valid_ids (Some 1) start = Ok ids s'
        /\ len ids <= 1 /\ incl ids valid_ids)
  /\ (1 = 0 -> valid_ids <> [] ->
      select_valid_ids rev_shuffle valid_ids (Some 1) start
      = Ok valid_ids start
      /\ 1 < len valid_ids)
  /\ (valid_ids = [] ->
      exists s', select_valid_ids rev_shuffle valid_ids (Some 1) start
                 = Raise (ValueError "No samples found") s').
Proof.
  intros all any valid_ids.
  assert (H : 0 <= 1) by lia. split; [exact H|].
  exact (@cap_respected nat Z.to_nat rev_shuffle rev_shuffle_perm
           insertion_order insertion_order_perm unit url_download "videos"
           all any ["a"] valid_ids 1 None false start H).
Defined.

Lemma tier_priority_witness :
  0 <= 1
  /\ exists plan n s' D1,
       planner insertion_order url_download
         [("x", video "ok" []); ("y", video "ok" [])] [("a", video "ok" [])]
         ["a"; "x"; "y"] (Some 1) None false start
       = Ok (plan, n) s'
       /\ Permutation
            (present_all insertion_order
               [("x", video "ok" []); ("y", video "ok" [])] ["a"; "x"; "y"]) D1
       /\ (exists rest, dict_keys plan = slice_to D1 (Some 1) ++ rest)
       /\ (1 <= len (present_all insertion_order
                       [("x", video "ok" []); ("y", video "ok" [])]
                       ["a"; "x"; "y"]) ->
           dict_keys plan = slice_to D1 (Some 1) /\ len plan = 1
           /\ entries_of [("x", video "ok" []); ("y", video "ok" [])] plan
           /\ n = 0 /\ fetch_log s' = fetch_log start)
       /\ ((exists k, In k (dict_keys plan)
                      /\ ~ In k (present_all insertion_order
                                   [("x", video "ok" []); ("y", video "ok" [])]
                                   ["a"; "x"; "y"]))
           \/ fetch_log s' <> fetch_log start ->
           forall k, In k (present_all insertion_order
                             [("x", video "ok" []); ("y", video "ok" [])]
                             ["a"; "x"; "y"]) ->
                     In k (dict_keys plan)).
Proof.
  split; [lia|].
  apply (@tier_priority nat Z.to_nat rev_shuffle rev_shuffle_perm
           insertion_order insertion_order_perm unit url_download).
  lia.
Defined.

Lemma no_duplicate_fetch_witness :
  (forall k, In k ["x"] -> ~ In k ["a"; "b"])
  /\ exists plan n s' new,
       planner insertion_order url_download
         [("x", video "bad" [])] [("a", video "ok" []); ("b", video "ok" [])]
         ["a"] None None false start
       = Ok (plan, n) s'
       /\ fetch_log s' = fetch_log start ++ new
       /\ NoDup (map fst new)
       /\ (forall k, In k (map fst new) -> ~ In k ["a"])
       /\ (forall k, In k (map fst new) -> In k ["x"] \/ In k ["a"; "b"]).
Proof.
  assert (H : forall k, In k ["x"] -> ~ In k ["a"; "b"]).
  { intros k [<-|[]] [H|[H|[]]]; discriminate. }
  split; [exact H|].
  apply (@no_duplicate_fetch nat Z.to_nat rev_shuffle rev_shuffle_perm
           insertion_order insertion_order_perm unit url_download "videos"
           [("x", video "bad" [])] [("a", video "ok" []); ("b", video "ok" [])]
           ["a"] None None false start H).
Defined.

Lemma fetch_failure_skip_witness :
  let all := [("x", video "bad" []); ("y", video "bad" [])] in
  let any := [("a", video "ok" []); ("b", video "bad" [])] in
  let prev := ["a"; "y"] in
  exists plan n s' D1 D2 w1 w2 new3 new4,
    planner insertion_order url_download all any prev (Some 4) None false start
    = Ok (plan, n) s'
    /\ Permutation (present_all insertion_order all prev) D1
    /\ Permutation (present_any insertion_order any prev) D2
    /\ fetch_log s' = fetch_log start ++ new3 ++ new4
    /\ ((forall w u p, fst (url_download w u p) = false) ->
        Forall (fun e => snd e = false) (new3 ++ new4))
    /\ (Forall (fun e => snd e = false) (new3 ++ new4) ->
        n = 0
        /\ dict_keys w1 = slice_to D1 (Some 4)
        /\ dict_keys w2
           = slice_to D2 (next (Some 4) (len (slice_to D1 (Some 4))))
        /\ entries_of all w1 /\ entries_of any w2
        /\ plan = dict_update w1 w2
        /\ (forall k, In k (dict_keys plan) ->
              In k prev /\ (In k (dict_keys all) \/ In k (dict_keys any)))
        /\ (download_budget (Some 4) D1 D2 = Some 0 ->
            new3 = [] /\ new4 = [])
        /\ (download_budget (Some 4) D1 D2 <> Some 0 ->
            NoDup (map fst new3)
            /\ (forall k, In k (map fst new3) <->
                  In k (dict_keys all) /\ ~ In k prev)
            /\ NoDup (map fst new4)
            /\ (forall k, In k (map fst new4) <->
                  In k (dict_keys any) /\ ~ In k prev))).
Proof.
  intros all any prev.
  exact (@fetch_failure_skip nat Z.to_nat rev_shuffle rev_shuffle_perm
           insertion_order insertion_order_perm unit url_download "videos"
           all any prev (Some 4) None false start).
Defined.

Lemma selection_deterministic_witness :
  let all := [("a", video "ok" []); ("b", video "ok" []); ("c", video "ok" [])] in
  let any := [("d", video "bad" []); ("e", video "ok" [])] in
  let prev := ["a"; "b"] in
  (forall sd s1 s2,
      world s1 = world s2 -> fetch_log s1 = fetch_log s2 ->
      planner decreasing_order url_download all any prev (Some 3) (Some sd) true
        s1
      = planner decreasing_order url_download all any prev (Some 3) (Some sd)
          true s2)
  /\ (forall sd s, exists plan n s' rest,
        planner decreasing_order url_download all any prev (Some 3) (Some sd)
          true s = Ok (plan, n) s'
        /\ dict_keys plan
           = slice_to
               (fst (rev_shuffle (Z.to_nat sd)
                       (present_all decreasing_order all prev)))
               (Some 3) ++ rest)
  /\ (forall seed seed' g s,
        planner decreasing_order url_download all any prev (Some 3) seed false
          (with_rng g s)
        = result_with_rng g
            (planner decreasing_order url_download all any prev (Some 3) seed'
               false s))
  /\ (forall seed s, exists plan n s' rest,
        planner decreasing_order url_download all any prev (Some 3) seed false s
        = Ok (plan, n) s'
        /\ dict_keys plan
           = slice_to (present_all decreasing_order all prev) (Some 3) ++ rest)
  /\ (forall seed s, exists plan n s' w1 w2 w3 w4 new3 new4,
        let P1 := present_all decreasing_order all prev in
        let P2 := present_any decreasing_order any prev in
        let A3 := absent_all decreasing_order all P1 in
        let A4 := absent_any decreasing_order any P2 in
        let b := download_budget (Some 3) P1 P2 in
        planner decreasing_order url_download all any prev (Some 3) seed false s
        = Ok (plan, n) s'
        /\ plan = dict_update (dict_update (dict_update (dict_update [] w1) w2)
                                 w3) w4
        /\ dict_keys w1 = slice_to P1 (Some 3)
        /\ dict_keys w2 = slice_to P2 (next (Some 3) (len (slice_to P1 (Some 3))))
        /\ dict_keys w3 = successes new3
        /\ dict_keys w4 = successes new4
        /\ fetch_log s' = fetch_log s ++ new3 ++ new4
        /\ (exists rest, A3 = map fst new3 ++ rest)
        /\ stops_where_reached A3 new3 b
        /\ (exists rest, A4 = map fst new4 ++ rest)
        /\ stops_where_reached A4 new4 (next b (len (successes new3))))
  /\ (forall (valid_ids : list string) (c : Z) (s : state nat unit),
        c <> 0 ->
        let l := fst (rev_shuffle (rng s) valid_ids) in
        let s' := with_rng (snd (rev_shuffle (rng s) valid_ids)) s in
        select_valid_ids rev_shuffle valid_ids (Some c) s
        = match slice_to l (Some c) with
          | [] => Raise (ValueError "No samples found") s'
          | x :: ids => Ok (x :: ids) s'
          end)
  /\ (forall (valid_ids : list string) m g (s : state nat unit),
        truthy m = false ->
        select_valid_ids rev_shuffle valid_ids m (with_rng g s)
        = result_with_rng g (select_valid_ids rev_shuffle valid_ids m s)
        /\ (valid_ids <> [] ->
            select_valid_ids rev_shuffle valid_ids m s = Ok valid_ids s)).
Proof.
  intros all any prev.
  exact (@selection_deterministic nat Z.to_nat rev_shuffle rev_shuffle_perm
           decreasing_order decreasing_order_perm unit url_download "videos"
           all any prev (Some 3)).
Defined.

Lemma unbounded_cap_witness :
  (forall k, In k ["x"; "y"] -> ~ In k ["a"; "b"])
  /\ exists plan n s' new,
       planner insertion_order url_download
         [("x", video "bad" []); ("y", video "ok" [])]
         [("a", video "ok" []); ("b", video "ok" [])]
         ["a"; "y"] None None false start
       = Ok (plan, n) s'
       /\ fetch_log s' = fetch_log start ++ new
       /\ NoDup (map fst new)
       /\ (forall k, In k (map fst new) <->
             (In k ["x"; "y"] \/ In k ["a"; "b"]) /\ ~ In k ["a"; "y"])
       /\ (forall k, In k (dict_keys plan) <->
             ((In k ["x"; "y"] \/ In k ["a"; "b"]) /\ In k ["a"; "y"])
             \/ In (k, true) new)
       /\ (forall k v, In (k, v) plan ->
             dict_get k [("x", video "bad" []); ("y", video "ok" [])] = Some v
             \/ dict_get k [("a", video "ok" []); ("b", video "ok" [])] = Some v)
       /\ n = len (successes new).
Proof.
  assert (H : forall k, In k ["x"; "y"] -> ~ In k ["a"; "b"]).
  { intros k [<-|[<-|[]]] [H|[H|[]]]; discriminate. }
  split; [exact H|].
  apply (@unbounded_cap nat Z.to_nat rev_shuffle rev_shuffle_perm
           insertion_order insertion_order_perm unit url_download "videos"
           [("x", video "bad" []); ("y", video "ok" [])]
           [("a", video "ok" []); ("b", video "ok" [])]
           ["a"; "y"] None false start H).
Defined.


Lemma negative_cap_returns_plan_witness :
  let all := [("x", video "bad" []); ("y", video "ok" []); ("z", video "ok" []);
              ("p", video "ok" []); ("q", video "ok" [])] in
  let any := [("a", video "ok" []); ("b", video "ok" [])] in
  let prev := ["p"; "q"; "a"] in
  -1 < 0
  /\ exists plan n s' D1 D2 C3 C4 new3 new4,
       planner insertion_order url_download all any prev (Some (-1)) None false
         start
       = Ok (plan, n) s'
       /\ Permutation (present_all insertion_order all prev) D1
       /\ Permutation (present_any insertion_order any prev) D2
       /\ Permutation (absent_all insertion_order all D1) C3
       /\ Permutation (absent_any insertion_order any D2) C4
       /\ (exists rest,
             dict_keys plan = firstn (Z.to_nat (len D1 + -1)) D1 ++ rest)
       /\ (forall k,
             In k (dict_keys plan) <->
             In k (firstn (Z.to_nat (len D1 + -1)) D1)
             \/ In k (slice_to D2 (Some (-1 - len (slice_to D1 (Some (-1))))))
             \/ In (k, true) new3 \/ In (k, true) new4)
       /\ fetch_log s' = fetch_log start ++ new3 ++ new4
       /\ stops_at_first_success C3 new3
       /\ stops_at_first_success C4 new4
       /\ n = len (successes new3) + len (successes new4)
       /\ 0 <= n <= 2.
Proof.
  intros all any prev.
  assert (H : -1 < 0) by lia. split; [exact H|].
  exact (@negative_cap_returns_plan nat Z.to_nat rev_shuffle rev_shuffle_perm
           insertion_order insertion_order_perm unit url_download "videos"
           all any prev (-1) None false start H).
Defined.

(** The same run with a cap of [-1]: step 1 takes ["p"] of the two
    downloaded all-class ids, step 2 takes nothing, step 3 stops at the
    success of ["y"] after the failure of ["x"], and step 4 at the
    success of ["b"] *)
Example scenario_negative_cap :
  planner insertion_order url_download
    [("x", video "bad" []); ("y", video "ok" []); ("z", video "ok" []);
     ("p", video "ok" []); ("q", video "ok" [])]
    [("a", video "ok" []); ("b", video "ok" [])]
    ["p"; "q"; "a"] (Some (-1)) None false start
  = Ok ([("p", video "ok" []); ("y", video "ok" []); ("b", video "ok" [])], 2)
      {| rng := 0%nat; world := tt;
         fetch_log := [("x", false); ("y", true); ("b", true)] |}.
Proof. reflexivity. Qed.

(** C1, the claim refuted: in the selection of [openimages.py] a cap of 0
    selects both valid ids, and in the planner a cap of [-1] gives a plan
    of one record. *)
Lemma cap_exceeded_counterexample :
  (select_valid_ids rev_shuffle ["i1"; "i2"] (Some 0) start
   = Ok ["i1"; "i2"] start
   /\ ~ len ["i1"; "i2"] <= 0)
  /\ (planner insertion_order url_download
        [("x", video "ok" [])] [] [] (Some (-1)) None false start
      = Ok ([("x", video "ok" [])], 1)
          {| rng := 0%nat; world := tt; fetch_log := [("x", true)] |}
      /\ ~ len [("x", video "ok" [])] <= -1).
Proof.
  split; (split; [reflexivity | unfold len; simpl; lia]).
Qed.

(** C2, the claim refuted: with cap [-1] and one all-class sample to
    download, the planner raises nothing; it attempts the download and
    returns a plan with the sample. *)
Lemma negative_cap_counterexample :
  planner insertion_order url_download
    [("x", video "ok" [])] [] [] (Some (-1)) None false start
  = Ok ([("x", video "ok" [])], 1)
      {| rng := 0%nat; world := tt; fetch_log := [("x", true)] |}
  /\ ~ (exists e s',
          planner insertion_order url_download
            [("x", video "ok" [])] [] [] (Some (-1)) None false start
          = Raise e s').
Proof.
  split; [reflexivity|]. intros (e & s' & H). discriminate H.
Qed.

(** C6, the claim refuted: without shuffle the plan follows the iteration
    order of the sets, here c, b, a, and not the insertion order a, b, c
    of the input mapping. *)
Lemma insertion_order_counterexample :
  exists plan n s',
    planner decreasing_order url_download
      [("a", video "ok" []); ("b", video "ok" []); ("c", video "ok" [])] []
      ["a"; "b"; "c"] None None false start
    = Ok (plan, n) s'
    /\ dict_keys plan = ["c"; "b"; "a"]
    /\ dict_keys plan
       <> dict_keys [("a", video "ok" []); ("b", video "ok" []);
                     ("c", video "ok" [])].
Proof.
  eexists _, _, _. split; [reflexivity|]. split; [reflexivity | discriminate].
Qed.


(** Open Images: a cap of 0 selects everything *)
Example open_images_cap_zero :
  select_valid_ids rev_shuffle ["i1"; "i2"] (Some 0) start
  = Ok ["i1"; "i2"] start.
Proof. reflexivity. Qed.

Lemma classification_exclusive_witness :
  let raw := {| taxonomy := [];
                database := [("v1", video "u1" ["Archery"; "Bowling"]);
                             ("v2", video "u2" ["Archery"]);
                             ("v3", video "u3" ["Chess"])] |} in
  let classes := ["Archery"; "Bowling"] in
  let any_m := [("v2", video "u2" ["Archery"])] in
  let all_m := [("v1", video "u1" ["Archery"; "Bowling"])] in
  NoDup (dict_keys (database raw))
  /\ dict_get "validation" _SPLIT_MAP = Some "validation"
  /\ _get_matching_samples raw classes "validation" = inr (any_m, all_m)
  /\ (forall id, ~ (In id (dict_keys all_m) /\ In id (dict_keys any_m)))
  /\ (forall id info,
        In (id, info) (database raw) -> subset info = "validation" ->
        (forall c, In c classes -> In c (map label (annotations info))) ->
        In id (dict_keys all_m) /\ ~ In id (dict_keys any_m))
  /\ (forall id info,
        In (id, info) (database raw) -> subset info = "validation" ->
        (exists c, In c classes /\ In c (map label (annotations info))) ->
        ~ (forall c, In c classes -> In c (map label (annotations info))) ->
        In id (dict_keys any_m) /\ ~ In id (dict_keys all_m)).
Proof.
  intros raw classes any_m all_m.
  assert (Hnd : NoDup (dict_keys (database raw))).
  { simpl. repeat constructor; simpl; intuition discriminate. }
  assert (Hsp : dict_get "validation" _SPLIT_MAP = Some "validation")
    by reflexivity.
  assert (E : _get_matching_samples raw classes "validation" = inr (any_m, all_m))
    by reflexivity.
  split; [exact Hnd|]. split; [exact Hsp|]. split; [exact E|].
  exact (@classification_exclusive raw classes "validation" "validation"
           any_m all_m Hnd Hsp E).
Defined.

(** ** The added properties on concrete inputs *)

(** A taxonomy with two leaf classes and three samples of the validation
    split; the download of ["v2"] fails with [url_download] *)
Definition sports : raw_annotations :=
  {| taxonomy := [("Root", "-"); ("Sports", "Root"); ("Archery", "Sports");
                  ("Bowling", "Sports")];
     database := [("v1", video "u1" ["Archery"; "Bowling"]);
                  ("v2", video "bad" ["Archery"]);
                  ("v3", video "u3" ["Bowling"])] |}.

(** The loader on the concrete generator, with sets iterating in the
    given order and the given downloader *)
#[warnings="-notation-for-abbreviation"]
Notation loader order download :=
  (@download_activitynet_split nat Z.to_nat rev_shuffle order unit download).

Lemma sports_ids_NoDup : NoDup (dict_keys (database sports)).
Proof. simpl. repeat constructor; simpl; intuition discriminate. Qed.

Lemma sports_classes_NoDup : NoDup ["Archery"; "Bowling"].
Proof. repeat constructor; simpl; intuition discriminate. Qed.

(** The loader on the validation split with one class: ["v3"] is in the
    directory but does not match, ["v2"] fails, ["v1"] is downloaded *)
Example loader_example :
  loader decreasing_order url_download sports ["v3.mp4"; "v1.mp4.part"] "an"
    "validation" (Some ["Archery"]) None false None None "200" start
  = Loaded (Some 2) ["Archery"; "Bowling"]
      {| fo_classes := ["Archery"; "Bowling"];
         fo_labels := [("v1", [{| fo_label := 0; fo_timestamps := "" |};
                               {| fo_label := 1; fo_timestamps := "" |}])] |}
      ["v3.mp4"]
      {| rng := 0%nat; world := tt;
         fetch_log := [("v2", false); ("v1", true)] |}.
Proof. reflexivity. Qed.

(** Two classes that do not exist: the message cannot be formatted *)
Example loader_two_missing_classes :
  loader decreasing_order url_download sports ["v3.mp4"; "v1.mp4.part"] "an"
    "validation" (Some ["Archery"; "Chess"; "Golf"]) None false None None "200"
    start
  = Failed (TypeError "not all arguments converted during string formatting")
      ["v3.mp4"; "v1.mp4.part"] start.
Proof. reflexivity. Qed.

Lemma all_classes_sorted_leaves_witness :
  let taxonomy := [("Root", None); ("Sports", Some "Root");
                   ("Archery", Some "Sports"); ("Bowling", Some "Sports")] in
  (forall l, Permutation l (decreasing_order l))
  /\ Sorted (fun a b => String.leb a b = true)
       (_get_all_classes_of decreasing_order taxonomy)
  /\ NoDup (_get_all_classes_of decreasing_order taxonomy)
  /\ (forall c,
        In c (_get_all_classes_of decreasing_order taxonomy) <->
        In c (map fst taxonomy) /\ ~ In (Some c) (map snd taxonomy)).
Proof.
  intros taxonomy. split; [exact decreasing_order_perm|].
  exact (@all_classes_sorted_leaves decreasing_order decreasing_order_perm
           taxonomy).
Defined.

Lemma target_map_round_trip_witness :
  NoDup ["Archery"; "Bowling"]
  /\ (dict_get "Bowling" (target_map_of ["Archery"; "Bowling"]) = Some 1 <->
      0 <= 1 /\ nth_error ["Archery"; "Bowling"] (Z.to_nat 1) = Some "Bowling")
  /\ (dict_get "Bowling" (target_map_of ["Archery"; "Bowling"]) = None <->
      ~ In "Bowling" ["Archery"; "Bowling"]).
Proof.
  split; [exact sports_classes_NoDup|].
  exact (@target_map_round_trip ["Archery"; "Bowling"] "Bowling" 1
           sports_classes_NoDup).
Defined.

Lemma convert_label_format_decodes_witness :
  let activitynet_labels := [("v1", video "u1" ["Bowling"; "Archery"])] in
  let out :=
    {| fo_classes := ["Archery"; "Bowling"];
       fo_labels := [("v1", [{| fo_label := 1; fo_timestamps := "" |};
                             {| fo_label := 0; fo_timestamps := "" |}])] |} in
  NoDup (dict_keys activitynet_labels)
  /\ NoDup ["Archery"; "Bowling"]
  /\ _convert_label_format activitynet_labels
       (target_map_of ["Archery"; "Bowling"]) = inr out
  /\ fo_classes out = ["Archery"; "Bowling"]
  /\ dict_keys (fo_labels out) = dict_keys activitynet_labels
  /\ (forall id info,
        In (id, info) activitynet_labels ->
        exists fos,
          dict_get id (fo_labels out) = Some fos
          /\ Forall2
               (fun a f =>
                  0 <= fo_label f
                  /\ nth_error (fo_classes out) (Z.to_nat (fo_label f))
                     = Some (label a)
                  /\ fo_timestamps f = segment a)
               (annotations info) fos).
Proof.
  intros activitynet_labels out.
  assert (H1 : NoDup (dict_keys activitynet_labels))
    by (repeat constructor; simpl; tauto).
  assert (E : _convert_label_format activitynet_labels
                (target_map_of ["Archery"; "Bowling"]) = inr out)
    by reflexivity.
  split; [exact H1|]. split; [exact sports_classes_NoDup|]. split; [exact E|].
  exact (@convert_label_format_decodes activitynet_labels
           ["Archery"; "Bowling"] out H1 sports_classes_NoDup E).
Defined.

Lemma matching_samples_split_error_witness :
  In "train" (map snd _SPLIT_MAP)
  /\ ("train" = "validation" ->
      exists r, _get_matching_samples sports ["Archery"] "train" = inr r)
  /\ ("train" <> "validation" ->
      _get_matching_samples sports ["Archery"] "train"
      = inl (KeyError "train")).
Proof.
  assert (H : In "train" (map snd _SPLIT_MAP)) by (simpl; tauto).
  split; [exact H|].
  exact (@matching_samples_split_error sports ["Archery"] "train" H).
Defined.

Lemma matching_samples_are_filters_witness :
  NoDup (dict_keys (database sports))
  /\ dict_get "validation" _SPLIT_MAP = Some "validation"
  /\ _get_matching_samples sports ["Archery"; "Bowling"] "validation"
     = inr (filter (any_match "validation" ["Archery"; "Bowling"])
              (database sports),
            filter (all_match "validation" ["Archery"; "Bowling"])
              (database sports)).
Proof.
  split; [exact sports_ids_NoDup|]. split; [reflexivity|].
  exact (@matching_samples_are_filters sports ["Archery"; "Bowling"]
           "validation" "validation" sports_ids_NoDup eq_refl).
Defined.

Lemma plan_holds_materialized_samples_witness :
  (forall g l, Permutation l (fst (rev_shuffle g l)))
  /\ (forall l, Permutation l (decreasing_order l))
  /\ exists plan n s' new,
       planner decreasing_order url_download
         [("x", video "bad" [])] [("a", video "ok" []); ("b", video "ok" [])]
         ["a"] (Some 3) None true start
       = Ok (plan, n) s'
       /\ fetch_log s' = fetch_log start ++ new
       /\ n = len (successes new)
       /\ (forall k, In (k, true) new -> In k (dict_keys plan))
       /\ (forall k, In k (dict_keys plan) -> In k ["a"] \/ In (k, true) new).
Proof.
  split; [exact rev_shuffle_perm|]. split; [exact decreasing_order_perm|].
  exact (@plan_holds_materialized_samples nat Z.to_nat rev_shuffle
           rev_shuffle_perm decreasing_order decreasing_order_perm unit
           url_download "videos" [("x", video "bad" [])]
           [("a", video "ok" []); ("b", video "ok" [])] ["a"] (Some 3) None
           true start).
Defined.

Lemma fewer_than_cap_means_exhausted_witness :
  let all := [("x", video "bad" [])] in
  let any := [("a", video "ok" []); ("b", video "ok" [])] in
  (forall k, In k (dict_keys all) -> ~ In k (dict_keys any))
  /\ exists plan n s' new,
       planner insertion_order url_download all any ["a"] (Some 3) None false
         start
       = Ok (plan, n) s'
       /\ fetch_log s' = fetch_log start ++ new
       /\ (len plan < 3 ->
           (forall k, In k (dict_keys all) \/ In k (dict_keys any) ->
                      In k ["a"] -> In k (dict_keys plan))
           /\ (forall k, In k (dict_keys all) \/ In k (dict_keys any) ->
                         ~ In k ["a"] -> In k (map fst new))).
Proof.
  intros all any.
  assert (H : forall k, In k (dict_keys all) -> ~ In k (dict_keys any)).
  { intros k [<-|[]] [H|[H|[]]]; discriminate. }
  split; [exact H|].
  exact (@fewer_than_cap_means_exhausted nat Z.to_nat rev_shuffle
           rev_shuffle_perm insertion_order insertion_order_perm unit
           url_download "videos" all any ["a"] 3 None false start H).
Defined.

Lemma attempt_to_download_stops_at_budget_witness :
  let ids := ["a"; "b"; "c"] in
  let samples_info :=
    [("a", video "ok" []); ("b", video "bad" []); ("c", video "ok" [])] in
  incl ids (dict_keys samples_info)
  /\ exists new rest s',
       @_attempt_to_download nat unit url_download "videos" ids samples_info
         (Some 1) start
       = Ok (successes new) s'
       /\ ids = map fst new ++ rest
       /\ fetch_log s' = fetch_log start ++ new
       /\ (Some 1 = None -> rest = [])
       /\ (forall k, Some 1 = Some k ->
             len (successes new) <= Z.max k 1
             /\ (rest <> [] ->
                 len (successes new) = Z.max k 1
                 /\ exists new' i, new = new' ++ [(i, true)])).
Proof.
  intros ids samples_info.
  assert (H : incl ids (dict_keys samples_info)) by apply incl_refl.
  split; [exact H|].
  exact (@attempt_to_download_stops_at_budget nat unit url_download "videos"
           ids samples_info (Some 1) start H).
Defined.

Lemma resolve_names_round_trip_witness :
  let classes_map := [("/m/01", "Cat"); ("/m/02", "Dog")] in
  let classes := ["Dog"; "Bird"; "Cat"] in
  NoDup (dict_keys classes_map)
  /\ exists oi_classes,
       resolve_names classes_map classes
       = (oi_classes,
          filter (fun c => mem c (map snd classes_map)) classes,
          filter (fun c => negb (mem c (map snd classes_map))) classes)
       /\ Forall2 (fun k c => dict_get k classes_map = Some c) oi_classes
            (filter (fun c => mem c (map snd classes_map)) classes).
Proof.
  intros classes_map classes.
  assert (H : NoDup (dict_keys classes_map))
    by (repeat constructor; simpl; intuition discriminate).
  split; [exact H|].
  exact (@resolve_names_round_trip classes_map classes H).
Defined.

Lemma open_images_selection_sound_witness :
  let label_types := ["detections"; "segmentations"] in
  let det_ids := ["i1"; "i2"; "i3"] in
  let seg_ids := ["i2"; "i3"; "i4"] in
  label_types <> []
  /\ (forall t, In t label_types -> In t _DEFAULT_LABEL_TYPES)
  /\ exists v,
       valid_ids_of insertion_order label_types det_ids ["i9"] ["i8"] seg_ids
       = Some v
       /\ (forall x,
             In x v <->
             (forall t, In t label_types ->
                        In x (ids_of_type det_ids ["i9"] ["i8"] seg_ids t)))
       /\ (forall ids s',
             select_valid_ids rev_shuffle (insertion_order v) (Some 1) start
             = Ok ids s' ->
             ids <> []
             /\ (forall x t, In x ids -> In t label_types ->
                   In x (ids_of_type det_ids ["i9"] ["i8"] seg_ids t))
             /\ (forall c, Some 1 = Some c -> 0 < c -> len ids <= c)).
Proof.
  intros label_types det_ids seg_ids.
  assert (H1 : label_types <> []) by discriminate.
  assert (H2 : forall t, In t label_types -> In t _DEFAULT_LABEL_TYPES).
  { intros t [<-|[<-|[]]]; simpl; tauto. }
  split; [exact H1|]. split; [exact H2|].
  exact (@open_images_selection_sound nat rev_shuffle rev_shuffle_perm
           insertion_order insertion_order_perm unit label_types det_ids
           ["i9"] ["i8"] seg_ids (Some 1) start H1 H2).
Defined.

Lemma loader_rejects_arguments_first_witness :
  let dir := ["v3.mp4"; "v1.mp4.part"] in
  (~ In "validation" ["train"; "test"; "validation"]
   \/ ~ In "200" ["200"; "100"]
   \/ ("validation" <> "test"
       /\ exists cs c, Some ["Archery"; "Chess"] = Some cs /\ In c cs
                       /\ ~ In c (_get_all_classes decreasing_order sports)))
  /\ exists e,
       loader decreasing_order url_download sports dir "an" "validation"
         (Some ["Archery"; "Chess"]) None false None None "200" start
       = Failed e dir start.
Proof.
  intros dir.
  assert (H : ~ In "validation" ["train"; "test"; "validation"]
              \/ ~ In "200" ["200"; "100"]
              \/ ("validation" <> "test"
                  /\ exists cs c,
                       Some ["Archery"; "Chess"] = Some cs /\ In c cs
                       /\ ~ In c (_get_all_classes decreasing_order sports))).
  { right. right. split; [discriminate|].
    exists ["Archery"; "Chess"], "Chess". split; [reflexivity|].
    split; [simpl; tauto|]. vm_compute. intros [H|[H|[]]]; discriminate. }
  split; [exact H|].
  exact (@loader_rejects_arguments_first nat Z.to_nat rev_shuffle
           decreasing_order decreasing_order_perm unit url_download sports dir
           "an" "validation" (Some ["Archery"; "Chess"]) None false None None
           "200" start H).
Defined.

Lemma loader_train_with_classes_raises_witness :
  let dir := ["v3.mp4"; "v1.mp4.part"] in
  In "200" ["200"; "100"]
  /\ (forall c, In c ["Archery"] ->
                In c (_get_all_classes decreasing_order sports))
  /\ loader decreasing_order url_download sports dir "an" "train"
       (Some ["Archery"]) None false None None "200" start
     = Failed (PyError (KeyError "train"))
         (filter (fun f => negb (is_part f)) dir) start.
Proof.
  intros dir.
  assert (H1 : In "200" ["200"; "100"]) by (simpl; tauto).
  assert (H2 : forall c, In c ["Archery"] ->
                         In c (_get_all_classes decreasing_order sports)).
  { intros c [<-|[]]. vm_compute. tauto. }
  split; [exact H1|]. split; [exact H2|].
  exact (@loader_train_with_classes_raises nat Z.to_nat rev_shuffle
           decreasing_order decreasing_order_perm unit url_download sports dir
           "an" ["Archery"] None false None None "200" start H1 H2).
Defined.

Lemma loader_never_refetches_witness :
  let dir := ["v3.mp4"; "v1.mp4.part"] in
  NoDup (dict_keys (database sports))
  /\ exists new,
       fetch_log
         (outcome_state
            (loader decreasing_order url_download sports dir "an" "validation"
               None None true (Some 7) (Some 2) "200" start))
       = fetch_log start ++ new
       /\ NoDup (map fst new)
       /\ (forall k, In k (map fst new) ->
             In k (dict_keys (database sports))
             /\ ~ exists f, In f dir /\ is_part f = false
                            /\ fst (os_path_splitext f) = k).
Proof.
  intros dir. split; [exact sports_ids_NoDup|].
  exact (@loader_never_refetches nat Z.to_nat rev_shuffle rev_shuffle_perm
           decreasing_order decreasing_order_perm unit url_download sports dir
           "an" "validation" None None true (Some 7) (Some 2) "200" start
           sports_ids_NoDup).
Defined.

Lemma loader_reports_what_it_did_witness :
  let dir := ["v3.mp4"; "v1.mp4.part"] in
  let written :=
    {| fo_classes := ["Archery"; "Bowling"];
       fo_labels := [("v1", [{| fo_label := 0; fo_timestamps := "" |};
                             {| fo_label := 1; fo_timestamps := "" |}])] |} in
  let s' := {| rng := 0%nat; world := tt;
               fetch_log := [("v2", false); ("v1", true)] |} in
  loader decreasing_order url_download sports dir "an" "validation"
    (Some ["Archery"]) None false None None "200" start
  = Loaded (Some 2) ["Archery"; "Bowling"] written ["v3.mp4"] s'
  /\ ["Archery"; "Bowling"] = _get_all_classes decreasing_order sports
  /\ fo_classes written = ["Archery"; "Bowling"]
  /\ ["v3.mp4"] = filter (fun f => negb (is_part f)) dir
  /\ exists new,
       fetch_log s' = fetch_log start ++ new
       /\ (Some 2 = None <-> successes new = [])
       /\ (forall n, Some 2 = Some n ->
             n = len (successes new)
                 + len (filter (fun f => negb (is_part f)) dir))
       /\ NoDup (dict_keys (fo_labels written))
       /\ (forall id, In id (dict_keys (fo_labels written)) ->
             In (id, true) new
             \/ exists f, In f dir /\ is_part f = false
                          /\ fst (os_path_splitext f) = id).
Proof.
  intros dir written s'.
  assert (E : loader decreasing_order url_download sports dir "an" "validation"
                (Some ["Archery"]) None false None None "200" start
              = Loaded (Some 2) ["Archery"; "Bowling"] written ["v3.mp4"] s')
    by reflexivity.
  split; [exact E|].
  exact (@loader_reports_what_it_did nat Z.to_nat rev_shuffle rev_shuffle_perm
           decreasing_order decreasing_order_perm unit url_download sports dir
           "an" "validation" (Some ["Archery"]) None false None None "200"
           start s' (Some 2) ["Archery"; "Bowling"] written ["v3.mp4"] E).
Defined.
